(** * Allocation tracker: memory_manager.c and memory_management_tool.c

    A shallow embedding of the two tracker variants of the repository and
    the properties of their allocate / free / report operations.

    - [Module Manager] embeds the fixed-table tracker of
      [memory_manager.h] / [memory_manager.c].
    - [Module Tool] embeds the linked-list tracker of
      [memory_management_tool.c]: [safe_memory_allocate],
      [safe_memory_free], [generate_memory_report] and [main].
    - [Module Demo] embeds the client of the fixed-table tracker in
      [main.c]: [create_example_struct] and [free_example_struct].

    The C code runs against the C library: [malloc], [free], [exit] and the
    [printf] family.  They are modelled once, in the first part of the file,
    as actions of a small state-and-failure monad over a machine made of the
    program's globals, the set of live heap blocks and the trace of calls
    made so far. *)

From Stdlib Require Import ZArith Lia String Ascii.
From Stdlib Require Floats DecimalString.
From stdpp Require Import base numbers list strings gmap sorting.

Local Open Scope Z_scope.

(** ** Machine integers and pointers *)

(** [size_t] and [uint64_t] are 64-bit unsigned; arithmetic on them wraps. *)
Definition SIZE_WIDTH : Z := 64.
Definition size_t_wrap (z : Z) : Z := z mod 2 ^ SIZE_WIDTH.
Definition uint64_wrap (z : Z) : Z := z mod 2 ^ 64.

(** Pointers are addresses; [NULL] is address 0. *)
Definition NULL : Z := 0.
Definition EXIT_FAILURE : Z := 1.

(** ** The C library, as the tracker sees it *)

Inductive stream := stdout | stderr.

(** One argument of a [printf]-family call, tagged by its conversion. *)
Inductive arg :=
| arg_s (s : string)      (* %s  *)
| arg_d (n : Z)           (* %d  *)
| arg_zu (n : Z)          (* %zu *)
| arg_p (p : Z).          (* %p  *)

(** The trace records every library call the program makes, in order.
    A format is kept as it is spelled in the source. *)
Inductive event :=
| Ev_printf (to : stream) (format : string) (args : list arg)
| Ev_malloc (size : Z) (result : Z)
| Ev_free (p : Z).

(** The heap is the list of live blocks, each an address and its extent. *)
Abbreviation heap := (list (Z * Z)).

Definition overlaps (p s q t : Z) : bool := (p <? q + t) && (q <? p + s).

(** [fits h p s]: a block of [s] bytes at [p] lies in the address space,
    is not at [NULL] and is disjoint from every live block of [h]. *)
Definition fits (h : heap) (p s : Z) : bool :=
  (0 <? p) && (0 <? s) && (p + s <=? 2 ^ SIZE_WIDTH)
  && forallb (fun b => negb (overlaps p s b.1 b.2)) h.

Fixpoint heap_wf (h : heap) : bool :=
  match h with
  | [] => true
  | b :: r => fits r b.1 b.2 && heap_wf r
  end.

Definition live (p : Z) (h : heap) : bool :=
  existsb (fun b => b.1 =? p) h.

(** [release p h] removes the live block at [p]; there is none when [p] is
    not the address of a live block. *)
Fixpoint release (p : Z) (h : heap) : option heap :=
  match h with
  | [] => None
  | b :: r => if b.1 =? p then Some r else cons b <$> release p r
  end.

(** The bytes held by the live blocks. *)
Fixpoint heap_bytes (h : heap) : Z :=
  match h with
  | [] => 0
  | b :: r => b.2 + heap_bytes r
  end.

(** Blocks of positive extent, pairwise disjoint. *)
Fixpoint disjoint_blocks (h : heap) : Prop :=
  match h with
  | [] => True
  | b :: r =>
      0 < b.2
      /\ Forall (fun c => b.1 + b.2 <= c.1 \/ c.1 + c.2 <= b.1) r
      /\ disjoint_blocks r
  end.

Definition inside (lo hi : Z) (b : Z * Z) : Prop := lo <= b.1 /\ b.1 + b.2 <= hi.

Record machine (G : Type) := Machine {
  globals : G;
  mheap : heap;
  trace : list event
}.
Arguments Machine {G} _ _ _.
Arguments globals {G} _.
Arguments mheap {G} _.
Arguments trace {G} _.

(** How a call ends: it returns, it ends the process through [exit], it
    reaches an operation whose behaviour C leaves undefined (the machine is
    the one at that point), or it was given an allocator answer that
    [malloc] cannot give in the current heap. *)
Inductive outcome (S A : Type) :=
| Returned (a : A) (s : S)
| Exited (code : Z) (s : S)
| Undefined (s : S)
| Infeasible.
Arguments Returned {S A} _ _.
Arguments Exited {S A} _ _.
Arguments Undefined {S A} _.
Arguments Infeasible {S A}.

Definition returns {S A} (o : outcome S A) : bool :=
  match o with Returned _ _ => true | _ => false end.

Definition result_of {S A} (d : A) (o : outcome S A) : A :=
  match o with Returned a _ => a | _ => d end.

Definition machine_of {S A} (d : S) (o : outcome S A) : S :=
  match o with
  | Returned _ s | Exited _ s | Undefined s => s
  | Infeasible => d
  end.

Definition M (G A : Type) : Type := machine G -> outcome (machine G) A.

Global Instance M_ret {G} : MRet (M G) := fun A a s => Returned a s.
Global Instance M_bind {G} : MBind (M G) := fun A B f m s =>
  match m s with
  | Returned a s' => f a s'
  | Exited c s' => Exited c s'
  | Undefined s' => Undefined s'
  | Infeasible => Infeasible
  end.

Section Libc.
Context {G : Type}.

Definition get_globals : M G G := fun s => Returned (globals s) s.

Definition set_globals (g : G) : M G unit :=
  fun s => Returned tt (Machine g (mheap s) (trace s)).

Definition emit (e : event) : M G unit :=
  fun s => Returned tt (Machine (globals s) (mheap s) (trace s ++ [e])).

Definition fprintf (to : stream) (format : string) (args : list arg) : M G unit :=
  emit (Ev_printf to format args).

Definition printf := fprintf stdout.

(** [malloc size] either fails, returning [NULL], or returns the address
    of a fresh block disjoint from all live ones.  Which of the two, and
    which address, is the allocator's choice: it is the [answer]. *)
Definition malloc (size : Z) (answer : Z) : M G Z :=
  fun s =>
    if answer =? NULL then
      Returned NULL (Machine (globals s) (mheap s) (trace s ++ [Ev_malloc size NULL]))
    else if fits (mheap s) answer size then
      Returned answer
        (Machine (globals s) ((answer, size) :: mheap s)
                 (trace s ++ [Ev_malloc size answer]))
    else Infeasible.

(** [free p] releases the live block at [p].  [free(NULL)] does nothing;
    on any other address that is not a live block (never allocated, or
    already released) the behaviour is undefined. *)
Definition free (p : Z) : M G unit :=
  fun s =>
    let s1 := Machine (globals s) (mheap s) (trace s ++ [Ev_free p]) in
    if p =? NULL then Returned tt s1
    else match release p (mheap s) with
         | Some h' => Returned tt (Machine (globals s) h' (trace s1))
         | None => Undefined s1
         end.

Definition exit {A} (code : Z) : M G A := fun s => Exited code s.
End Libc.

(** [strncpy(dst, src, n)]: the [n] bytes written, the characters of [src]
    up to its terminator and then zero padding. *)
Fixpoint strncpy_bytes (src : string) (n : nat) : list ascii :=
  match n with
  | O => []
  | S n' =>
      match src with
      | EmptyString => replicate n Ascii.zero
      | String c rest =>
          if Ascii.eqb c Ascii.zero then replicate n Ascii.zero
          else c :: strncpy_bytes rest n'
      end
  end.

Definition strncpy (dst : list ascii) (src : string) (n : nat) : list ascii :=
  strncpy_bytes src n ++ drop n dst.

(** The C string a buffer holds: its bytes before the first zero byte. *)
Fixpoint c_string (buf : list ascii) : list ascii :=
  match buf with
  | [] => []
  | c :: rest => if Ascii.eqb c Ascii.zero then [] else c :: c_string rest
  end.

(** ** memory_manager.h / memory_manager.c: the fixed-table tracker *)

Module Manager.

Definition MAX_FILENAME_LENGTH : Z := 256.
Definition MAX_TRACKED_BLOCKS : Z := 1000.

Inductive MemoryAllocationType :=
| MEMORY_TYPE_STATIC
| MEMORY_TYPE_DYNAMIC
| MEMORY_TYPE_TEMPORARY
| MEMORY_TYPE_PERSISTENT.

Inductive MemoryStatus :=
| MEMORY_STATUS_ALLOCATED
| MEMORY_STATUS_FREED
| MEMORY_STATUS_CORRUPTED.

(** The integer values of the enumerators. *)
Definition type_value (t : MemoryAllocationType) : Z :=
  match t with
  | MEMORY_TYPE_STATIC => 0
  | MEMORY_TYPE_DYNAMIC => 1
  | MEMORY_TYPE_TEMPORARY => 2
  | MEMORY_TYPE_PERSISTENT => 3
  end.

Definition status_value (s : MemoryStatus) : Z :=
  match s with
  | MEMORY_STATUS_ALLOCATED => 0
  | MEMORY_STATUS_FREED => 1
  | MEMORY_STATUS_CORRUPTED => 2
  end.

Record MemoryBlock := {
  pointer : Z;
  size : Z;
  filename : list ascii;
  line_number : Z;
  type : MemoryAllocationType;
  status : MemoryStatus;
  timestamp : Z
}.

Record MemoryTracker := {
  blocks : list MemoryBlock;
  current_block_count : Z;
  total_allocated_memory : Z
}.

(** The globals of memory_manager.c: the tracker, and the counter that is
    static inside [get_current_timestamp]. *)
Record Globals := {
  g_memory_tracker : MemoryTracker;
  static_timestamp : Z
}.

(** [memset(block, 0, sizeof(MemoryBlock))]: every field has all bits zero,
    which for the two enums is their first enumerator. *)
Definition zero_block : MemoryBlock :=
  {| pointer := NULL; size := 0;
     filename := replicate (Z.to_nat MAX_FILENAME_LENGTH) Ascii.zero;
     line_number := 0; type := MEMORY_TYPE_STATIC;
     status := MEMORY_STATUS_ALLOCATED; timestamp := 0 |}.

Definition zero_tracker : MemoryTracker :=
  {| blocks := replicate (Z.to_nat MAX_TRACKED_BLOCKS) zero_block;
     current_block_count := 0; total_allocated_memory := 0 |}.

Definition world := machine Globals.

(** The machine at program start: [g_memory_tracker = {0}], the static
    counter 0, and whatever the heap holds already. *)
Definition boot (h : heap) : world :=
  Machine {| g_memory_tracker := zero_tracker; static_timestamp := 0 |} h [].

Definition tracker_of (w : world) : MemoryTracker := g_memory_tracker (globals w).

Definition set_tracker (t : MemoryTracker) : M Globals unit :=
  g ← get_globals;
  set_globals {| g_memory_tracker := t; static_timestamp := static_timestamp g |}.

Definition set_block (slot : nat) (b : MemoryBlock) : M Globals unit :=
  g ← get_globals;
  let t := g_memory_tracker g in
  set_tracker {| blocks := <[slot := b]> (blocks t);
                 current_block_count := current_block_count t;
                 total_allocated_memory := total_allocated_memory t |}.

(** memory_manager.c, [get_current_timestamp]: [return ++timestamp;]. *)
Definition get_current_timestamp : M Globals Z :=
  g ← get_globals;
  let t := uint64_wrap (static_timestamp g + 1) in
  set_globals {| g_memory_tracker := g_memory_tracker g; static_timestamp := t |};;
  mret t.

(** memory_manager.c, [find_available_slot]: the scan returns the first
    index whose [pointer] is [NULL], or -1.  The array [blocks] always has
    [MAX_TRACKED_BLOCKS] elements, so the loop over the indices below
    [MAX_TRACKED_BLOCKS] is a scan of the whole list. *)
Definition find_available_slot : M Globals Z :=
  g ← get_globals;
  match list_find (fun b => pointer b = NULL) (blocks (g_memory_tracker g)) with
  | Some (i, _) => mret (Z.of_nat i)
  | None => mret (-1)
  end.

(** memory_manager.c, [memory_manager_init]: the [memset] of the tracker. *)
Definition memory_manager_init : M Globals unit :=
  set_tracker zero_tracker.

(** The assignments of [safe_memory_allocate] to the fields of its slot,
    the last two being the [strncpy] and the terminator written after it. *)
Definition populate (block : MemoryBlock) (memory size : Z) (filename : string)
    (line_number : Z) (type : MemoryAllocationType) (ts : Z) : MemoryBlock :=
  {| pointer := memory; size := size; type := type;
     status := MEMORY_STATUS_ALLOCATED; line_number := line_number;
     timestamp := ts;
     filename :=
       <[Z.to_nat (MAX_FILENAME_LENGTH - 1) := Ascii.zero]>
         (strncpy block.(Manager.filename) filename
                  (Z.to_nat (MAX_FILENAME_LENGTH - 1))) |}.

(** memory_manager.c, [safe_memory_allocate]; [answer] is what its call of
    [malloc] returns. *)
Definition safe_memory_allocate
    (size : Z) (filename : string) (line_number : Z)
    (type : MemoryAllocationType) (answer : Z) : M Globals Z :=
  if size =? 0 then
    fprintf stderr "WARNING: Zero-byte allocation\n" [];;
    mret NULL
  else
    g ← get_globals;
    if MAX_TRACKED_BLOCKS <=? current_block_count (g_memory_tracker g) then
      fprintf stderr "ERROR: Memory tracker full\n" [];;
      mret NULL
    else
      memory ← malloc size answer;
      if memory =? NULL then
        fprintf stderr "CRITICAL: Allocation failed at %s:%d\n"
                [arg_s filename; arg_d line_number];;
        mret NULL
      else
        slot ← find_available_slot;
        if slot =? -1 then
          free memory;;
          mret NULL
        else
          g ← get_globals;
          let block := default zero_block (blocks (g_memory_tracker g) !! Z.to_nat slot) in
          ts ← get_current_timestamp;
          set_block (Z.to_nat slot)
            (populate block memory size filename line_number type ts);;
          g ← get_globals;
          let t := g_memory_tracker g in
          set_tracker {| blocks := blocks t;
                         current_block_count := size_t_wrap (current_block_count t + 1);
                         total_allocated_memory := size_t_wrap (total_allocated_memory t + size) |};;
          mret memory.

(** memory_manager.c, [safe_memory_free]: the loop stops at the first slot
    whose [pointer] is [memory]; there the counters are updated, the status
    is set, the block is passed to [free] and the slot is cleared, in this
    order. *)
Definition safe_memory_free
    (memory : Z) (filename : string) (line_number : Z) : M Globals unit :=
  if memory =? NULL then
    fprintf stderr "WARNING: Freeing NULL pointer at %s:%d\n"
            [arg_s filename; arg_d line_number]
  else
    g ← get_globals;
    match list_find (fun b => pointer b = memory) (blocks (g_memory_tracker g)) with
    | Some (i, block) =>
        let t := g_memory_tracker g in
        set_tracker {| blocks := blocks t;
                       current_block_count := current_block_count t;
                       total_allocated_memory :=
                         size_t_wrap (total_allocated_memory t - size block) |};;
        g ← get_globals;
        let t := g_memory_tracker g in
        set_tracker {| blocks := blocks t;
                       current_block_count := size_t_wrap (current_block_count t - 1);
                       total_allocated_memory := total_allocated_memory t |};;
        set_block i {| pointer := pointer block; size := size block;
                       filename := block.(Manager.filename);
                       line_number := block.(Manager.line_number);
                       type := type block; status := MEMORY_STATUS_FREED;
                       timestamp := timestamp block |};;
        free memory;;
        set_block i zero_block
    | None =>
        fprintf stderr "WARNING: Untracked memory free at %s:%d\n"
                [arg_s filename; arg_d line_number];;
        free memory
    end.

(** The loop of [generate_memory_report], from index [i] on. *)
Fixpoint report_blocks (i : Z) (bs : list MemoryBlock) : M Globals unit :=
  match bs with
  | [] => mret tt
  | block :: rest =>
      (if pointer block =? NULL then mret tt
       else printf "Block %zu: %p, %zu bytes, Type: %d, Status: %d\n"
                   [arg_zu i; arg_p (pointer block); arg_zu (size block);
                    arg_d (type_value (type block));
                    arg_d (status_value (status block))]);;
      report_blocks (i + 1) rest
  end.

(** memory_manager.c, [generate_memory_report]. *)
Definition generate_memory_report : M Globals unit :=
  printf "\n--- MEMORY ALLOCATION REPORT ---\n" [];;
  g ← get_globals;
  printf "Total Blocks: %zu\n" [arg_zu (current_block_count (g_memory_tracker g))];;
  g ← get_globals;
  printf "Total Allocated: %zu bytes\n"
         [arg_zu (total_allocated_memory (g_memory_tracker g))];;
  g ← get_globals;
  report_blocks 0 (blocks (g_memory_tracker g)).

Definition get_total_allocated_memory : M Globals Z :=
  g ← get_globals; mret (total_allocated_memory (g_memory_tracker g)).

Definition get_current_block_count : M Globals Z :=
  g ← get_globals; mret (current_block_count (g_memory_tracker g)).

(** *** Sequences of calls *)

(** A call of the public interface.  An allocation carries the answer the
    allocator gives to its [malloc]. *)
Inductive op :=
| Init
| Alloc (size : Z) (filename : string) (line_number : Z)
        (type : MemoryAllocationType) (answer : Z)
| Free (memory : Z) (filename : string) (line_number : Z)
| Report.

Definition exec (o : op) : M Globals unit :=
  match o with
  | Init => memory_manager_init
  | Alloc size filename line_number type answer =>
      safe_memory_allocate size filename line_number type answer;; mret tt
  | Free memory filename line_number => safe_memory_free memory filename line_number
  | Report => generate_memory_report
  end.

Fixpoint run (ops : list op) : M Globals unit :=
  match ops with
  | [] => mret tt
  | o :: rest => exec o;; run rest
  end.

(** The calls to which C gives a meaning in [w]: the answer of [malloc],
    when the call gets that far, is one [malloc] can give, and a handle
    passed to [safe_memory_free] is null or a live block. *)
Definition defined_call (o : op) (w : world) : Prop :=
  match o with
  | Alloc size _ _ _ answer =>
      size = 0
      \/ MAX_TRACKED_BLOCKS <= current_block_count (tracker_of w)
      \/ answer = NULL
      \/ fits (mheap w) answer size = true
  | Free memory _ _ => memory = NULL \/ live memory (mheap w) = true
  | Init | Report => True
  end.

(** The machine a run from program start ends in. *)
Definition final (ops : list op) (h : heap) : world :=
  machine_of (boot h) (run ops (boot h)).

(** The round trip of two allocations and their frees, the allocator
    answering with the blocks at 4096 and 8192. *)
Definition round_trip_allocs : list op :=
  [ Init;
    Alloc 20 "main.c" 25 MEMORY_TYPE_DYNAMIC 4096;
    Alloc 50 "main.c" 36 MEMORY_TYPE_TEMPORARY 8192 ].

Definition round_trip : list op :=
  round_trip_allocs ++ [ Free 4096 "main.c" 58; Free 8192 "main.c" 55 ].

(** The two allocations, then the first handle freed once. *)
Definition one_freed : list op :=
  round_trip_allocs ++ [ Free 4096 "main.c" 58 ].

(** [n] allocations of 8 bytes each, answered with blocks 16 bytes apart. *)
Definition fill (n : nat) : list op :=
  (fun k => Alloc 8 "fill.c" (Z.of_nat k) MEMORY_TYPE_DYNAMIC (16 * (Z.of_nat k + 1)))
    <$> seq 0 n.

(** A machine that no run reaches: every slot holds the block at 4096,
    yet [current_block_count] is 0. *)
Definition miscounted : world :=
  Machine
    {| g_memory_tracker :=
         {| blocks := replicate (Z.to_nat MAX_TRACKED_BLOCKS)
                        (populate zero_block 4096 8 "fill.c" 0 MEMORY_TYPE_DYNAMIC 1);
            current_block_count := 0;
            total_allocated_memory := 0 |};
       static_timestamp := 1 |}
    [] [].

(** *** What a full scan of the table finds *)

Definition occupied (b : MemoryBlock) : bool := negb (pointer b =? NULL).

(** The sum of [size] over the slots whose pointer is not [NULL]. *)
Fixpoint occupied_bytes (bs : list MemoryBlock) : Z :=
  match bs with
  | [] => 0
  | b :: rest => (if occupied b then size b else 0) + occupied_bytes rest
  end.

(** The number of slots whose pointer is not [NULL]. *)
Fixpoint occupied_slots (bs : list MemoryBlock) : Z :=
  match bs with
  | [] => 0
  | b :: rest => (if occupied b then 1 else 0) + occupied_slots rest
  end.

(** *** Vocabulary of the properties *)

(** [w] with further events on its trace. *)
Definition log (w : world) (es : list event) : world :=
  Machine (globals w) (mheap w) (trace w ++ es).

(** The machine [safe_memory_allocate] leaves when it records the block
    at [answer] in slot [i], which held [old]. *)
Definition allocated (w : world) (i : nat) (old : MemoryBlock)
    (size : Z) (filename : string) (line_number : Z)
    (type : MemoryAllocationType) (answer : Z) : world :=
  let ts := uint64_wrap (static_timestamp (globals w) + 1) in
  Machine
    {| g_memory_tracker :=
         {| blocks :=
              <[i := populate old answer size filename line_number type ts]>
                (blocks (tracker_of w));
            current_block_count :=
              size_t_wrap (current_block_count (tracker_of w) + 1);
            total_allocated_memory :=
              size_t_wrap (total_allocated_memory (tracker_of w) + size) |};
       static_timestamp := ts |}
    ((answer, size) :: mheap w)
    (trace w ++ [Ev_malloc size answer]).

(** The ways [safe_memory_allocate] returns: the handle and the machine. *)
Inductive alloc_path (size : Z) (filename : string) (line_number : Z)
    (type : MemoryAllocationType) (answer : Z) (w : world) : Z -> world -> Prop :=
| path_zero :
    size = 0 ->
    alloc_path size filename line_number type answer w NULL
      (log w [Ev_printf stderr "WARNING: Zero-byte allocation\n" []])
| path_full :
    size <> 0 -> MAX_TRACKED_BLOCKS <= current_block_count (tracker_of w) ->
    alloc_path size filename line_number type answer w NULL
      (log w [Ev_printf stderr "ERROR: Memory tracker full\n" []])
| path_oom :
    size <> 0 -> current_block_count (tracker_of w) < MAX_TRACKED_BLOCKS ->
    answer = NULL ->
    alloc_path size filename line_number type answer w NULL
      (log w [Ev_malloc size NULL;
              Ev_printf stderr "CRITICAL: Allocation failed at %s:%d\n"
                        [arg_s filename; arg_d line_number]])
| path_no_slot :
    size <> 0 -> current_block_count (tracker_of w) < MAX_TRACKED_BLOCKS ->
    answer <> NULL -> fits (mheap w) answer size = true ->
    list_find (fun b => pointer b = NULL) (blocks (tracker_of w)) = None ->
    alloc_path size filename line_number type answer w NULL
      (log w [Ev_malloc size answer; Ev_free answer])
| path_ok i b :
    size <> 0 -> current_block_count (tracker_of w) < MAX_TRACKED_BLOCKS ->
    answer <> NULL -> fits (mheap w) answer size = true ->
    list_find (fun b => pointer b = NULL) (blocks (tracker_of w)) = Some (i, b) ->
    alloc_path size filename line_number type answer w answer
      (allocated w i b size filename line_number type answer).

(** The address and size of every occupied slot, in table order. *)
Definition tracked (bs : list MemoryBlock) : heap :=
  (fun b => (pointer b, size b)) <$> filter (fun b => pointer b <> NULL) bs.

(** No two slots hold the same non-null pointer. *)
Definition unique_pointers (bs : list MemoryBlock) : Prop :=
  forall i j bi bj,
    bs !! i = Some bi -> bs !! j = Some bj ->
    pointer bi <> NULL -> pointer bi = pointer bj -> i = j.

(** The state the operations keep the machine in. *)
Record consistent (w : world) : Prop := {
  c_length : length (blocks (tracker_of w)) = Z.to_nat MAX_TRACKED_BLOCKS;
  c_count : current_block_count (tracker_of w) = occupied_slots (blocks (tracker_of w));
  c_total : total_allocated_memory (tracker_of w) = occupied_bytes (blocks (tracker_of w));
  c_heap : heap_wf (mheap w) = true;
  c_live : forall i b, blocks (tracker_of w) !! i = Some b -> pointer b <> NULL ->
                       (pointer b, size b) ∈ mheap w;
  c_unique : unique_pointers (blocks (tracker_of w));
  c_status : forall i b, blocks (tracker_of w) !! i = Some b ->
                         status b = MEMORY_STATUS_ALLOCATED;
  c_clear : forall i b, blocks (tracker_of w) !! i = Some b -> pointer b = NULL ->
                        b = zero_block
}.

(** Whether [safe_memory_free memory] finds its handle in the table. *)
Definition finds (memory : Z) : M Globals bool :=
  g ← get_globals;
  mret (negb (memory =? NULL)
        && bool_decide (is_Some (list_find (fun b => pointer b = memory)
                                           (blocks (g_memory_tracker g))))).

(** What a sequence of calls has done: how many allocations returned a
    handle, how many frees found theirs in the table, and the handles
    returned and not freed. *)
Record tally := {
  allocations : Z;
  frees : Z;
  handles : list Z
}.

Definition no_calls : tally := {| allocations := 0; frees := 0; handles := [] |}.

(** [census ops c] runs [ops] as [run] does and keeps the tally of the
    calls made since the table was last initialised: it starts again from
    [no_calls] at every call of [memory_manager_init]. *)
Fixpoint census (ops : list op) (c : tally) : M Globals tally :=
  match ops with
  | [] => mret c
  | Init :: rest => memory_manager_init;; census rest no_calls
  | Alloc size filename line_number type answer :: rest =>
      handle ← safe_memory_allocate size filename line_number type answer;
      census rest
        (if handle =? NULL then c
         else {| allocations := allocations c + 1; frees := frees c;
                 handles := handle :: handles c |})
  | Free memory filename line_number :: rest =>
      found ← finds memory;
      safe_memory_free memory filename line_number;;
      census rest
        (if found : bool
         then {| allocations := allocations c; frees := frees c + 1;
                 handles := filter (fun p => p <> memory) (handles c) |}
         else c)
  | Report :: rest => generate_memory_report;; census rest c
  end.

(** [whole_run_census ops c] keeps the tally over the whole run: it counts
    as [census] does, but goes on counting across a call of
    [memory_manager_init] instead of starting again. *)
Fixpoint whole_run_census (ops : list op) (c : tally) : M Globals tally :=
  match ops with
  | [] => mret c
  | Init :: rest => memory_manager_init;; whole_run_census rest c
  | Alloc size filename line_number type answer :: rest =>
      handle ← safe_memory_allocate size filename line_number type answer;
      whole_run_census rest
        (if handle =? NULL then c
         else {| allocations := allocations c + 1; frees := frees c;
                 handles := handle :: handles c |})
  | Free memory filename line_number :: rest =>
      found ← finds memory;
      safe_memory_free memory filename line_number;;
      whole_run_census rest
        (if found : bool
         then {| allocations := allocations c; frees := frees c + 1;
                 handles := filter (fun p => p <> memory) (handles c) |}
         else c)
  | Report :: rest => generate_memory_report;; whole_run_census rest c
  end.

(** One allocation, answered with the block at 4096, then a
    re-initialisation of the table and a report. *)
Definition forgotten : list op :=
  [ Alloc 20 "main.c" 25 MEMORY_TYPE_DYNAMIC 4096; Init; Report ].

(** The tally agrees with the table. *)
Definition census_inv (c : tally) (w : world) : Prop :=
  0 <= frees c <= allocations c
  /\ Z.of_nat (length (handles c)) = allocations c - frees c
  /\ (tracked (blocks (tracker_of w))).*1 ≡ₚ handles c.

(** The line [generate_memory_report] prints for slot [i] holding [block]. *)
Definition block_line (i : nat) (block : MemoryBlock) : event :=
  Ev_printf stdout "Block %zu: %p, %zu bytes, Type: %d, Status: %d\n"
            [arg_zu (Z.of_nat i); arg_p (pointer block); arg_zu (size block);
             arg_d (type_value (type block)); arg_d (status_value (status block))].

(** The occupied slots with their indices, in table order. *)
Definition occupied_entries (bs : list MemoryBlock) : list (nat * MemoryBlock) :=
  filter (fun e => pointer e.2 <> NULL) (imap pair bs).

Definition report_of (t : MemoryTracker) : list event :=
  [ Ev_printf stdout "\n--- MEMORY ALLOCATION REPORT ---\n" [];
    Ev_printf stdout "Total Blocks: %zu\n" [arg_zu (current_block_count t)];
    Ev_printf stdout "Total Allocated: %zu bytes\n" [arg_zu (total_allocated_memory t)] ]
  ++ ((fun e => block_line e.1 e.2) <$> occupied_entries (blocks t)).

(** *** Further vocabulary *)

(** The bytes on the lines of a report: the sum of [size] over the entries. *)
Definition entries_bytes (es : list (nat * MemoryBlock)) : Z :=
  foldr (fun e acc => size e.2 + acc) 0 es.

(** Every file-name buffer of the table has [MAX_FILENAME_LENGTH] bytes, the
    last of them zero. *)
Definition terminated (b : MemoryBlock) : Prop :=
  length (filename b) = Z.to_nat MAX_FILENAME_LENGTH
  /\ filename b !! Z.to_nat (MAX_FILENAME_LENGTH - 1) = Some Ascii.zero.


(** A file name of 300 characters. *)
Definition long_name : string := string_of_list_ascii (replicate 300 "x"%char).

End Manager.

(** ** memory_management_tool.c: the linked-list tracker

    Of this file the properties below need [safe_memory_allocate] only. *)

Module Tool.

Definition MAX_FILENAME_LENGTH : Z := 256.

Inductive MemoryAllocationType :=
| MEMORY_TYPE_STATIC
| MEMORY_TYPE_DYNAMIC
| MEMORY_TYPE_TEMPORARY.

(** A tracking block; [next] is the address of the next one, or [NULL]. *)
Record MemoryBlock := {
  pointer : Z;
  size : Z;
  filename : list ascii;
  line_number : Z;
  type : MemoryAllocationType;
  next : Z
}.

(** [sizeof(MemoryBlock)] with 8-byte pointers and [size_t], 4-byte [int]
    and enum: 8 + 8 + 256 + 4 + 4 + 8. *)
Definition sizeof_MemoryBlock : Z := 288.

(** The globals: the head of the list, and the tracking blocks the program
    has written, by address. *)
Record Globals := {
  g_memory_tracker : Z;
  tracking_blocks : gmap Z MemoryBlock
}.

Definition world := machine Globals.

Definition boot (h : heap) : world :=
  Machine {| g_memory_tracker := NULL; tracking_blocks := ∅ |} h [].

(** memory_management_tool.c, [safe_memory_allocate].
    [answer] and [answer_block] are the allocator's answers to the two
    [malloc] calls, and [fresh] the bytes the new tracking block holds when
    [malloc] hands it over: [strncpy] overwrites all but the last of them. *)
Definition safe_memory_allocate
    (size : Z) (filename : string) (line_number : Z)
    (type : MemoryAllocationType)
    (answer answer_block : Z) (fresh : list ascii) : M Globals Z :=
  if size =? 0 then
    fprintf stderr "Warning: Attempting to allocate zero bytes\n" [];;
    mret NULL
  else
    allocated_memory ← malloc size answer;
    if allocated_memory =? NULL then
      fprintf stderr "CRITICAL: Memory allocation failed at %s:%d\n"
              [arg_s filename; arg_d line_number];;
      exit EXIT_FAILURE
    else
      tracking_block ← malloc sizeof_MemoryBlock answer_block;
      if tracking_block =? NULL then
        free allocated_memory;;
        fprintf stderr "CRITICAL: Tracking block allocation failed\n" [];;
        exit EXIT_FAILURE
      else
        g ← get_globals;
        set_globals
          {| g_memory_tracker := tracking_block;
             tracking_blocks :=
               <[tracking_block :=
                   {| pointer := allocated_memory; size := size;
                      filename := strncpy fresh filename
                                          (Z.to_nat (MAX_FILENAME_LENGTH - 1));
                      line_number := line_number; type := type;
                      next := g_memory_tracker g |}]> (tracking_blocks g) |};;
        mret allocated_memory.

Definition log (w : world) (es : list event) : world :=
  Machine (globals w) (mheap w) (trace w ++ es).

(** *** The rest of memory_management_tool.c *)

Definition INT_MAX : Z := 2 ^ 31 - 1.

Definition type_value (t : MemoryAllocationType) : Z :=
  match t with
  | MEMORY_TYPE_STATIC => 0
  | MEMORY_TYPE_DYNAMIC => 1
  | MEMORY_TYPE_TEMPORARY => 2
  end.

Definition undefined {A} : M Globals A := fun s => Undefined s.

(** [free(p)] of the C library, after which the bytes that were at [p] are
    no longer the program's: a tracking block written there is gone. *)
Definition free_block (p : Z) : M Globals unit :=
  free p;;
  g ← get_globals;
  set_globals {| g_memory_tracker := g_memory_tracker g;
                 tracking_blocks := delete p (tracking_blocks g) |}.

(** How a loop over the list leaves it: by its [break], at the block
    [current] reached from [previous]; by [current == NULL]; or by reading
    through a [current] at which no tracking block lives. *)
Inductive search_end :=
| Hit (current previous : Z) (block : MemoryBlock)
| Miss
| Wild (current : Z).

(** The loop of [safe_memory_free], run for at most [fuel] tests of its
    condition; [None] when they do not suffice. *)
Fixpoint search (fuel : nat) (g : gmap Z MemoryBlock) (memory current previous : Z)
  : option search_end :=
  match fuel with
  | O => None
  | S fuel' =>
      if current =? NULL then Some Miss
      else match g !! current with
           | None => Some (Wild current)
           | Some block =>
               if pointer block =? memory then Some (Hit current previous block)
               else search fuel' g memory (next block) current
           end
  end.

(** The block [b] after [b.next = n]. *)
Definition with_next (n : Z) (b : MemoryBlock) : MemoryBlock :=
  {| pointer := pointer b; size := size b; filename := b.(Tool.filename);
     line_number := b.(Tool.line_number); type := type b; next := n |}.

(** [previous->next = next], or [g_memory_tracker = next] at the head. *)
Definition unlink (previous next : Z) : M Globals unit :=
  g ← get_globals;
  if previous =? NULL then
    set_globals {| g_memory_tracker := next; tracking_blocks := tracking_blocks g |}
  else
    set_globals
      {| g_memory_tracker := g_memory_tracker g;
         tracking_blocks := alter (with_next next) previous (tracking_blocks g) |}.

(** memory_management_tool.c, [safe_memory_free]. *)
Definition safe_memory_free (fuel : nat)
    (memory : Z) (filename : string) (line_number : Z)
  : world -> option (outcome world unit) :=
  fun w =>
    if memory =? NULL then
      Some (fprintf stderr "Warning: Attempting to free NULL pointer at %s:%d\n"
                    [arg_s filename; arg_d line_number] w)
    else
      match search fuel (tracking_blocks (globals w)) memory
                   (g_memory_tracker (globals w)) NULL with
      | None => None
      | Some (Hit current previous block) =>
          Some ((unlink previous (next block);; free_block current;; free_block memory) w)
      | Some Miss => Some (free_block memory w)
      | Some (Wild _) => Some (Undefined w)
      end.

(** The blocks a walk down the list from [current] reads, and how it ends. *)
Fixpoint walk (fuel : nat) (g : gmap Z MemoryBlock) (current : Z)
  : option (list MemoryBlock * search_end) :=
  match fuel with
  | O => None
  | S fuel' =>
      if current =? NULL then Some ([], Miss)
      else match g !! current with
           | None => Some ([], Wild current)
           | Some block =>
               match walk fuel' g (next block) with
               | None => None
               | Some (l, e) => Some (block :: l, e)
               end
           end
  end.

(** The body of the loop of [generate_memory_report] for one block, on the
    running [total_allocated] (a [size_t]) and [block_count] (an [int]).
    [%s] reads the file name up to its zero byte; a buffer without one is
    read past its end.  [block_count++] overflows at [INT_MAX]. *)
Definition report_block (block : MemoryBlock) (acc : Z * Z) : M Globals (Z * Z) :=
  if bool_decide (Ascii.zero ∈ block.(Tool.filename)) then
    printf "Memory Block: \n  Pointer: %p\n  Size: %zu bytes\n  Allocated in: %s:%d\n  Type: %d\n\n"
           [arg_p (pointer block); arg_zu (size block);
            arg_s (string_of_list_ascii (c_string block.(Tool.filename)));
            arg_d block.(Tool.line_number); arg_d (type_value (type block))];;
    if acc.2 =? INT_MAX then undefined
    else mret (size_t_wrap (acc.1 + size block), acc.2 + 1)
  else undefined.

Fixpoint report_blocks (l : list MemoryBlock) (acc : Z * Z) : M Globals (Z * Z) :=
  match l with
  | [] => mret acc
  | block :: rest => acc' ← report_block block acc; report_blocks rest acc'
  end.

(** memory_management_tool.c, [generate_memory_report]. *)
Definition generate_memory_report (fuel : nat) : world -> option (outcome world unit) :=
  fun w =>
    match walk fuel (tracking_blocks (globals w)) (g_memory_tracker (globals w)) with
    | None => None
    | Some (l, e) =>
        Some ((printf "\n--- MEMORY ALLOCATION REPORT ---\n" [];;
               acc ← report_blocks l (0, 0);
               match e with
               | Miss =>
                   printf "Summary:\n  Total Blocks: %d\n  Total Memory Allocated: %zu bytes\n"
                          [arg_d acc.2; arg_zu acc.1]
               | _ => undefined
               end) w)
    end.

(** *** memory_management_tool.c, [main] *)

Definition EXIT_SUCCESS : Z := 0.

(** [sizeof(int)], as in [sizeof_MemoryBlock]. *)
Definition sizeof_int : Z := 4.

(** A write of [len] bytes at offset [off] of the block at [p]: defined when
    a live block at [p] holds these bytes.  The machine does not keep the
    bytes written, which the program never reads. *)
Definition poke (p off len : Z) : M Globals unit :=
  fun s =>
    if existsb (fun b => (b.1 =? p) && (0 <=? off) && (off + len <=? b.2)) (mheap s)
    then Returned tt s
    else Undefined s.

(** [for (int i = 0; i < 5; i++) dynamic_array[i] = i * 10;] *)
Definition fill_array (dynamic_array : Z) : M Globals unit :=
  foldr (fun i rest => poke dynamic_array (i * sizeof_int) sizeof_int;; rest)
        (mret tt) (seqZ 0 5).

(** [strcpy(dst, src)] writes the characters of [src] and a terminator. *)
Definition strcpy (dst : Z) (src : string) : M Globals unit :=
  poke dst 0 (Z.of_nat (String.length src) + 1).

(** Calls in sequence, where one may run out of loop bound. *)
Definition then_ {A B} (m : world -> option (outcome world A))
    (k : A -> world -> option (outcome world B)) : world -> option (outcome world B) :=
  fun w =>
    match m w with
    | None => None
    | Some (Returned a w') => k a w'
    | Some (Exited c w') => Some (Exited c w')
    | Some (Undefined w') => Some (Undefined w')
    | Some Infeasible => Some Infeasible
    end.

Definition total {A} (m : M Globals A) : world -> option (outcome world A) :=
  fun w => Some (m w).

(** [main].  [file] is what [__FILE__] expands to, [line_array] and
    [line_buffer] what [__LINE__] expands to in the two [ALLOCATE] calls,
    which span lines 205 to 208 and 210 to 213; the two [DEALLOCATE] calls
    are on lines 225 and 226.  The other parameters are the allocator's
    answers, as for [safe_memory_allocate]. *)
Definition main (fuel : nat) (file : string) (line_array line_buffer : Z)
    (answer_array block_array : Z) (fresh_array : list ascii)
    (answer_buffer block_buffer : Z) (fresh_buffer : list ascii)
  : world -> option (outcome world Z) :=
  then_ (total (safe_memory_allocate (5 * sizeof_int) file line_array MEMORY_TYPE_DYNAMIC
                                     answer_array block_array fresh_array))
    (fun dynamic_array =>
  then_ (total (safe_memory_allocate 50 file line_buffer MEMORY_TYPE_TEMPORARY
                                     answer_buffer block_buffer fresh_buffer))
    (fun string_buffer =>
  then_ (total (fill_array dynamic_array)) (fun _ =>
  then_ (total (strcpy string_buffer "Memory Management Demonstration")) (fun _ =>
  then_ (generate_memory_report fuel) (fun _ =>
  then_ (safe_memory_free fuel dynamic_array file 225) (fun _ =>
  then_ (safe_memory_free fuel string_buffer file 226) (fun _ =>
  then_ (generate_memory_report fuel) (fun _ =>
  total (mret EXIT_SUCCESS))))))))).

(** *** Vocabulary of the properties *)

(** The list that starts at [head]: the addresses of its tracking blocks
    and what they hold, first to last. *)
Inductive chain (g : gmap Z MemoryBlock) : Z -> list (Z * MemoryBlock) -> Prop :=
| chain_end : chain g NULL []
| chain_link a b l :
    a <> NULL -> g !! a = Some b -> chain g (next b) l -> chain g a ((a, b) :: l).

(** What a tracking block records, its link apart. *)
Definition entry (b : MemoryBlock)
  : Z * Z * list ascii * Z * MemoryAllocationType :=
  (pointer b, size b, b.(Tool.filename), b.(Tool.line_number), type b).

(** The address of the last block of [l], or [previous] when there is none. *)
Definition last_address (previous : Z) (l : list (Z * MemoryBlock)) : Z :=
  match last l with
  | Some n => n.1
  | None => previous
  end.

(** [l] with its last block linked to [n]. *)
Fixpoint relink (l : list (Z * MemoryBlock)) (n : Z) : list (Z * MemoryBlock) :=
  match l with
  | [] => []
  | [x] => [(x.1, with_next n x.2)]
  | x :: rest => x :: relink rest n
  end.

(** The record [generate_memory_report] prints for one tracking block. *)
Definition block_record (block : MemoryBlock) : event :=
  Ev_printf stdout
    "Memory Block: \n  Pointer: %p\n  Size: %zu bytes\n  Allocated in: %s:%d\n  Type: %d\n\n"
    [arg_p (pointer block); arg_zu (size block);
     arg_s (string_of_list_ascii (c_string block.(Tool.filename)));
     arg_d block.(Tool.line_number); arg_d (type_value (type block))].

(** The sum of the sizes the blocks record. *)
Definition listed_bytes (bs : list MemoryBlock) : Z :=
  foldr (fun b acc => size b + acc) 0 bs.

(** The machine after [safe_memory_allocate] has pushed its tracking block. *)
Definition pushed (w : world) (size : Z) (filename : string) (line_number : Z)
    (type : MemoryAllocationType) (answer answer_block : Z) (fresh : list ascii) : world :=
  Machine
    {| g_memory_tracker := answer_block;
       tracking_blocks :=
         <[answer_block :=
             {| pointer := answer; size := size;
                filename := strncpy fresh filename (Z.to_nat (MAX_FILENAME_LENGTH - 1));
                line_number := line_number; type := type;
                next := g_memory_tracker (globals w) |}]> (tracking_blocks (globals w)) |}
    ((answer_block, sizeof_MemoryBlock) :: (answer, size) :: mheap w)
    (trace w ++ [Ev_malloc size answer; Ev_malloc sizeof_MemoryBlock answer_block]).

(** The heap blocks a list stands for: its tracking blocks, then the
    memory they track. *)
Definition footprint (l : list (Z * MemoryBlock)) : heap :=
  ((fun n => (n.1, sizeof_MemoryBlock)) <$> l) ++ ((fun n => (pointer n.2, size n.2)) <$> l).

(** The state the operations keep the machine in: the tracking blocks the
    program holds are those of the list, and they and the memory they track
    are live heap blocks, each counted once. *)
Record tidy (w : world) (l : list (Z * MemoryBlock)) : Prop := {
  t_heap : heap_wf (mheap w) = true;
  t_chain : chain (tracking_blocks (globals w)) (g_memory_tracker (globals w)) l;
  t_dom : forall a, is_Some (tracking_blocks (globals w) !! a) <-> a ∈ l.*1;
  t_live : footprint l ⊆+ mheap w
}.

(** A call of the interface, with the allocator's answers. *)
Inductive op :=
| Alloc (size : Z) (filename : string) (line_number : Z) (type : MemoryAllocationType)
        (answer answer_block : Z) (fresh : list ascii)
| Free (memory : Z) (filename : string) (line_number : Z)
| Report.

Definition exec (fuel : nat) (o : op) : world -> option (outcome world unit) :=
  match o with
  | Alloc size filename line_number type answer answer_block fresh =>
      fun w => Some ((safe_memory_allocate size filename line_number type
                                           answer answer_block fresh;; mret tt) w)
  | Free memory filename line_number => safe_memory_free fuel memory filename line_number
  | Report => generate_memory_report fuel
  end.

Fixpoint run (fuel : nat) (ops : list op) (w : world) : option (outcome world unit) :=
  match ops with
  | [] => Some (Returned tt w)
  | o :: rest =>
      match exec fuel o w with
      | Some (Returned _ w') => run fuel rest w'
      | other => other
      end
  end.

(** A caller that passes to [safe_memory_free] no address of a tracking
    block: those it never gets from [safe_memory_allocate]. *)
Definition proper_call (o : op) (w : world) : Prop :=
  match o with
  | Free memory _ _ => tracking_blocks (globals w) !! memory = None
  | _ => True
  end.

Fixpoint proper (fuel : nat) (ops : list op) (w : world) : Prop :=
  match ops with
  | [] => True
  | o :: rest =>
      proper_call o w
      /\ match exec fuel o w with
         | Some (Returned _ w') => proper fuel rest w'
         | _ => True
         end
  end.

(** A call whose file name leaves room for a terminator in the
    [MAX_FILENAME_LENGTH - 1] bytes that [strncpy] writes. *)
Definition short_named (o : op) : Prop :=
  match o with
  | Alloc _ filename _ _ _ _ _ =>
      (String.length filename < Z.to_nat (MAX_FILENAME_LENGTH - 1))%nat
  | _ => True
  end.

(** *** A run of the tool *)

(** The two [ALLOCATE] calls of [main]: 20 bytes answered at 4096 with the
    tracking block at 8192, 50 bytes answered at 12288 with the tracking
    block at 16384, each tracking block handed over holding 256 bytes
    ["x"]. *)
Definition first_block : MemoryBlock :=
  {| pointer := 4096; size := 20;
     filename := strncpy (replicate 256 "x"%char) "memory_management_tool.c"
                         (Z.to_nat (MAX_FILENAME_LENGTH - 1));
     line_number := 205; type := MEMORY_TYPE_DYNAMIC; next := NULL |}.

Definition second_block : MemoryBlock :=
  {| pointer := 12288; size := 50;
     filename := strncpy (replicate 256 "x"%char) "memory_management_tool.c"
                         (Z.to_nat (MAX_FILENAME_LENGTH - 1));
     line_number := 210; type := MEMORY_TYPE_TEMPORARY; next := 8192 |}.

Definition main_allocs : list op :=
  [ Alloc 20 "memory_management_tool.c" 205 MEMORY_TYPE_DYNAMIC 4096 8192
          (replicate 256 "x"%char);
    Alloc 50 "memory_management_tool.c" 210 MEMORY_TYPE_TEMPORARY 12288 16384
          (replicate 256 "x"%char) ].

(** The machine after them, from an empty heap. *)
Definition main_state : world :=
  pushed (pushed (boot []) 20 "memory_management_tool.c" 205 MEMORY_TYPE_DYNAMIC
                 4096 8192 (replicate 256 "x"%char))
         50 "memory_management_tool.c" 210 MEMORY_TYPE_TEMPORARY
         12288 16384 (replicate 256 "x"%char).

(** A file name of 300 characters. *)
Definition long_name : string := string_of_list_ascii (replicate 300 "x"%char).

End Tool.

(** ** main.c: a client of the fixed-table tracker *)

(** The [double] arithmetic of main.c. *)
Module Double.
Import PrimFloat.

(** The conversion of an [int] to [double], which is exact. *)
Definition double_of_int (z : Z) : float :=
  if z <? 0 then opp (of_uint63 (Uint63.of_Z (- z)))
  else of_uint63 (Uint63.of_Z z).

(** The [double] that the constant [3.14] denotes. *)
Definition double_3_14 : float := 0x1.91eb851eb851fp+1%float.

End Double.

Module Demo.
Import Manager.

(** [ExampleStruct]; [name] is an address. *)
Record ExampleStruct := {
  id : Z;
  name : Z;
  value : PrimFloat.float
}.

(** [sizeof(ExampleStruct)]: an [int] and its padding, a pointer and a
    [double]. *)
Definition sizeof_ExampleStruct : Z := 24.

(** The globals of the program: those of memory_manager.c, and what the
    program has written to the memory it allocated, by address: the
    structures and the strings of [snprintf]. *)
Record Globals := {
  manager : Manager.Globals;
  structs : gmap Z ExampleStruct;
  strings : gmap Z (list ascii)
}.

Definition world := machine Globals.

(** The machine as memory_manager.c sees it, and the machine after
    memory_manager.c has run. *)
Definition tracker_world (s : world) : Manager.world :=
  Machine (manager (globals s)) (mheap s) (trace s).

Definition with_tracker (s : world) (t : Manager.world) : world :=
  Machine {| manager := globals t; structs := structs (globals s);
             strings := strings (globals s) |}
          (mheap t) (trace t).

(** A call of a function of memory_manager.c. *)
Definition call {A} (m : M Manager.Globals A) : M Globals A :=
  fun s =>
    match m (tracker_world s) with
    | Returned a t => Returned a (with_tracker s t)
    | Exited c t => Exited c (with_tracker s t)
    | Undefined t => Undefined (with_tracker s t)
    | Infeasible => Infeasible
    end.

Definition undefined {A} : M Globals A := fun s => Undefined s.

Definition set_struct (p : Z) (s : ExampleStruct) : M Globals unit :=
  g ← get_globals;
  set_globals {| manager := manager g; structs := <[p := s]> (structs g);
                 strings := strings g |}.

Definition set_string (p : Z) (bytes : list ascii) : M Globals unit :=
  g ← get_globals;
  set_globals {| manager := manager g; structs := structs g;
                 strings := <[p := bytes]> (strings g) |}.

(** What the program wrote at [p] is gone once [p] is freed. *)
Definition forget (p : Z) : M Globals unit :=
  g ← get_globals;
  set_globals {| manager := manager g; structs := delete p (structs g);
                 strings := delete p (strings g) |}.

(** [DEALLOCATE(ptr)] on line [line] of [file]: [safe_memory_free] passes
    every [ptr] other than [NULL] to [free]. *)
Definition DEALLOCATE (file : string) (line : Z) (ptr : Z) : M Globals unit :=
  call (safe_memory_free ptr file line);;
  if ptr =? NULL then mret tt else forget ptr.

(** The bytes [snprintf(s, n, "...%d", d)] writes for a format that is
    [text] followed by [%d]: at most [n - 1] characters and a
    terminator. *)
Definition snprintf_d (n : nat) (text : string) (d : Z) : list ascii :=
  take (n - 1) (list_ascii_of_string text
                ++ list_ascii_of_string (DecimalString.NilZero.string_of_int (Z.to_int d)))
  ++ [Ascii.zero].

(** main.c, [create_example_struct].  [file] is what [__FILE__] expands to,
    [line_struct] and [line_name] what [__LINE__] expands to in the two
    [ALLOCATE] calls, which span lines 25 to 28 and 36 to 39;
    [answer_struct] and [answer_name] are the answers of [malloc].  The
    three assignments to the fields of the new structure are one write of
    the structure. *)
Definition create_example_struct (file : string) (line_struct line_name : Z)
    (id : Z) (answer_struct answer_name : Z) : M Globals Z :=
  example ← call (safe_memory_allocate sizeof_ExampleStruct file line_struct
                                       MEMORY_TYPE_DYNAMIC answer_struct);
  if example =? NULL then
    fprintf stderr "Failed to create structure\n" [];;
    mret NULL
  else
    name ← call (safe_memory_allocate 50 file line_name MEMORY_TYPE_TEMPORARY
                                      answer_name);
    set_struct example {| id := id; name := name;
                          value := PrimFloat.mul (Double.double_of_int id) Double.double_3_14 |};;
    (if name =? NULL then undefined
     else set_string name (snprintf_d 50 "Example Structure " id));;
    mret example.

(** main.c, [free_example_struct]; reading [example->name] where the
    program holds no structure is undefined. *)
Definition free_example_struct (file : string) (example : Z) : M Globals unit :=
  if example =? NULL then mret tt
  else
    g ← get_globals;
    match structs g !! example with
    | None => undefined
    | Some s => DEALLOCATE file 55 (name s);; DEALLOCATE file 58 example
    end.

(** The program that has written nothing yet, on the tracker's machine. *)
Definition fresh_program (t : Manager.world) : world :=
  Machine {| manager := globals t; structs := ∅; strings := ∅ |} (mheap t) (trace t).

End Demo.

(** * Properties *)

(** ** The heap *)

Section HeapFacts.
Implicit Types (h : heap) (p s : Z) (b : Z * Z).

Lemma fits_spec h p s :
  fits h p s = true <->
  0 < p /\ 0 < s /\ p + s <= 2 ^ SIZE_WIDTH
  /\ Forall (fun c => p + s <= c.1 \/ c.1 + c.2 <= p) h.
Proof.
  unfold fits. rewrite !andb_true_iff, forallb_forall, Forall_forall.
  rewrite !Z.ltb_lt, Z.leb_le. unfold overlaps.
  split.
  - intros [[[Hp Hs] Hr] Hd]. repeat split; try done.
    intros c Hc. specialize (Hd c (proj1 (list_elem_of_In _ _) Hc)).
    apply negb_true_iff, andb_false_iff in Hd. rewrite !Z.ltb_ge in Hd. lia.
  - intros (Hp & Hs & Hr & Hd). repeat split; try done.
    intros c Hc. specialize (Hd c (proj2 (list_elem_of_In _ _) Hc)).
    apply negb_true_iff, andb_false_iff. rewrite !Z.ltb_ge. lia.
Qed.

Lemma heap_wf_disjoint h : heap_wf h = true -> disjoint_blocks h.
Proof.
  induction h as [|b r IH]; simpl; [done|].
  rewrite andb_true_iff, fits_spec. intros [(_ & Hs & _ & Hd) Hr]. auto.
Qed.

Lemma heap_wf_inside h :
  heap_wf h = true -> Forall (inside 1 (2 ^ SIZE_WIDTH)) h.
Proof.
  induction h as [|b r IH]; simpl; [constructor|].
  rewrite andb_true_iff, fits_spec. intros [(Hp & _ & Hr & _) Hw].
  constructor; [unfold inside; lia | auto].
Qed.

Lemma disjoint_blocks_positive h :
  disjoint_blocks h -> Forall (fun c => 0 < c.2) h.
Proof.
  induction h as [|b r IH]; simpl; [constructor|].
  intros (Hs & _ & Hr). constructor; auto.
Qed.

Lemma disjoint_blocks_filter (P : Z * Z -> Prop) `{!forall c, Decision (P c)} h :
  disjoint_blocks h -> disjoint_blocks (filter P h).
Proof.
  induction h as [|b r IH]; [done|].
  intros (Hs & Hd & Hr). rewrite filter_cons.
  destruct (decide (P b)); simpl; [|auto].
  repeat split; auto.
  rewrite Forall_forall in Hd |- *. intros c [_ Hc]%list_elem_of_filter. auto.
Qed.

Lemma heap_bytes_filter (P : Z * Z -> Prop) `{!forall c, Decision (P c)} h :
  heap_bytes h = heap_bytes (filter P h) + heap_bytes (filter (fun c => ~ P c) h).
Proof.
  induction h as [|b r IH]; [done|].
  rewrite !filter_cons.
  destruct (decide (P b)), (decide (~ P b)); simpl; try tauto; lia.
Qed.

(** Disjoint blocks inside a region take no more room than the region. *)
Lemma region_bound (n : nat) : forall h lo hi,
  (length h <= n)%nat -> disjoint_blocks h -> Forall (inside lo hi) h ->
  lo <= hi -> heap_bytes h <= hi - lo.
Proof.
  induction n as [|n IH]; intros [|b r] lo hi Hlen Hdis Hin Hle; simpl in *;
    try lia.
  destruct Hdis as (Hs & Hd & Hr).
  apply Forall_cons in Hin as [[Hlo Hhi] Hin].
  pose proof (disjoint_blocks_positive _ Hr) as Hpos.
  rewrite (heap_bytes_filter (fun c => c.1 < b.1) r).
  assert (heap_bytes (filter (fun c => c.1 < b.1) r) <= b.1 - lo) as Hlow.
  { apply IH; [| by apply disjoint_blocks_filter | | lia].
    - pose proof (length_filter (fun c => c.1 < b.1) r). lia.
    - apply Forall_forall. intros c [Hc Hcr]%list_elem_of_filter.
      rewrite Forall_forall in Hin, Hd.
      destruct (Hin c Hcr) as [? ?]. specialize (Hd c Hcr).
      unfold inside. lia. }
  assert (heap_bytes (filter (fun c => ~ c.1 < b.1) r) <= hi - (b.1 + b.2)) as Hup.
  { apply IH; [| by apply disjoint_blocks_filter | | lia].
    - pose proof (length_filter (fun c => ~ c.1 < b.1) r). lia.
    - apply Forall_forall. intros c [Hc Hcr]%list_elem_of_filter.
      rewrite Forall_forall in Hin, Hd, Hpos.
      destruct (Hin c Hcr) as [? ?]. specialize (Hd c Hcr).
      specialize (Hpos c Hcr). unfold inside. lia. }
  lia.
Qed.

(** The live blocks of a well-formed heap fit in the address space. *)
Lemma heap_wf_bytes h : heap_wf h = true -> heap_bytes h < 2 ^ SIZE_WIDTH.
Proof.
  intros Hw.
  pose proof (region_bound (length h) h 1 (2 ^ SIZE_WIDTH) (le_n _)
                (heap_wf_disjoint _ Hw) (heap_wf_inside _ Hw)) as H.
  assert (1 <= 2 ^ SIZE_WIDTH) by (unfold SIZE_WIDTH; lia). lia.
Qed.

Lemma heap_bytes_submseteq (l k : heap) :
  l ⊆+ k -> Forall (fun c => 0 <= c.2) k -> heap_bytes l <= heap_bytes k.
Proof.
  induction 1 as [|x l1 l2 _ IH|x y l|x l1 l2 _ IH|l1 l2 l3 H12 IH1 H23 IH2];
    simpl; intros Hk.
  - lia.
  - apply Forall_cons in Hk as [_ Hk]. specialize (IH Hk). lia.
  - lia.
  - apply Forall_cons in Hk as [Hx Hk]. specialize (IH Hk). lia.
  - assert (Forall (fun c => 0 <= c.2) l2) as H2.
    { rewrite Forall_forall in Hk |- *. intros c Hc. apply Hk.
      by apply (elem_of_submseteq l2 l3). }
    specialize (IH1 H2). specialize (IH2 Hk). lia.
Qed.

Lemma fits_fresh h p s q t : fits h p s = true -> heap_wf h = true -> (q, t) ∈ h -> q <> p.
Proof.
  intros (_ & Hs & _ & Hd)%fits_spec Hw Hq ->.
  pose proof (disjoint_blocks_positive _ (heap_wf_disjoint _ Hw)) as Hpos.
  rewrite Forall_forall in Hd, Hpos.
  specialize (Hd _ Hq). specialize (Hpos _ Hq). simpl in *. lia.
Qed.

Lemma release_live p h : is_Some (release p h) <-> live p h = true.
Proof.
  unfold live. induction h as [|b r IH]; simpl.
  - split; [intros [? ?]; done | done].
  - destruct (b.1 =? p); simpl; [split; eauto|].
    rewrite <- IH. destruct (release p r); simpl; split; intros [? ?]; eauto; done.
Qed.

Lemma release_keeps p h h' b :
  release p h = Some h' -> b ∈ h -> b.1 <> p -> b ∈ h'.
Proof.
  revert h'. induction h as [|c r IH]; simpl; intros h' Hr Hb Hne; [done|].
  destruct (Z.eqb_spec c.1 p) as [Hc|Hc].
  - inversion Hr; subst. apply elem_of_cons in Hb as [->|Hb]; done.
  - destruct (release p r) as [r'|] eqn:Hrel; simpl in Hr; [|done].
    inversion Hr; subst.
    apply elem_of_cons in Hb as [->|Hb]; [left | right; eauto].
Qed.

Lemma release_sublist p h h' : release p h = Some h' -> h' `sublist_of` h.
Proof.
  revert h'. induction h as [|c r IH]; simpl; intros h' Hr; [done|].
  destruct (c.1 =? p).
  - inversion Hr; subst. by apply sublist_cons.
  - destruct (release p r) as [r'|]; simpl in Hr; [|done].
    inversion Hr; subst. apply sublist_skip. auto.
Qed.

Lemma fits_sublist h h' p s : h' `sublist_of` h -> fits h p s = true -> fits h' p s = true.
Proof.
  intros Hsub. rewrite !fits_spec. intros (? & ? & ? & Hd). repeat split; try done.
  rewrite Forall_forall in Hd |- *. intros c Hc. apply Hd.
  by apply (sublist_subseteq _ _ Hsub).
Qed.

Lemma heap_wf_sublist h h' : h' `sublist_of` h -> heap_wf h = true -> heap_wf h' = true.
Proof.
  induction 1 as [|x l1 l2 Hs IH|x l1 l2 Hs IH]; simpl; [done| |].
  - rewrite !andb_true_iff. intros [Hf Hw]. split; [|auto].
    by apply (fits_sublist l2).
  - rewrite andb_true_iff. intros [_ Hw]. auto.
Qed.

Lemma release_wf p h h' : release p h = Some h' -> heap_wf h = true -> heap_wf h' = true.
Proof. intros Hr. apply heap_wf_sublist. by eapply release_sublist. Qed.
End HeapFacts.

(** ** Strings *)

Section Strings.
Implicit Types (src : string) (n : nat) (dst : list ascii).

Lemma length_strncpy_bytes src : forall n, length (strncpy_bytes src n) = n.
Proof.
  induction src as [|c rest IH]; intros [|n]; cbn [strncpy_bytes]; try done.
  - by rewrite length_replicate.
  - destruct (Ascii.eqb c Ascii.zero); [by rewrite length_replicate|].
    cbn [length]. by rewrite IH.
Qed.

(** Copying [n] bytes and terminating them keeps the first [n] characters
    of the source string. *)
Lemma c_string_strncpy src : forall n,
  c_string (strncpy_bytes src n ++ [Ascii.zero])
  = take n (c_string (list_ascii_of_string src)).
Proof.
  induction src as [|c rest IH]; intros [|n]; try done.
  cbn [strncpy_bytes list_ascii_of_string c_string].
  destruct (Ascii.eqb c Ascii.zero) eqn:Hc.
  - done.
  - cbn [app c_string take]. rewrite Hc. by rewrite IH.
Qed.

(** [strncpy] of all but the last byte of a buffer, then a terminator in
    the last byte. *)
Lemma strncpy_terminated dst src n :
  length dst = S n ->
  <[n := Ascii.zero]> (strncpy dst src n) = strncpy_bytes src n ++ [Ascii.zero].
Proof.
  intros Hlen. unfold strncpy.
  assert (exists x, drop n dst = [x]) as [x ->].
  { destruct (drop n dst) as [|x [|y l]] eqn:Hd.
    - apply (f_equal length) in Hd. rewrite length_drop in Hd. simpl in Hd. lia.
    - eauto.
    - apply (f_equal length) in Hd. rewrite length_drop in Hd. simpl in Hd. lia. }
  rewrite insert_app_r_alt by (rewrite length_strncpy_bytes; lia).
  rewrite length_strncpy_bytes, Nat.sub_diag. done.
Qed.
End Strings.

(** ** The table of memory_manager.c *)

Module ManagerFacts.
Import Manager.

Section Table.
Implicit Types (bs : list MemoryBlock) (b : MemoryBlock) (i : nat).

Lemma occupied_true b : occupied b = true <-> pointer b <> NULL.
Proof. unfold occupied. rewrite negb_true_iff, Z.eqb_neq. done. Qed.

Lemma occupied_false b : occupied b = false <-> pointer b = NULL.
Proof. unfold occupied. rewrite negb_false_iff, Z.eqb_eq. done. Qed.

Lemma occupied_zero_block : occupied zero_block = false.
Proof. reflexivity. Qed.

Lemma occupied_slots_app bs1 bs2 :
  occupied_slots (bs1 ++ bs2) = occupied_slots bs1 + occupied_slots bs2.
Proof. induction bs1 as [|b r IH]; simpl; lia. Qed.

Lemma occupied_bytes_app bs1 bs2 :
  occupied_bytes (bs1 ++ bs2) = occupied_bytes bs1 + occupied_bytes bs2.
Proof. induction bs1 as [|b r IH]; simpl; lia. Qed.

Lemma insert_split bs i old new :
  bs !! i = Some old ->
  bs = take i bs ++ old :: drop (S i) bs
  /\ <[i := new]> bs = take i bs ++ new :: drop (S i) bs.
Proof.
  intros Hi. split.
  - by rewrite take_drop_middle.
  - rewrite insert_take_drop; [done|]. by eapply lookup_lt_Some.
Qed.

Lemma occupied_slots_insert bs i old new :
  bs !! i = Some old ->
  occupied_slots (<[i := new]> bs) =
  occupied_slots bs - (if occupied old then 1 else 0) + (if occupied new then 1 else 0).
Proof.
  intros Hi. destruct (insert_split bs i old new Hi) as [Hbs ->].
  assert (occupied_slots bs = occupied_slots (take i bs ++ old :: drop (S i) bs)) as ->
    by (f_equal; exact Hbs).
  rewrite !occupied_slots_app. simpl. lia.
Qed.

Lemma occupied_bytes_insert bs i old new :
  bs !! i = Some old ->
  occupied_bytes (<[i := new]> bs) =
  occupied_bytes bs - (if occupied old then size old else 0)
  + (if occupied new then size new else 0).
Proof.
  intros Hi. destruct (insert_split bs i old new Hi) as [Hbs ->].
  assert (occupied_bytes bs = occupied_bytes (take i bs ++ old :: drop (S i) bs)) as ->
    by (f_equal; exact Hbs).
  rewrite !occupied_bytes_app. simpl. lia.
Qed.

Lemma occupied_slots_range bs : 0 <= occupied_slots bs <= Z.of_nat (length bs).
Proof. induction bs as [|b r IH]; simpl; [lia|]. destruct (occupied b); lia. Qed.

Lemma occupied_slots_all bs :
  Forall (fun b => pointer b <> NULL) bs -> occupied_slots bs = Z.of_nat (length bs).
Proof.
  induction 1 as [|b r Hb _ IH]; simpl; [done|].
  apply occupied_true in Hb. rewrite Hb. lia.
Qed.

(** A table with fewer occupied slots than slots has a free one, and the
    scan finds the first. *)
Lemma free_slot_found bs :
  occupied_slots bs < Z.of_nat (length bs) ->
  exists i b, list_find (fun b => pointer b = NULL) bs = Some (i, b).
Proof.
  intros Hlt.
  destruct (list_find (fun b => pointer b = NULL) bs) as [[i b]|] eqn:Hf; [eauto|].
  apply list_find_None in Hf. apply occupied_slots_all in Hf. lia.
Qed.

Lemma occupied_bytes_tracked bs : occupied_bytes bs = heap_bytes (tracked bs).
Proof.
  unfold tracked. induction bs as [|b r IH]; [done|].
  rewrite filter_cons. simpl. unfold occupied at 1.
  destruct (decide (pointer b <> NULL)) as [Hb|Hb].
  - apply Z.eqb_neq in Hb. rewrite Hb, IH. done.
  - apply dec_stable, Z.eqb_eq in Hb. rewrite Hb, IH. done.
Qed.

Lemma elem_of_tracked bs p s :
  (p, s) ∈ tracked bs <->
  exists i b, bs !! i = Some b /\ pointer b <> NULL /\ pointer b = p /\ size b = s.
Proof.
  unfold tracked. rewrite list_elem_of_fmap. split.
  - intros (b & Heq & [Hb Hin]%list_elem_of_filter). inversion Heq; subst.
    apply list_elem_of_lookup in Hin as [i Hi]. eauto 10.
  - intros (i & b & Hi & Hb & <- & <-). exists b. split; [done|].
    apply list_elem_of_filter. split; [done|]. by eapply list_elem_of_lookup_2.
Qed.

Lemma unique_pointers_tail b bs : unique_pointers (b :: bs) -> unique_pointers bs.
Proof.
  intros Hu i j bi bj Hi Hj Hn Heq.
  specialize (Hu (S i) (S j) bi bj Hi Hj Hn Heq). lia.
Qed.

Lemma unique_pointers_NoDup bs : unique_pointers bs -> NoDup (tracked bs).
Proof.
  induction bs as [|b r IH]; intros Hu; [constructor|].
  specialize (IH (unique_pointers_tail _ _ Hu)).
  unfold tracked in *. rewrite filter_cons.
  destruct (decide (pointer b <> NULL)) as [Hb|Hb]; [|done].
  rewrite fmap_cons. constructor; [|done].
  intros (j & b' & Hj & _ & Hp & _)%elem_of_tracked.
  specialize (Hu 0%nat (S j) b b' eq_refl Hj Hb (eq_sym Hp)). lia.
Qed.

(** The occupied slots of a table whose handles are distinct live blocks
    hold no more bytes than the heap. *)
Lemma occupied_bytes_heap bs (h : heap) :
  heap_wf h = true -> unique_pointers bs ->
  (forall i b, bs !! i = Some b -> pointer b <> NULL -> (pointer b, size b) ∈ h) ->
  occupied_bytes bs <= heap_bytes h.
Proof.
  intros Hw Hu Hl. rewrite occupied_bytes_tracked.
  apply heap_bytes_submseteq.
  - apply NoDup_submseteq; [by apply unique_pointers_NoDup|].
    intros [p s] (i & b & Hi & Hb & <- & <-)%elem_of_tracked. eauto.
  - eapply Forall_impl; [apply disjoint_blocks_positive, heap_wf_disjoint, Hw|].
    simpl. intros. lia.
Qed.

Lemma occupied_bytes_nonneg bs :
  (forall i b, bs !! i = Some b -> pointer b <> NULL -> 0 <= size b) ->
  0 <= occupied_bytes bs.
Proof.
  induction bs as [|b r IH]; intros H; simpl; [lia|].
  assert (0 <= occupied_bytes r) by (apply IH; intros i; apply (H (S i))).
  destruct (occupied b) eqn:Hb; [|lia].
  apply occupied_true in Hb. specialize (H 0%nat b eq_refl Hb). lia.
Qed.
End Table.

(** *** What each path of the operations does *)

Ltac step_m :=
  unfold mbind, M_bind, mret, M_ret, set_tracker, set_block, get_current_timestamp,
    find_available_slot, printf, fprintf, emit, get_globals, set_globals, log,
    tracker_of in *;
  cbn [globals mheap trace g_memory_tracker static_timestamp blocks
       current_block_count total_allocated_memory] in *.

Ltac Zeqb_case x y :=
  let H := fresh "Hcmp" in
  destruct (Z.eqb_spec x y) as [H|H]; try (exfalso; unfold NULL in *; lia); clear H.

Section Paths.
Implicit Types (w : world) (size answer memory line_number : Z) (filename : string).

Lemma alloc_zero filename line_number type answer w :
  safe_memory_allocate 0 filename line_number type answer w =
  Returned NULL (log w [Ev_printf stderr "WARNING: Zero-byte allocation\n" []]).
Proof. reflexivity. Qed.

Lemma alloc_full size filename line_number type answer w :
  size <> 0 -> MAX_TRACKED_BLOCKS <= current_block_count (tracker_of w) ->
  safe_memory_allocate size filename line_number type answer w =
  Returned NULL (log w [Ev_printf stderr "ERROR: Memory tracker full\n" []]).
Proof.
  intros Hs Hc. unfold safe_memory_allocate. Zeqb_case size 0. step_m.
  destruct (Z.leb_spec MAX_TRACKED_BLOCKS
              (current_block_count (g_memory_tracker (globals w)))); [done|lia].
Qed.

Lemma alloc_oom size filename line_number type w :
  size <> 0 -> current_block_count (tracker_of w) < MAX_TRACKED_BLOCKS ->
  safe_memory_allocate size filename line_number type NULL w =
  Returned NULL
    (log w [Ev_malloc size NULL;
            Ev_printf stderr "CRITICAL: Allocation failed at %s:%d\n"
                      [arg_s filename; arg_d line_number]]).
Proof.
  intros Hs Hc. unfold safe_memory_allocate. Zeqb_case size 0. step_m.
  destruct (Z.leb_spec MAX_TRACKED_BLOCKS
              (current_block_count (g_memory_tracker (globals w)))); [lia|].
  unfold malloc. simpl. by rewrite <- app_assoc.
Qed.

Lemma alloc_infeasible size filename line_number type answer w :
  size <> 0 -> current_block_count (tracker_of w) < MAX_TRACKED_BLOCKS ->
  answer <> NULL -> fits (mheap w) answer size = false ->
  safe_memory_allocate size filename line_number type answer w = Infeasible.
Proof.
  intros Hs Hc Ha Hf. unfold safe_memory_allocate. Zeqb_case size 0. step_m.
  destruct (Z.leb_spec MAX_TRACKED_BLOCKS
              (current_block_count (g_memory_tracker (globals w)))); [lia|].
  unfold malloc. Zeqb_case answer NULL. by rewrite Hf.
Qed.

Lemma alloc_no_slot size filename line_number type answer w :
  size <> 0 -> current_block_count (tracker_of w) < MAX_TRACKED_BLOCKS ->
  answer <> NULL -> fits (mheap w) answer size = true ->
  list_find (fun b => pointer b = NULL) (blocks (tracker_of w)) = None ->
  safe_memory_allocate size filename line_number type answer w =
  Returned NULL (log w [Ev_malloc size answer; Ev_free answer]).
Proof.
  intros Hs Hc Ha Hf Hfind. unfold safe_memory_allocate. Zeqb_case size 0. step_m.
  destruct (Z.leb_spec MAX_TRACKED_BLOCKS
              (current_block_count (g_memory_tracker (globals w)))); [lia|].
  unfold malloc. Zeqb_case answer NULL. rewrite Hf. Zeqb_case answer NULL.
  step_m. rewrite Hfind. simpl. unfold free. step_m. Zeqb_case answer NULL.
  simpl. rewrite Z.eqb_refl. by rewrite <- app_assoc.
Qed.

Lemma alloc_ok size filename line_number type answer w i b :
  size <> 0 -> current_block_count (tracker_of w) < MAX_TRACKED_BLOCKS ->
  answer <> NULL -> fits (mheap w) answer size = true ->
  list_find (fun b => pointer b = NULL) (blocks (tracker_of w)) = Some (i, b) ->
  safe_memory_allocate size filename line_number type answer w =
  Returned answer (allocated w i b size filename line_number type answer).
Proof.
  intros Hs Hc Ha Hf Hfind. unfold safe_memory_allocate, allocated.
  Zeqb_case size 0. step_m.
  destruct (Z.leb_spec MAX_TRACKED_BLOCKS
              (current_block_count (g_memory_tracker (globals w)))); [lia|].
  unfold malloc. Zeqb_case answer NULL. rewrite Hf. Zeqb_case answer NULL.
  step_m. rewrite Hfind. Zeqb_case (Z.of_nat i) (-1). step_m.
  rewrite Nat2Z.id.
  apply list_find_Some in Hfind as (Hi & _ & _). rewrite Hi. reflexivity.
Qed.

Lemma free_null filename line_number w :
  safe_memory_free NULL filename line_number w =
  Returned tt
    (log w [Ev_printf stderr "WARNING: Freeing NULL pointer at %s:%d\n"
                      [arg_s filename; arg_d line_number]]).
Proof. reflexivity. Qed.

Lemma free_untracked memory filename line_number w :
  memory <> NULL ->
  list_find (fun b => pointer b = memory) (blocks (tracker_of w)) = None ->
  safe_memory_free memory filename line_number w =
  let es := [Ev_printf stderr "WARNING: Untracked memory free at %s:%d\n"
                       [arg_s filename; arg_d line_number];
             Ev_free memory] in
  match release memory (mheap w) with
  | Some h' => Returned tt (Machine (globals w) h' (trace w ++ es))
  | None => Undefined (log w es)
  end.
Proof.
  intros Hm Hfind. unfold safe_memory_free. Zeqb_case memory NULL. step_m.
  rewrite Hfind. unfold free. step_m. Zeqb_case memory NULL.
  rewrite <- app_assoc. reflexivity.
Qed.

Lemma free_tracked memory filename line_number w i b :
  memory <> NULL ->
  list_find (fun b => pointer b = memory) (blocks (tracker_of w)) = Some (i, b) ->
  safe_memory_free memory filename line_number w =
  match release memory (mheap w) with
  | Some h' =>
      Returned tt
        (Machine
           {| g_memory_tracker :=
                {| blocks := <[i := zero_block]> (blocks (tracker_of w));
                   current_block_count :=
                     size_t_wrap (current_block_count (tracker_of w) - 1);
                   total_allocated_memory :=
                     size_t_wrap (total_allocated_memory (tracker_of w) - size b) |};
              static_timestamp := static_timestamp (globals w) |}
           h' (trace w ++ [Ev_free memory]))
  | None =>
      Undefined
        (Machine
           {| g_memory_tracker :=
                {| blocks :=
                     <[i := {| pointer := pointer b; size := size b;
                               filename := Manager.filename b;
                               line_number := Manager.line_number b;
                               type := type b; status := MEMORY_STATUS_FREED;
                               timestamp := timestamp b |}]>
                       (blocks (tracker_of w));
                   current_block_count :=
                     size_t_wrap (current_block_count (tracker_of w) - 1);
                   total_allocated_memory :=
                     size_t_wrap (total_allocated_memory (tracker_of w) - size b) |};
              static_timestamp := static_timestamp (globals w) |}
           (mheap w) (trace w ++ [Ev_free memory]))
  end.
Proof.
  intros Hm Hfind. unfold safe_memory_free. Zeqb_case memory NULL. step_m.
  rewrite Hfind. step_m. unfold free. step_m. Zeqb_case memory NULL.
  destruct (release memory (mheap w)); [|done].
  step_m. by rewrite list_insert_insert_eq.
Qed.

Lemma init_eq w :
  memory_manager_init w =
  Returned tt
    (Machine {| g_memory_tracker := zero_tracker;
                static_timestamp := static_timestamp (globals w) |}
             (mheap w) (trace w)).
Proof. reflexivity. Qed.

Lemma report_blocks_eq (bs : list MemoryBlock) : forall (k : nat) w,
  report_blocks (Z.of_nat k) bs w =
  Returned tt
    (log w ((fun e => block_line e.1 e.2)
              <$> filter (fun e => pointer e.2 <> NULL)
                         (imap (fun j b => ((k + j)%nat, b)) bs))).
Proof.
  induction bs as [|b r IH]; intros k w.
  - simpl. unfold log. by rewrite app_nil_r; destruct w.
  - cbn [report_blocks]. rewrite imap_cons, filter_cons. cbn [snd].
    replace (Z.of_nat k + 1) with (Z.of_nat (S k)) by lia.
    assert (forall w', (imap ((fun j b => ((k + j)%nat, b)) ∘ S) r)
                       = imap (fun j b => ((S k + j)%nat, b)) r) as Himap.
    { intros _. apply imap_ext. intros j x _. simpl. f_equal. lia. }
    rewrite (Himap w). clear Himap.
    destruct (decide (pointer b <> NULL)) as [Hb|Hb].
    + step_m. Zeqb_case (pointer b) NULL. rewrite IH. step_m.
      rewrite fmap_cons. cbn [fst snd]. rewrite Nat.add_0_r.
      rewrite <- app_assoc. reflexivity.
    + apply dec_stable in Hb. step_m. rewrite Hb. simpl. rewrite IH. reflexivity.
Qed.

Lemma accessors_eq w :
  get_total_allocated_memory w = Returned (total_allocated_memory (tracker_of w)) w
  /\ get_current_block_count w = Returned (current_block_count (tracker_of w)) w.
Proof. done. Qed.

Lemma report_eq w :
  generate_memory_report w = Returned tt (log w (report_of (tracker_of w))).
Proof.
  unfold generate_memory_report. step_m.
  rewrite (report_blocks_eq _ 0%nat). step_m. unfold report_of, occupied_entries.
  rewrite <- !app_assoc. reflexivity.
Qed.
End Paths.

(** *** The operations keep the machine consistent *)

Section Invariant.
Implicit Types (w : world) (size answer memory line_number : Z) (filename : string).

Lemma size_t_wrap_id z : 0 <= z < 2 ^ SIZE_WIDTH -> size_t_wrap z = z.
Proof. intros. unfold size_t_wrap. by apply Z.mod_small. Qed.

Lemma consistent_same w w' :
  globals w' = globals w -> mheap w' = mheap w -> consistent w -> consistent w'.
Proof.
  intros Hg Hh [? ? ? ? ? ? ? ?].
  split; unfold tracker_of in *; rewrite ?Hg, ?Hh; done.
Qed.

Lemma consistent_log w es : consistent w -> consistent (log w es).
Proof. by apply consistent_same. Qed.

Lemma zero_tracker_lookup i b : blocks zero_tracker !! i = Some b -> b = zero_block.
Proof. unfold zero_tracker. cbn [blocks]. by intros [-> _]%lookup_replicate. Qed.

Lemma zero_tracker_slots : occupied_slots (blocks zero_tracker) = 0.
Proof.
  unfold zero_tracker. cbn [blocks]. generalize (Z.to_nat MAX_TRACKED_BLOCKS).
  intros n. induction n as [|n IH]; [done|]. by rewrite replicate_S.
Qed.

Lemma zero_tracker_bytes : occupied_bytes (blocks zero_tracker) = 0.
Proof.
  unfold zero_tracker. cbn [blocks]. generalize (Z.to_nat MAX_TRACKED_BLOCKS).
  intros n. induction n as [|n IH]; [done|]. by rewrite replicate_S.
Qed.

Lemma consistent_zero ts (h : heap) tr :
  heap_wf h = true ->
  consistent (Machine {| g_memory_tracker := zero_tracker; static_timestamp := ts |} h tr).
Proof.
  intros Hw. split; unfold tracker_of; cbn [globals mheap g_memory_tracker].
  - unfold zero_tracker. cbn [blocks]. by rewrite length_replicate.
  - by rewrite zero_tracker_slots.
  - by rewrite zero_tracker_bytes.
  - done.
  - intros i b ->%zero_tracker_lookup. done.
  - intros i j bi bj ->%zero_tracker_lookup _. done.
  - intros i b ->%zero_tracker_lookup. done.
  - intros i b ->%zero_tracker_lookup. done.
Qed.

Lemma consistent_boot (h : heap) : heap_wf h = true -> consistent (boot h).
Proof. apply consistent_zero. Qed.

(** The slots in use never outnumber the table, and their bytes fit in
    the address space. *)
Lemma consistent_bounds w :
  consistent w ->
  0 <= current_block_count (tracker_of w) <= MAX_TRACKED_BLOCKS
  /\ 0 <= total_allocated_memory (tracker_of w) < 2 ^ SIZE_WIDTH.
Proof.
  intros [Hlen Hc Ht Hw Hl Hu _ _]. rewrite Hc, Ht. split.
  - pose proof (occupied_slots_range (blocks (tracker_of w))) as H.
    rewrite Hlen in H. unfold MAX_TRACKED_BLOCKS in *. lia.
  - pose proof (occupied_bytes_heap _ _ Hw Hu Hl).
    pose proof (heap_wf_bytes _ Hw).
    pose proof (disjoint_blocks_positive _ (heap_wf_disjoint _ Hw)) as Hpos.
    rewrite Forall_forall in Hpos.
    assert (0 <= occupied_bytes (blocks (tracker_of w))); [|lia].
    apply occupied_bytes_nonneg. intros i b Hi Hb.
    specialize (Hpos _ (Hl i b Hi Hb)). simpl in Hpos. lia.
Qed.

(** Below capacity the scan of [find_available_slot] succeeds. *)
Lemma consistent_free_slot w :
  consistent w -> current_block_count (tracker_of w) < MAX_TRACKED_BLOCKS ->
  exists i b, list_find (fun b => pointer b = NULL) (blocks (tracker_of w)) = Some (i, b).
Proof.
  intros [Hlen Hc _ _ _ _ _ _] Hlt. apply free_slot_found.
  rewrite <- Hc, Hlen. unfold MAX_TRACKED_BLOCKS in *. lia.
Qed.

(** The machine after a successful allocation, without the wrap-around. *)
Lemma consistent_alloc w i b answer size filename line_number type ts :
  consistent w -> answer <> NULL -> fits (mheap w) answer size = true ->
  blocks (tracker_of w) !! i = Some b -> pointer b = NULL ->
  let b' := populate b answer size filename line_number type ts in
  forall t' ts' tr,
    blocks t' = <[i := b']> (blocks (tracker_of w)) ->
    current_block_count t' = size_t_wrap (current_block_count (tracker_of w) + 1) ->
    total_allocated_memory t' = size_t_wrap (total_allocated_memory (tracker_of w) + size) ->
    consistent (Machine {| g_memory_tracker := t'; static_timestamp := ts' |}
                        ((answer, size) :: mheap w) tr)
    /\ current_block_count t' = current_block_count (tracker_of w) + 1
    /\ total_allocated_memory t' = total_allocated_memory (tracker_of w) + size.
Proof.
  intros Hc Ha Hf Hi Hb b' t' ts' tr Hbs Hcnt Htot.
  pose proof (consistent_bounds w Hc) as [Hcb Htb].
  destruct Hc as [Hlen Hc Ht Hw Hl Hu Hst Hcl].
  assert (occupied b = false) as Hob by by apply occupied_false.
  assert (occupied b' = true) as Hob' by by apply occupied_true.
  assert (heap_wf ((answer, size) :: mheap w) = true) as Hw'
    by (simpl; by rewrite Hf, Hw).
  assert (forall j c, <[i := b']> (blocks (tracker_of w)) !! j = Some c ->
                      (j = i /\ c = b') \/ (j <> i /\ blocks (tracker_of w) !! j = Some c))
    as Hcase.
  { intros j c Hj. apply list_lookup_insert_Some in Hj as [(-> & -> & _)|[? ?]]; auto. }
  assert (forall j c, <[i := b']> (blocks (tracker_of w)) !! j = Some c ->
                      pointer c <> NULL ->
                      (pointer c, Manager.size c) ∈ (answer, size) :: mheap w) as Hl'.
  { intros j c [[-> ->]|[_ Hj]]%Hcase Hp; [left | right; eauto]. }
  assert (unique_pointers (<[i := b']> (blocks (tracker_of w)))) as Hu'.
  { intros j k cj ck [[-> ->]|[Hji Hj]]%Hcase [[-> ->]|[Hki Hk]]%Hcase Hp Heq;
      [done| | |by eauto].
    - exfalso. destruct (decide (pointer ck = NULL)) as [Hn|Hn]; [simpl in Heq; congruence|].
      apply (fits_fresh _ _ _ _ _ Hf Hw (Hl k ck Hk Hn)). by simpl in Heq.
    - exfalso. apply (fits_fresh _ _ _ _ _ Hf Hw (Hl j cj Hj Hp)). by simpl in Heq. }
  assert (occupied_slots (<[i := b']> (blocks (tracker_of w)))
          = current_block_count (tracker_of w) + 1) as Hslots
    by (rewrite (occupied_slots_insert _ _ _ _ Hi), Hob, Hob', Hc; lia).
  assert (occupied_bytes (<[i := b']> (blocks (tracker_of w)))
          = total_allocated_memory (tracker_of w) + size) as Hbytes
    by (rewrite (occupied_bytes_insert _ _ _ _ Hi), Hob, Hob', Ht; simpl; lia).
  pose proof (occupied_bytes_heap _ _ Hw' Hu' Hl') as Hle.
  pose proof (heap_wf_bytes _ Hw') as Hlt.
  apply fits_spec in Hf as (_ & Hpos & _).
  assert (current_block_count t' = current_block_count (tracker_of w) + 1) as Hcnt'.
  { rewrite Hcnt. apply size_t_wrap_id.
    pose proof (occupied_slots_range (<[i := b']> (blocks (tracker_of w)))) as Hr.
    rewrite length_insert, Hlen, Hslots in Hr.
    unfold MAX_TRACKED_BLOCKS, SIZE_WIDTH in *. lia. }
  assert (total_allocated_memory t' = total_allocated_memory (tracker_of w) + size)
    as Htot' by (rewrite Htot; apply size_t_wrap_id; lia).
  split; [|done].
  split; unfold tracker_of in *; cbn [globals mheap g_memory_tracker]; rewrite ?Hbs.
  - by rewrite length_insert.
  - by rewrite Hslots.
  - by rewrite Hbytes.
  - done.
  - done.
  - done.
  - intros j c [[-> ->]|[_ Hj]]%Hcase; [done|eauto].
  - intros j c [[-> ->]|[_ Hj]]%Hcase Hp; [done|eauto].
Qed.

(** The machine after a free that found its handle in slot [i]. *)
Lemma consistent_free w i b memory :
  consistent w -> memory <> NULL ->
  blocks (tracker_of w) !! i = Some b -> pointer b = memory ->
  exists h',
    release memory (mheap w) = Some h'
    /\ size_t_wrap (current_block_count (tracker_of w) - 1)
       = current_block_count (tracker_of w) - 1
    /\ size_t_wrap (total_allocated_memory (tracker_of w) - size b)
       = total_allocated_memory (tracker_of w) - size b
    /\ forall ts' tr,
        consistent
          (Machine
             {| g_memory_tracker :=
                  {| blocks := <[i := zero_block]> (blocks (tracker_of w));
                     current_block_count := current_block_count (tracker_of w) - 1;
                     total_allocated_memory :=
                       total_allocated_memory (tracker_of w) - size b |};
                static_timestamp := ts' |} h' tr).
Proof.
  intros Hc Hm Hi Hb.
  pose proof (consistent_bounds w Hc) as [Hcb Htb].
  destruct Hc as [Hlen Hc Ht Hw Hl Hu Hst Hcl].
  assert (pointer b <> NULL) as Hp by congruence.
  assert (occupied b = true) as Hob by by apply occupied_true.
  pose proof (Hl i b Hi Hp) as Hin. rewrite Hb in Hin.
  destruct (release memory (mheap w)) as [h'|] eqn:Hrel.
  2: { assert (is_Some (release memory (mheap w))) as [? ?]; [|congruence].
       apply release_live. unfold live. apply existsb_exists.
       exists (memory, size b). split; [by apply list_elem_of_In|simpl; lia]. }
  exists h'. split; [done|].
  assert (forall j c, <[i := zero_block]> (blocks (tracker_of w)) !! j = Some c ->
                      (j = i /\ c = zero_block)
                      \/ (j <> i /\ blocks (tracker_of w) !! j = Some c)) as Hcase.
  { intros j c Hj. apply list_lookup_insert_Some in Hj as [(-> & -> & _)|[? ?]]; auto. }
  assert (forall j c, <[i := zero_block]> (blocks (tracker_of w)) !! j = Some c ->
                      pointer c <> NULL -> (pointer c, size c) ∈ h') as Hl'.
  { intros j c [[-> ->]|[Hji Hj]]%Hcase Hpc; [done|].
    eapply release_keeps; [done|eauto|]. simpl. intros Heq.
    apply Hji. apply (Hu j i c b Hj Hi Hpc). congruence. }
  pose proof (occupied_slots_insert _ _ _ zero_block Hi) as Hslots.
  pose proof (occupied_bytes_insert _ _ _ zero_block Hi) as Hbytes.
  rewrite Hob, occupied_zero_block in Hslots, Hbytes.
  pose proof (occupied_slots_range (<[i := zero_block]> (blocks (tracker_of w)))) as Hr.
  pose proof (release_wf _ _ _ Hrel Hw) as Hw'.
  pose proof (disjoint_blocks_positive _ (heap_wf_disjoint _ Hw)) as Hpos.
  rewrite Forall_forall in Hpos. specialize (Hpos _ Hin). simpl in Hpos.
  assert (0 <= occupied_bytes (<[i := zero_block]> (blocks (tracker_of w)))) as Hnn.
  { apply occupied_bytes_nonneg. intros j c Hj Hpc.
    pose proof (disjoint_blocks_positive _ (heap_wf_disjoint _ Hw')) as Hpos'.
    rewrite Forall_forall in Hpos'. specialize (Hpos' _ (Hl' j c Hj Hpc)).
    simpl in Hpos'. lia. }
  split; [apply size_t_wrap_id; unfold MAX_TRACKED_BLOCKS, SIZE_WIDTH in *; lia|].
  split; [apply size_t_wrap_id; lia|].
  intros ts' tr.
  split; unfold tracker_of in *;
    cbn [globals mheap g_memory_tracker blocks current_block_count
         total_allocated_memory].
  - by rewrite length_insert.
  - lia.
  - lia.
  - done.
  - done.
  - intros j k cj ck [[-> ->]|[Hji Hj]]%Hcase [[-> ->]|[Hki Hk]]%Hcase Hpc Heq;
      [done|done| |by eauto].
    exfalso. apply Hpc. by rewrite Heq.
  - intros j c [[-> ->]|[_ Hj]]%Hcase; [done|eauto].
  - intros j c [[-> ->]|[_ Hj]]%Hcase Hpc; [done|eauto].
Qed.

(** The machine after a free of a live block that no slot holds. *)
Lemma consistent_release w memory (h' : heap) tr :
  consistent w ->
  list_find (fun b => pointer b = memory) (blocks (tracker_of w)) = None ->
  release memory (mheap w) = Some h' ->
  consistent (Machine (globals w) h' tr).
Proof.
  intros [Hlen Hc Ht Hw Hl Hu Hst Hcl] Hfind Hrel.
  apply list_find_None in Hfind. rewrite Forall_forall in Hfind.
  split; unfold tracker_of in *; cbn [globals mheap]; try done.
  - by eapply release_wf.
  - intros i b Hi Hp. eapply release_keeps; [done|eauto|]. simpl.
    apply Hfind. by eapply list_elem_of_lookup_2.
Qed.
End Invariant.

(** *** Every call keeps the machine consistent *)

Section Steps.
Implicit Types (w : world) (size answer memory line_number : Z) (filename : string).

Lemma alloc_inv size filename line_number type answer w r w' :
  safe_memory_allocate size filename line_number type answer w = Returned r w' ->
  alloc_path size filename line_number type answer w r w'.
Proof.
  intros Hret.
  destruct (decide (size = 0)) as [->|Hs].
  { rewrite alloc_zero in Hret. inversion Hret; subst. by constructor. }
  destruct (Z_lt_le_dec (current_block_count (tracker_of w)) MAX_TRACKED_BLOCKS)
    as [Hc|Hc].
  2: { rewrite alloc_full in Hret by done. inversion Hret; subst. by constructor. }
  destruct (decide (answer = NULL)) as [->|Ha].
  { rewrite alloc_oom in Hret by done. inversion Hret; subst. by constructor. }
  destruct (fits (mheap w) answer size) eqn:Hf.
  2: { by rewrite alloc_infeasible in Hret. }
  destruct (list_find (fun b => pointer b = NULL) (blocks (tracker_of w)))
    as [[i b]|] eqn:Hfind.
  2: { rewrite alloc_no_slot in Hret by done. inversion Hret; subst. by constructor. }
  rewrite (alloc_ok _ _ _ _ _ _ i b) in Hret by done.
  inversion Hret; subst r w'. by constructor.
Qed.

Lemma alloc_consistent size filename line_number type answer w r w' :
  consistent w ->
  safe_memory_allocate size filename line_number type answer w = Returned r w' ->
  consistent w'.
Proof.
  intros Hc Hret.
  destruct (alloc_inv _ _ _ _ _ _ _ _ Hret)
    as [?|? ?|? ? ?|? ? ? ? ?|i b Hs Hlt Ha Hf Hfind];
    try by apply consistent_log.
  apply list_find_Some in Hfind as (Hi & Hb & _).
  by eapply (consistent_alloc w i b answer size filename line_number type).
Qed.

Lemma consistent_find w i b memory :
  consistent w -> memory <> NULL ->
  blocks (tracker_of w) !! i = Some b -> pointer b = memory ->
  list_find (fun b => pointer b = memory) (blocks (tracker_of w)) = Some (i, b).
Proof.
  intros Hc Hm Hi Hb. apply list_find_Some. repeat split; try done.
  intros j c Hj Hlt Heq.
  assert (j = i); [|lia].
  apply (c_unique w Hc j i c b Hj Hi); congruence.
Qed.

Lemma free_consistent memory filename line_number w w' :
  consistent w ->
  safe_memory_free memory filename line_number w = Returned tt w' ->
  consistent w'.
Proof.
  intros Hc Hret.
  destruct (decide (memory = NULL)) as [->|Hm].
  { rewrite free_null in Hret. inversion Hret. by apply consistent_log. }
  destruct (list_find (fun b => pointer b = memory) (blocks (tracker_of w)))
    as [[i b]|] eqn:Hfind.
  - rewrite (free_tracked _ _ _ _ i b) in Hret by done.
    apply list_find_Some in Hfind as (Hi & Hb & _).
    destruct (consistent_free w i b memory Hc Hm Hi Hb) as (h' & Hrel & Hcnt & Htot & Hc').
    rewrite Hrel, Hcnt, Htot in Hret. inversion Hret. apply Hc'.
  - rewrite free_untracked in Hret by done. cbn zeta in Hret.
    destruct (release memory (mheap w)) as [h'|] eqn:Hrel; [|done].
    inversion Hret. by eapply consistent_release.
Qed.

Lemma exec_consistent o w w' :
  consistent w -> exec o w = Returned tt w' -> consistent w'.
Proof.
  intros Hc. destruct o as [|size filename line_number type answer
                            |memory filename line_number|]; cbn [exec].
  - rewrite init_eq. intros [= <-]. apply consistent_zero, (c_heap w Hc).
  - unfold mbind, M_bind, mret, M_ret.
    destruct (safe_memory_allocate size filename line_number type answer w)
      as [r w1| | |] eqn:Hret; try done.
    intros [= <-]. by eapply alloc_consistent.
  - by apply free_consistent.
  - rewrite report_eq. intros [= <-]. by apply consistent_log.
Qed.

(** In a consistent machine every defined call returns. *)
Lemma exec_returns o w :
  consistent w -> defined_call o w -> exists w', exec o w = Returned tt w'.
Proof.
  intros Hc. destruct o as [|size filename line_number type answer
                            |memory filename line_number|]; cbn [exec defined_call].
  - intros _. rewrite init_eq. eauto.
  - intros Hd. unfold mbind, M_bind, mret, M_ret.
    destruct (decide (size = 0)) as [->|Hs]; [rewrite alloc_zero; eauto|].
    destruct (Z_lt_le_dec (current_block_count (tracker_of w)) MAX_TRACKED_BLOCKS)
      as [Hlt|Hge]; [|rewrite alloc_full by done; eauto].
    destruct (decide (answer = NULL)) as [->|Ha]; [rewrite alloc_oom by done; eauto|].
    destruct Hd as [?|[?|[?|Hf]]]; try done; try lia.
    destruct (consistent_free_slot w Hc Hlt) as (i & b & Hfind).
    rewrite (alloc_ok _ _ _ _ _ _ i b) by done. eauto.
  - intros Hd.
    destruct (decide (memory = NULL)) as [->|Hm]; [rewrite free_null; eauto|].
    destruct Hd as [?|Hlive]; [done|].
    apply release_live in Hlive as [h' Hrel].
    destruct (list_find (fun b => pointer b = memory) (blocks (tracker_of w)))
      as [[i b]|] eqn:Hfind.
    + rewrite (free_tracked _ _ _ _ i b) by done. rewrite Hrel. eauto.
    + rewrite free_untracked by done. cbn zeta. rewrite Hrel. eauto.
  - intros _. rewrite report_eq. eauto.
Qed.

Lemma run_consistent ops : forall w w',
  consistent w -> run ops w = Returned tt w' -> consistent w'.
Proof.
  induction ops as [|o rest IH]; intros w w' Hc; cbn [run].
  - by intros [= <-].
  - unfold mbind, M_bind. destruct (exec o w) as [[] w1| | |] eqn:Hex; try done.
    apply IH. by eapply exec_consistent.
Qed.

(** Every machine a run from program start ends in is consistent. *)
Lemma reachable_consistent (h : heap) ops w :
  heap_wf h = true -> run ops (boot h) = Returned tt w -> consistent w.
Proof. intros Hw. apply run_consistent. by apply consistent_boot. Qed.

Lemma run_final ops (h : heap) :
  returns (run ops (boot h)) = true -> run ops (boot h) = Returned tt (final ops h).
Proof. unfold final. by destruct (run ops (boot h)) as [[] ?| | |]. Qed.

Lemma returned_eq {A} (d : A) (s : world) (o : outcome world A) :
  returns o = true -> o = Returned (result_of d o) (machine_of s o).
Proof. by destruct o. Qed.
End Steps.

(** *** The report and the tally *)

Section Census.
Implicit Types (bs : list MemoryBlock) (b : MemoryBlock) (w : world) (c : tally).

Lemma tracked_app bs1 bs2 : tracked (bs1 ++ bs2) = tracked bs1 ++ tracked bs2.
Proof. unfold tracked. by rewrite filter_app, fmap_app. Qed.

Lemma tracked_cons_occupied b bs :
  pointer b <> NULL -> tracked (b :: bs) = (pointer b, size b) :: tracked bs.
Proof. intros Hb. unfold tracked. by rewrite filter_cons_True. Qed.

Lemma tracked_cons_free b bs : pointer b = NULL -> tracked (b :: bs) = tracked bs.
Proof. intros Hb. unfold tracked. rewrite filter_cons_False; [done|]. by intros []. Qed.

Lemma tracked_occupy bs i old new :
  bs !! i = Some old -> pointer old = NULL -> pointer new <> NULL ->
  tracked (<[i := new]> bs) ≡ₚ (pointer new, size new) :: tracked bs.
Proof.
  intros Hi Hold Hnew. destruct (insert_split bs i old new Hi) as [Hbs ->].
  assert (tracked bs = tracked (take i bs ++ old :: drop (S i) bs)) as ->
    by (f_equal; exact Hbs).
  rewrite !tracked_app, tracked_cons_occupied, tracked_cons_free by done.
  by rewrite Permutation_middle.
Qed.

Lemma tracked_clear bs i b :
  bs !! i = Some b -> pointer b <> NULL ->
  tracked bs ≡ₚ (pointer b, size b) :: tracked (<[i := zero_block]> bs).
Proof.
  intros Hi Hb. destruct (insert_split bs i b zero_block Hi) as [Hbs ->].
  assert (tracked bs = tracked (take i bs ++ b :: drop (S i) bs)) as ->
    by (f_equal; exact Hbs).
  rewrite !tracked_app, tracked_cons_occupied, tracked_cons_free by done.
  by rewrite Permutation_middle.
Qed.

Lemma tracked_zero_tracker : tracked (blocks zero_tracker) = [].
Proof.
  unfold zero_tracker. cbn [blocks]. generalize (Z.to_nat MAX_TRACKED_BLOCKS).
  intros n. induction n as [|n IH]; [done|].
  by rewrite replicate_S, tracked_cons_free.
Qed.

Lemma entries_shift (k : nat) bs :
  imap ((fun j b => ((k + j)%nat, b)) ∘ S) bs = imap (fun j b => ((S k + j)%nat, b)) bs.
Proof. apply imap_ext. intros j x _. simpl. f_equal. lia. Qed.

Lemma entries_blocks bs : forall k : nat,
  (filter (fun e : nat * MemoryBlock => pointer e.2 <> NULL)
          (imap (fun j b => ((k + j)%nat, b)) bs)).*2
  = filter (fun b => pointer b <> NULL) bs.
Proof.
  induction bs as [|b r IH]; intros k; [done|].
  rewrite imap_cons, entries_shift, !filter_cons. cbn [snd].
  destruct (decide (pointer b <> NULL)); [rewrite fmap_cons; cbn [snd]|]; by rewrite IH.
Qed.

Lemma occupied_entries_blocks bs :
  (occupied_entries bs).*2 = filter (fun b => pointer b <> NULL) bs.
Proof. apply (entries_blocks bs 0). Qed.

Lemma occupied_entries_tracked bs :
  (fun e : nat * MemoryBlock => pointer e.2) <$> occupied_entries bs = (tracked bs).*1.
Proof.
  unfold tracked. rewrite <- occupied_entries_blocks, <- !list_fmap_compose. done.
Qed.

Lemma elem_of_occupied_entries bs (i : nat) b :
  (i, b) ∈ occupied_entries bs <-> bs !! i = Some b /\ pointer b <> NULL.
Proof.
  unfold occupied_entries. rewrite list_elem_of_filter, elem_of_lookup_imap. cbn [snd].
  split.
  - intros [Hb (j & c & [= -> ->] & Hj)]. done.
  - intros [Hi Hb]. eauto.
Qed.

Lemma entries_sorted bs : forall k : nat,
  let l := (filter (fun e : nat * MemoryBlock => pointer e.2 <> NULL)
                   (imap (fun j b => ((k + j)%nat, b)) bs)).*1 in
  StronglySorted lt l /\ Forall (fun i => (k <= i)%nat) l.
Proof.
  induction bs as [|b r IH]; intros k; [by split; constructor|].
  cbn zeta. rewrite imap_cons, entries_shift, filter_cons. cbn [snd].
  destruct (IH (S k)) as [Hs Hf].
  destruct (decide (pointer b <> NULL)).
  - rewrite fmap_cons. cbn [fst]. split.
    + constructor; [done|]. eapply Forall_impl; [exact Hf|]. simpl. lia.
    + constructor; [lia|]. eapply Forall_impl; [exact Hf|]. simpl. lia.
  - split; [done|]. eapply Forall_impl; [exact Hf|]. simpl. lia.
Qed.

Lemma occupied_entries_sorted bs : StronglySorted lt (occupied_entries bs).*1.
Proof. apply (entries_sorted bs 0). Qed.

Lemma census_inv_same c w w' :
  globals w' = globals w -> census_inv c w -> census_inv c w'.
Proof. unfold census_inv, tracker_of. by intros ->. Qed.

Lemma census_inv_alloc c w i b size filename line_number type answer :
  consistent w -> census_inv c w ->
  answer <> NULL -> fits (mheap w) answer size = true ->
  current_block_count (tracker_of w) < MAX_TRACKED_BLOCKS ->
  list_find (fun b => pointer b = NULL) (blocks (tracker_of w)) = Some (i, b) ->
  census_inv {| allocations := allocations c + 1; frees := frees c;
                handles := answer :: handles c |}
             (allocated w i b size filename line_number type answer).
Proof.
  intros Hc (Hle & Hlen & Hperm) Ha Hf Hlt (Hi & Hb & _)%list_find_Some.
  unfold census_inv, allocated, tracker_of in *.
  cbn [allocations frees handles globals g_memory_tracker blocks length].
  repeat split; [lia|lia|lia|].
  rewrite tracked_occupy by done. rewrite fmap_cons. cbn [fst populate pointer].
  by rewrite Hperm.
Qed.

Lemma census_inv_free c w i b memory ts (h' : heap) tr :
  consistent w -> census_inv c w -> memory <> NULL ->
  blocks (tracker_of w) !! i = Some b -> pointer b = memory ->
  census_inv {| allocations := allocations c; frees := frees c + 1;
                handles := filter (fun p => p <> memory) (handles c) |}
    (Machine
       {| g_memory_tracker :=
            {| blocks := <[i := zero_block]> (blocks (tracker_of w));
               current_block_count := current_block_count (tracker_of w) - 1;
               total_allocated_memory := total_allocated_memory (tracker_of w) - size b |};
          static_timestamp := ts |} h' tr).
Proof.
  intros Hc (Hle & Hlen & Hperm) Hm Hi Hb.
  assert (pointer b <> NULL) as Hp by congruence.
  pose proof (tracked_clear _ _ _ Hi Hp) as Hcl.
  set (bs' := <[i := zero_block]> (blocks (tracker_of w))) in *.
  assert (Forall (fun p => p <> memory) (tracked bs').*1) as Hnot.
  { apply Forall_forall. intros p ([q s] & -> & Hin)%list_elem_of_fmap.
    apply elem_of_tracked in Hin as (j & cj & Hj & Hpj & <- & _). cbn [fst].
    subst bs'. apply list_lookup_insert_Some in Hj as [(_ & <- & _)|[Hji Hj]]; [done|].
    intros Heq. apply Hji. symmetry. apply (c_unique w Hc j i cj b Hj Hi Hpj). congruence. }
  assert (filter (fun p => p <> memory) (handles c) ≡ₚ (tracked bs').*1) as Hfilt.
  { rewrite <- Hperm, Hcl, fmap_cons. cbn [fst]. rewrite Hb.
    rewrite filter_cons_False by (by intros []).
    clear -Hnot. induction Hnot as [|p l Hp _ IH]; [done|].
    by rewrite filter_cons_True, IH. }
  unfold census_inv, tracker_of.
  cbn [allocations frees handles globals g_memory_tracker blocks].
  assert (length (handles c) = S (length (tracked bs').*1)) as Hl.
  { rewrite <- Hperm, Hcl. done. }
  repeat split; [lia|lia| |by rewrite Hfilt].
  rewrite Hfilt. lia.
Qed.

Lemma census_sound ops : forall c w c' w',
  consistent w -> census_inv c w ->
  census ops c w = Returned c' w' ->
  consistent w' /\ census_inv c' w'.
Proof.
  induction ops as [|o rest IH]; intros c w c' w' Hc Hinv; cbn [census].
  { by intros [= <- <-]. }
  destruct o as [|size filename line_number type answer|memory filename line_number|];
    unfold mbind, M_bind.
  - rewrite init_eq. apply IH; [apply consistent_zero, (c_heap w Hc)|].
    unfold census_inv, tracker_of. cbn [globals g_memory_tracker no_calls
      allocations frees handles length]. rewrite tracked_zero_tracker. done.
  - destruct (safe_memory_allocate size filename line_number type answer w)
      as [r w1| | |] eqn:Hret; try done.
    pose proof (alloc_consistent _ _ _ _ _ _ _ _ Hc Hret) as Hc1.
    apply IH; [done|].
    destruct (alloc_inv _ _ _ _ _ _ _ _ Hret)
      as [?|? ?|? ? ?|? ? ? ? ?|i b Hs Hlt Ha Hf Hfind];
      try (rewrite Z.eqb_refl; by apply (census_inv_same c w)).
    Zeqb_case answer NULL. by apply census_inv_alloc.
  - unfold finds at 1. step_m.
    destruct (safe_memory_free memory filename line_number w) as [[] w1| | |] eqn:Hret;
      try done.
    pose proof (free_consistent _ _ _ _ _ Hc Hret) as Hc1.
    apply IH; [done|].
    destruct (decide (memory = NULL)) as [->|Hm].
    { rewrite free_null in Hret. injection Hret as <-.
      cbn [Z.eqb negb andb NULL]. by apply (census_inv_same c w). }
    destruct (list_find (fun b => pointer b = memory)
                (blocks (g_memory_tracker (globals w)))) as [[i b]|] eqn:Hfind.
    + Zeqb_case memory NULL. cbn [negb andb].
      rewrite bool_decide_eq_true_2 by eauto.
      rewrite (free_tracked _ _ _ _ i b) in Hret by done.
      apply list_find_Some in Hfind as (Hi & Hb & _).
      destruct (consistent_free w i b memory Hc Hm Hi Hb) as (h' & Hrel & Hcnt & Htot & _).
      unfold tracker_of in *. rewrite Hrel, Hcnt, Htot in Hret. injection Hret as <-.
      by apply (census_inv_free c w i b memory).
    + rewrite bool_decide_eq_false_2 by (by intros [? ?]). rewrite andb_false_r.
      rewrite free_untracked in Hret by done. cbn zeta in Hret.
      destruct (release memory (mheap w)); [|done]. injection Hret as <-.
      by apply (census_inv_same c w).
  - rewrite report_eq. apply IH; [by apply consistent_log|].
    by apply (census_inv_same c w).
Qed.
Lemma census_run ops : forall c w c' w',
  census ops c w = Returned c' w' -> run ops w = Returned tt w'.
Proof.
  induction ops as [|o rest IH]; intros c w c' w'; cbn [census run exec].
  { by intros [= _ <-]. }
  destruct o as [|size filename line_number type answer|memory filename line_number|];
    cbn [exec]; unfold mbind, M_bind.
  - rewrite init_eq. apply IH.
  - destruct (safe_memory_allocate size filename line_number type answer w)
      as [r w1| | |]; try done. unfold mret, M_ret. apply IH.
  - unfold finds at 1. step_m.
    destruct (safe_memory_free memory filename line_number w) as [[] w1| | |]; try done.
    apply IH.
  - rewrite report_eq. apply IH.
Qed.

Lemma whole_run_census_run ops : forall c w c' w',
  whole_run_census ops c w = Returned c' w' -> run ops w = Returned tt w'.
Proof.
  induction ops as [|o rest IH]; intros c w c' w'; cbn [whole_run_census run exec].
  { by intros [= _ <-]. }
  destruct o as [|size filename line_number type answer|memory filename line_number|];
    cbn [exec]; unfold mbind, M_bind.
  - rewrite init_eq. apply IH.
  - destruct (safe_memory_allocate size filename line_number type answer w)
      as [r w1| | |]; try done. unfold mret, M_ret. apply IH.
  - unfold finds at 1. step_m.
    destruct (safe_memory_free memory filename line_number w) as [[] w1| | |]; try done.
    apply IH.
  - rewrite report_eq. apply IH.
Qed.

(** Where the table is never initialised again the two tallies are one. *)
Lemma whole_run_census_eq ops : forall c w,
  Forall (fun o => o <> Init) ops -> whole_run_census ops c w = census ops c w.
Proof.
  induction ops as [|o rest IH]; intros c w Hno; [done|].
  apply Forall_cons in Hno as [Ho Hno].
  destruct o as [|size filename line_number type answer|memory filename line_number|];
    [done| | |]; cbn [whole_run_census census]; unfold mbind, M_bind.
  - destruct (safe_memory_allocate size filename line_number type answer w)
      as [r w1| | |]; try done. by apply IH.
  - destruct (finds memory w) as [found w0| | |]; try done.
    destruct (safe_memory_free memory filename line_number w0) as [[] w1| | |]; try done.
    by apply IH.
  - destruct (generate_memory_report w) as [[] w1| | |]; try done. by apply IH.
Qed.
End Census.

End ManagerFacts.

(** ** The linked-list tracker of memory_management_tool.c *)

Module ToolFacts.
Import Tool.

Lemma tool_alloc_zero filename line_number type answer answer_block fresh (w : world) :
  safe_memory_allocate 0 filename line_number type answer answer_block fresh w =
  Returned NULL (log w [Ev_printf stderr "Warning: Attempting to allocate zero bytes\n" []]).
Proof. reflexivity. Qed.

Lemma tool_alloc_oom size filename line_number type answer_block fresh (w : world) :
  size <> 0 ->
  safe_memory_allocate size filename line_number type NULL answer_block fresh w =
  Exited EXIT_FAILURE
    (log w [Ev_malloc size NULL;
            Ev_printf stderr "CRITICAL: Memory allocation failed at %s:%d\n"
                      [arg_s filename; arg_d line_number]]).
Proof.
  intros Hs. unfold safe_memory_allocate.
  destruct (Z.eqb_spec size 0) as [|_]; [done|].
  unfold mbind, M_bind, malloc, fprintf, emit, exit, log. simpl.
  by rewrite <- app_assoc.
Qed.

End ToolFacts.

(** ** Properties of the fixed-table tracker *)

Module ManagerSpec.
Import Manager ManagerFacts.

(** C1. After any sequence of initialize / allocate / free (and report)
    calls from program start, once the last call has returned,
    [total_allocated_memory] is the sum of the sizes of the slots whose
    pointer is not null and [current_block_count] is the number of such
    slots. *)
Theorem aggregate_consistency (h : heap) (ops : list op) (w : world) :
  heap_wf h = true ->
  run ops (boot h) = Returned tt w ->
  total_allocated_memory (tracker_of w) = occupied_bytes (blocks (tracker_of w))
  /\ current_block_count (tracker_of w) = occupied_slots (blocks (tracker_of w)).
Proof.
  intros Hh Hrun. pose proof (reachable_consistent h ops w Hh Hrun) as Hc.
  split; [apply (c_total w Hc) | apply (c_count w Hc)].
Qed.

Lemma aggregate_consistency_witness :
  returns (run round_trip_allocs (boot [])) = true
  /\ total_allocated_memory (tracker_of (final round_trip_allocs [])) = 70
  /\ total_allocated_memory (tracker_of (final round_trip_allocs []))
     = occupied_bytes (blocks (tracker_of (final round_trip_allocs [])))
  /\ current_block_count (tracker_of (final round_trip_allocs []))
     = occupied_slots (blocks (tracker_of (final round_trip_allocs []))).
Proof.
  assert (returns (run round_trip_allocs (boot [])) = true) as Hret
    by (vm_compute; reflexivity).
  split; [exact Hret|]. split; [vm_compute; reflexivity|].
  apply (aggregate_consistency [] round_trip_allocs); [reflexivity|].
  apply run_final, Hret.
Defined.

(** C2 as the code has it.  When [malloc] fails for a size other than 0,
    the linked-list tracker writes the diagnostic with the call site and
    ends the process with [EXIT_FAILURE]; the fixed-table tracker, below
    capacity, writes the diagnostic with the call site and returns [NULL],
    with the table, the counters and the heap as before. *)
Theorem allocator_failure :
  (forall size filename line_number type answer_block fresh (w : Tool.world),
      size <> 0 ->
      Tool.safe_memory_allocate size filename line_number type NULL answer_block fresh w
      = Exited EXIT_FAILURE
          (Machine (globals w) (mheap w)
             (trace w
              ++ [Ev_malloc size NULL;
                  Ev_printf stderr "CRITICAL: Memory allocation failed at %s:%d\n"
                            [arg_s filename; arg_d line_number]])))
  /\ (forall size filename line_number type (w : world),
      size <> 0 ->
      current_block_count (tracker_of w) < MAX_TRACKED_BLOCKS ->
      safe_memory_allocate size filename line_number type NULL w
      = Returned NULL
          (Machine (globals w) (mheap w)
             (trace w
              ++ [Ev_malloc size NULL;
                  Ev_printf stderr "CRITICAL: Allocation failed at %s:%d\n"
                            [arg_s filename; arg_d line_number]]))).
Proof.
  split.
  - intros. by apply ToolFacts.tool_alloc_oom.
  - intros. by apply alloc_oom.
Qed.

Lemma allocator_failure_witness :
  Tool.safe_memory_allocate 20 "memory_management_tool.c" 205 Tool.MEMORY_TYPE_DYNAMIC
                            NULL NULL [] (Tool.boot [])
  = Exited EXIT_FAILURE
      (Machine (globals (Tool.boot [])) []
         [Ev_malloc 20 NULL;
          Ev_printf stderr "CRITICAL: Memory allocation failed at %s:%d\n"
                    [arg_s "memory_management_tool.c"; arg_d 205]])
  /\ safe_memory_allocate 20 "main.c" 25 MEMORY_TYPE_DYNAMIC NULL (boot [])
     = Returned NULL
         (Machine (globals (boot [])) []
            [Ev_malloc 20 NULL;
             Ev_printf stderr "CRITICAL: Allocation failed at %s:%d\n"
                       [arg_s "main.c"; arg_d 25]]).
Proof.
  split.
  - apply (proj1 allocator_failure 20 "memory_management_tool.c" 205
                 Tool.MEMORY_TYPE_DYNAMIC NULL [] (Tool.boot [])). done.
  - apply (proj2 allocator_failure 20 "main.c" 25 MEMORY_TYPE_DYNAMIC (boot []));
      [done | reflexivity].
Defined.

(** C2 as stated fails on the fixed-table tracker: at program start, with
    every slot free, a request for 20 bytes that [malloc] refuses returns
    [NULL] to the caller; the process is not ended. *)
Lemma allocator_failure_returns :
  20 <> 0
  /\ blocks (tracker_of (boot [])) !! 0%nat = Some zero_block
  /\ pointer zero_block = NULL
  /\ safe_memory_allocate 20 "main.c" 25 MEMORY_TYPE_DYNAMIC NULL (boot [])
     = Returned NULL
         (log (boot [])
              [Ev_malloc 20 NULL;
               Ev_printf stderr "CRITICAL: Allocation failed at %s:%d\n"
                         [arg_s "main.c"; arg_d 25]])
  /\ forall code w',
      safe_memory_allocate 20 "main.c" 25 MEMORY_TYPE_DYNAMIC NULL (boot [])
      <> Exited code w'.
Proof.
  assert (safe_memory_allocate 20 "main.c" 25 MEMORY_TYPE_DYNAMIC NULL (boot [])
          = Returned NULL
              (log (boot [])
                   [Ev_malloc 20 NULL;
                    Ev_printf stderr "CRITICAL: Allocation failed at %s:%d\n"
                              [arg_s "main.c"; arg_d 25]])) as Heq
    by (apply alloc_oom; [done | reflexivity]).
  split; [done|]. split; [reflexivity|]. split; [reflexivity|]. split; [exact Heq|].
  intros code w'. rewrite Heq. discriminate.
Qed.

(** C3. With [current_block_count] at [MAX_TRACKED_BLOCKS] (1000), a call
    of [safe_memory_allocate] with a size other than 0 writes the
    tracker-full diagnostic and returns [NULL]; that [fprintf] is the only
    library call it makes, so [malloc] is not called, and the table, the
    counters and the heap are as before.  In a state reached from program
    start with [current_block_count] below 1000, a call for which [malloc]
    returns a block succeeds: it returns that block, which is then live in
    the heap and recorded with its size, the call site, the type and
    status [MEMORY_STATUS_ALLOCATED] in a slot that was free, all other
    slots as before; [current_block_count] has grown by one, staying
    within the capacity, and [total_allocated_memory] by the size; the
    [malloc] is the only library call made. *)
Theorem capacity_boundary :
  (forall size filename line_number type answer (w : world),
      size <> 0 ->
      current_block_count (tracker_of w) = MAX_TRACKED_BLOCKS ->
      exists w',
        safe_memory_allocate size filename line_number type answer w = Returned NULL w'
        /\ globals w' = globals w
        /\ mheap w' = mheap w
        /\ trace w' = trace w ++ [Ev_printf stderr "ERROR: Memory tracker full\n" []])
  /\ (forall (h : heap) ops (w : world) size filename line_number type answer,
      heap_wf h = true ->
      run ops (boot h) = Returned tt w ->
      current_block_count (tracker_of w) < MAX_TRACKED_BLOCKS ->
      answer <> NULL ->
      fits (mheap w) answer size = true ->
      exists (i : nat) (w' : world),
        safe_memory_allocate size filename line_number type answer w
        = Returned answer w'
        /\ blocks (tracker_of w) !! i = Some zero_block
        /\ blocks (tracker_of w')
           = <[i := {| pointer := answer; size := size;
                       filename := strncpy_bytes filename 255 ++ [Ascii.zero];
                       line_number := line_number; type := type;
                       status := MEMORY_STATUS_ALLOCATED;
                       timestamp := uint64_wrap (static_timestamp (globals w) + 1) |}]>
               (blocks (tracker_of w))
        /\ current_block_count (tracker_of w') = current_block_count (tracker_of w) + 1
        /\ current_block_count (tracker_of w') <= MAX_TRACKED_BLOCKS
        /\ total_allocated_memory (tracker_of w')
           = total_allocated_memory (tracker_of w) + size
        /\ mheap w' = (answer, size) :: mheap w
        /\ trace w' = trace w ++ [Ev_malloc size answer]).
Proof.
  split.
  - intros size filename line_number type answer w Hs Hc.
    eexists. split; [apply alloc_full; [done|lia]|]. done.
  - intros h ops w size filename line_number type answer Hh Hrun Hlt Ha Hf.
    pose proof (reachable_consistent h ops w Hh Hrun) as Hc.
    destruct (consistent_free_slot w Hc Hlt) as (i & b & Hfind).
    pose proof Hfind as (Hi & Hb & _)%list_find_Some.
    pose proof (c_clear w Hc i b Hi Hb) as ->.
    assert (size <> 0) as Hs by (apply fits_spec in Hf; lia).
    assert (populate zero_block answer size filename line_number type
              (uint64_wrap (static_timestamp (globals w) + 1))
            = {| pointer := answer; size := size;
                 filename := strncpy_bytes filename 255 ++ [Ascii.zero];
                 line_number := line_number; type := type;
                 status := MEMORY_STATUS_ALLOCATED;
                 timestamp := uint64_wrap (static_timestamp (globals w) + 1) |}) as Hpop.
    { unfold populate. f_equal. apply (strncpy_terminated _ _ 255).
      unfold zero_block. cbn [Manager.filename]. by rewrite length_replicate. }
    destruct (consistent_alloc w i zero_block answer size filename line_number type
                (uint64_wrap (static_timestamp (globals w) + 1)) Hc Ha Hf Hi Hb
                (tracker_of (allocated w i zero_block size filename line_number type answer))
                (uint64_wrap (static_timestamp (globals w) + 1)) []
                eq_refl eq_refl eq_refl) as (_ & Hcnt & Htot).
    exists i, (allocated w i zero_block size filename line_number type answer).
    split; [by apply alloc_ok|]. split; [exact Hi|].
    split; [|split; [exact Hcnt|split; [rewrite Hcnt; lia|split; [exact Htot|done]]]].
    unfold allocated, tracker_of. cbn [globals g_memory_tracker blocks].
    by rewrite Hpop.
Qed.

(** The capacity boundary: 1000 allocations from program start all return
    their block; the 1001st returns [NULL] and changes neither table nor
    heap; and after 999 the next one still succeeds, taking the count to
    the capacity. *)
Lemma capacity_boundary_witness :
  returns (run (fill 1000) (boot [])) = true
  /\ current_block_count (tracker_of (final (fill 1000) [])) = MAX_TRACKED_BLOCKS
  /\ (exists w',
        safe_memory_allocate 8 "fill.c" 1000 MEMORY_TYPE_DYNAMIC 16016
                             (final (fill 1000) []) = Returned NULL w'
        /\ globals w' = globals (final (fill 1000) [])
        /\ mheap w' = mheap (final (fill 1000) [])
        /\ trace w' = trace (final (fill 1000) [])
                      ++ [Ev_printf stderr "ERROR: Memory tracker full\n" []])
  /\ (exists (i : nat) (w' : world),
        safe_memory_allocate 8 "fill.c" 999 MEMORY_TYPE_DYNAMIC 16000
                             (final (fill 999) []) = Returned 16000 w'
        /\ blocks (tracker_of (final (fill 999) [])) !! i = Some zero_block
        /\ blocks (tracker_of w')
           = <[i := {| pointer := 16000; size := 8;
                       filename := strncpy_bytes "fill.c" 255 ++ [Ascii.zero];
                       line_number := 999; type := MEMORY_TYPE_DYNAMIC;
                       status := MEMORY_STATUS_ALLOCATED;
                       timestamp :=
                         uint64_wrap
                           (static_timestamp (globals (final (fill 999) [])) + 1) |}]>
               (blocks (tracker_of (final (fill 999) [])))
        /\ current_block_count (tracker_of w')
           = current_block_count (tracker_of (final (fill 999) [])) + 1
        /\ current_block_count (tracker_of w') <= MAX_TRACKED_BLOCKS
        /\ total_allocated_memory (tracker_of w')
           = total_allocated_memory (tracker_of (final (fill 999) [])) + 8
        /\ mheap w' = (16000, 8) :: mheap (final (fill 999) [])
        /\ trace w' = trace (final (fill 999) []) ++ [Ev_malloc 8 16000]).
Proof.
  assert (returns (run (fill 1000) (boot [])) = true) as Hret
    by (vm_compute; reflexivity).
  assert (current_block_count (tracker_of (final (fill 1000) [])) = MAX_TRACKED_BLOCKS)
    as Hfull by (vm_compute; reflexivity).
  split; [exact Hret|]. split; [exact Hfull|]. split.
  - apply (proj1 capacity_boundary); [done | exact Hfull].
  - apply (proj2 capacity_boundary [] (fill 999)).
    + reflexivity.
    + apply run_final. vm_compute; reflexivity.
    + vm_compute; reflexivity.
    + done.
    + vm_compute; reflexivity.
Defined.

(** C4. In any state, [safe_memory_allocate] with size 0 writes the
    zero-byte warning and returns [NULL]; the table, both counters and the
    heap are as before, and nothing but the warning is added to the trace. *)
Theorem zero_size_rejected (filename : string) (line_number : Z)
    (type : MemoryAllocationType) (answer : Z) (w : world) :
  exists w',
    safe_memory_allocate 0 filename line_number type answer w = Returned NULL w'
    /\ globals w' = globals w
    /\ mheap w' = mheap w
    /\ trace w' = trace w ++ [Ev_printf stderr "WARNING: Zero-byte allocation\n" []].
Proof. eexists. split; [apply alloc_zero|]. done. Qed.

(** C5 as the code has it.  [safe_memory_free] of a non-null handle that no
    slot holds writes the untracked-free warning and passes the handle to
    [free], leaving the table and both counters as they were.  When the
    handle is a live block of the allocator the call returns and the block
    is released; when it is not -- as at the second free of a handle --
    the call to [free] has undefined behaviour. *)
Theorem untracked_free (memory : Z) (filename : string) (line_number : Z)
    (w : world) :
  memory <> NULL ->
  (forall i b, blocks (tracker_of w) !! i = Some b -> pointer b <> memory) ->
  (live memory (mheap w) = true ->
   exists h',
     release memory (mheap w) = Some h'
     /\ safe_memory_free memory filename line_number w
        = Returned tt
            (Machine (globals w) h'
               (trace w
                ++ [Ev_printf stderr "WARNING: Untracked memory free at %s:%d\n"
                              [arg_s filename; arg_d line_number];
                    Ev_free memory])))
  /\ (live memory (mheap w) = false ->
      safe_memory_free memory filename line_number w
      = Undefined
          (Machine (globals w) (mheap w)
             (trace w
              ++ [Ev_printf stderr "WARNING: Untracked memory free at %s:%d\n"
                            [arg_s filename; arg_d line_number];
                  Ev_free memory]))).
Proof.
  intros Hm Hno.
  assert (list_find (fun b => pointer b = memory) (blocks (tracker_of w)) = None) as Hfind.
  { apply list_find_None, Forall_forall. intros b [i Hi]%list_elem_of_lookup. eauto. }
  rewrite free_untracked by done. cbn zeta. split; intros Hlive.
  - apply release_live in Hlive as [h' Hrel]. exists h'. by rewrite Hrel.
  - destruct (release memory (mheap w)) as [h'|] eqn:Hrel; [|done].
    assert (live memory (mheap w) = true) by (apply release_live; eauto). congruence.
Qed.

Lemma untracked_free_witness :
  (exists h',
      release 4096 (mheap (boot [(4096, 20)])) = Some h'
      /\ safe_memory_free 4096 "main.c" 58 (boot [(4096, 20)])
         = Returned tt
             (Machine (globals (boot [(4096, 20)])) h'
                (trace (boot [(4096, 20)])
                 ++ [Ev_printf stderr "WARNING: Untracked memory free at %s:%d\n"
                               [arg_s "main.c"; arg_d 58];
                     Ev_free 4096])))
  /\ safe_memory_free 4096 "main.c" 58 (boot [])
     = Undefined
         (Machine (globals (boot [])) (mheap (boot []))
            (trace (boot [])
             ++ [Ev_printf stderr "WARNING: Untracked memory free at %s:%d\n"
                           [arg_s "main.c"; arg_d 58];
                 Ev_free 4096])).
Proof.
  assert (forall (h : heap) i b,
             blocks (tracker_of (boot h)) !! i = Some b -> pointer b <> 4096) as Hno.
  { intros h i b ->%zero_tracker_lookup. done. }
  split.
  - apply (proj1 (untracked_free 4096 "main.c" 58 (boot [(4096, 20)])
                    ltac:(done) (Hno _))). reflexivity.
  - apply (proj2 (untracked_free 4096 "main.c" 58 (boot []) ltac:(done) (Hno _))).
    reflexivity.
Defined.

(** C5 as stated fails at the second free of a handle: after the two
    allocations and one free of 4096, no slot holds 4096, and a second
    [safe_memory_free] of it does not return -- its [free] is a double free. *)
Lemma double_free_undefined :
  returns (run one_freed (boot [])) = true
  /\ (forall i b, blocks (tracker_of (final one_freed [])) !! i = Some b ->
                  pointer b <> 4096)
  /\ live 4096 (mheap (final one_freed [])) = false
  /\ returns (safe_memory_free 4096 "main.c" 58 (final one_freed [])) = false
  /\ forall w', safe_memory_free 4096 "main.c" 58 (final one_freed []) <> Returned tt w'.
Proof.
  assert (returns (safe_memory_free 4096 "main.c" 58 (final one_freed [])) = false)
    as Hnot by (vm_compute; reflexivity).
  split; [vm_compute; reflexivity|]. split; [|split; [vm_compute; reflexivity|split]].
  - assert (list_find (fun b => pointer b = 4096) (blocks (tracker_of (final one_freed [])))
            = None) as Hfind by (vm_compute; reflexivity).
    apply list_find_None in Hfind. rewrite Forall_forall in Hfind.
    intros i b Hi. apply Hfind. by eapply list_elem_of_lookup_2.
  - exact Hnot.
  - intros w' Heq. apply (f_equal returns) in Heq. rewrite Hnot in Heq.
    exact (Bool.diff_false_true Heq).
Qed.

(** C6. In a state reached from program start, [safe_memory_free] of a
    non-null handle held by slot [i] returns, having subtracted the slot's
    size from [total_allocated_memory], decremented [current_block_count],
    passed the handle to [free], which releases its block, and set slot [i]
    to the all-zero block; every other slot is as before. *)
Theorem tracked_free (h : heap) (ops : list op) (w : world)
    (memory : Z) (filename : string) (line_number : Z)
    (i : nat) (b : MemoryBlock) :
  heap_wf h = true ->
  run ops (boot h) = Returned tt w ->
  memory <> NULL ->
  blocks (tracker_of w) !! i = Some b ->
  pointer b = memory ->
  exists h' bs',
    release memory (mheap w) = Some h'
    /\ safe_memory_free memory filename line_number w
       = Returned tt
           (Machine
              {| g_memory_tracker :=
                   {| blocks := bs';
                      current_block_count := current_block_count (tracker_of w) - 1;
                      total_allocated_memory :=
                        total_allocated_memory (tracker_of w) - size b |};
                 static_timestamp := static_timestamp (globals w) |}
              h' (trace w ++ [Ev_free memory]))
    /\ bs' !! i = Some zero_block
    /\ (forall j, j <> i -> bs' !! j = blocks (tracker_of w) !! j)
    /\ length bs' = length (blocks (tracker_of w)).
Proof.
  intros Hh Hrun Hm Hi Hb.
  pose proof (reachable_consistent h ops w Hh Hrun) as Hc.
  destruct (consistent_free w i b memory Hc Hm Hi Hb) as (h' & Hrel & Hcnt & Htot & _).
  exists h', (<[i := zero_block]> (blocks (tracker_of w))).
  split; [done|]. split; [|split; [|split]].
  - rewrite (free_tracked _ _ _ _ i b); [|done|by apply consistent_find].
    by rewrite Hrel, Hcnt, Htot.
  - apply list_lookup_insert_eq. by eapply lookup_lt_Some.
  - intros j Hj. by apply list_lookup_insert_ne.
  - apply length_insert.
Qed.

Lemma tracked_free_witness :
  returns (run round_trip_allocs (boot [])) = true
  /\ blocks (tracker_of (final round_trip_allocs [])) !! 0%nat
     = Some (populate zero_block 4096 20 "main.c" 25 MEMORY_TYPE_DYNAMIC 1)
  /\ exists h' bs',
      release 4096 (mheap (final round_trip_allocs [])) = Some h'
      /\ safe_memory_free 4096 "main.c" 58 (final round_trip_allocs [])
         = Returned tt
             (Machine
                {| g_memory_tracker :=
                     {| blocks := bs';
                        current_block_count :=
                          current_block_count (tracker_of (final round_trip_allocs [])) - 1;
                        total_allocated_memory :=
                          total_allocated_memory (tracker_of (final round_trip_allocs []))
                          - 20 |};
                   static_timestamp := static_timestamp (globals (final round_trip_allocs [])) |}
                h' (trace (final round_trip_allocs []) ++ [Ev_free 4096]))
      /\ bs' !! 0%nat = Some zero_block
      /\ (forall j, j <> 0%nat ->
                    bs' !! j = blocks (tracker_of (final round_trip_allocs [])) !! j)
      /\ length bs' = length (blocks (tracker_of (final round_trip_allocs []))).
Proof.
  assert (returns (run round_trip_allocs (boot [])) = true) as Hret
    by (vm_compute; reflexivity).
  assert (blocks (tracker_of (final round_trip_allocs [])) !! 0%nat
          = Some (populate zero_block 4096 20 "main.c" 25 MEMORY_TYPE_DYNAMIC 1)) as Hi
    by (vm_compute; reflexivity).
  split; [exact Hret|]. split; [exact Hi|].
  apply (tracked_free [] round_trip_allocs (final round_trip_allocs []) 4096 "main.c" 58
           0 (populate zero_block 4096 20 "main.c" 25 MEMORY_TYPE_DYNAMIC 1));
    [reflexivity | apply run_final, Hret | done | exact Hi | reflexivity].
Defined.

(** The round trip: two allocations of 20 and 50 bytes give 2 blocks and
    70 bytes; freeing the first leaves 1 and 50; freeing the second, 0 and 0. *)
Example round_trip_scenario :
  (current_block_count (tracker_of (final round_trip_allocs [])),
   total_allocated_memory (tracker_of (final round_trip_allocs []))) = (2, 70)
  /\ (current_block_count (tracker_of (final one_freed [])),
      total_allocated_memory (tracker_of (final one_freed []))) = (1, 50)
  /\ (current_block_count (tracker_of (final round_trip [])),
      total_allocated_memory (tracker_of (final round_trip []))) = (0, 0)
  /\ returns (run round_trip (boot [])) = true.
Proof. repeat split; vm_compute; reflexivity. Qed.

(** C7. In a state reached from program start with [current_block_count]
    below [MAX_TRACKED_BLOCKS], a call of [safe_memory_allocate] with a
    size above 0 for which [malloc] returns a block returns that block and
    records it in the free slot of lowest index: the slot gets the address,
    the size, the file name cut to its first 255 characters and
    terminated, the line, the type, status [MEMORY_STATUS_ALLOCATED] and
    the next value of the timestamp counter; [current_block_count] grows by
    one and [total_allocated_memory] by the size, neither wrapping. *)
Theorem successful_allocate (h : heap) (ops : list op) (w : world)
    (size : Z) (filename : string) (line_number : Z)
    (type : MemoryAllocationType) (answer : Z) :
  heap_wf h = true ->
  run ops (boot h) = Returned tt w ->
  0 < size ->
  current_block_count (tracker_of w) < MAX_TRACKED_BLOCKS ->
  answer <> NULL ->
  fits (mheap w) answer size = true ->
  exists (i : nat) (new : MemoryBlock),
    blocks (tracker_of w) !! i = Some zero_block
    /\ (forall j c, (j < i)%nat -> blocks (tracker_of w) !! j = Some c -> pointer c <> NULL)
    /\ new = {| pointer := answer; size := size;
                filename := strncpy_bytes filename 255 ++ [Ascii.zero];
                line_number := line_number; type := type;
                status := MEMORY_STATUS_ALLOCATED;
                timestamp := uint64_wrap (static_timestamp (globals w) + 1) |}
    /\ c_string (Manager.filename new) = take 255 (c_string (list_ascii_of_string filename))
    /\ safe_memory_allocate size filename line_number type answer w
       = Returned answer
           (Machine
              {| g_memory_tracker :=
                   {| blocks := <[i := new]> (blocks (tracker_of w));
                      current_block_count := current_block_count (tracker_of w) + 1;
                      total_allocated_memory :=
                        total_allocated_memory (tracker_of w) + size |};
                 static_timestamp := uint64_wrap (static_timestamp (globals w) + 1) |}
              ((answer, size) :: mheap w)
              (trace w ++ [Ev_malloc size answer])).
Proof.
  intros Hh Hrun Hs Hlt Ha Hf.
  pose proof (reachable_consistent h ops w Hh Hrun) as Hc.
  destruct (consistent_free_slot w Hc Hlt) as (i & b & Hfind).
  pose proof Hfind as (Hi & Hb & Hlow)%list_find_Some.
  pose proof (c_clear w Hc i b Hi Hb) as ->.
  assert (populate zero_block answer size filename line_number type
            (uint64_wrap (static_timestamp (globals w) + 1))
          = {| pointer := answer; size := size;
               filename := strncpy_bytes filename 255 ++ [Ascii.zero];
               line_number := line_number; type := type;
               status := MEMORY_STATUS_ALLOCATED;
               timestamp := uint64_wrap (static_timestamp (globals w) + 1) |}) as Hpop.
  { unfold populate. f_equal. apply (strncpy_terminated _ _ 255).
    unfold zero_block. cbn [Manager.filename]. by rewrite length_replicate. }
  eexists i, _. split; [exact Hi|]. split; [|split; [reflexivity|split]].
  - intros j c Hj Hjc. by apply (Hlow j c).
  - cbn [Manager.filename]. apply c_string_strncpy.
  - rewrite (alloc_ok _ _ _ _ _ _ i zero_block) by (try done; lia).
    destruct (consistent_alloc w i zero_block answer size filename line_number type
                (uint64_wrap (static_timestamp (globals w) + 1)) Hc Ha Hf Hi Hb
                (tracker_of (allocated w i zero_block size filename line_number type answer))
                (uint64_wrap (static_timestamp (globals w) + 1)) []
                eq_refl eq_refl eq_refl) as (_ & Hcnt & Htot).
    unfold allocated, tracker_of in *.
    cbn [globals g_memory_tracker current_block_count total_allocated_memory]
      in Hcnt, Htot.
    rewrite Hcnt, Htot, Hpop. reflexivity.
Qed.

Lemma successful_allocate_witness :
  returns (run round_trip_allocs (boot [])) = true
  /\ exists (i : nat) (new : MemoryBlock),
      blocks (tracker_of (final round_trip_allocs [])) !! i = Some zero_block
      /\ (forall j c, (j < i)%nat ->
            blocks (tracker_of (final round_trip_allocs [])) !! j = Some c ->
            pointer c <> NULL)
      /\ new = {| pointer := 12288; size := 24;
                  filename := strncpy_bytes "main.c" 255 ++ [Ascii.zero];
                  line_number := 25; type := MEMORY_TYPE_PERSISTENT;
                  status := MEMORY_STATUS_ALLOCATED;
                  timestamp :=
                    uint64_wrap (static_timestamp (globals (final round_trip_allocs [])) + 1) |}
      /\ c_string (Manager.filename new) = take 255 (c_string (list_ascii_of_string "main.c"))
      /\ safe_memory_allocate 24 "main.c" 25 MEMORY_TYPE_PERSISTENT 12288
                              (final round_trip_allocs [])
         = Returned 12288
             (Machine
                {| g_memory_tracker :=
                     {| blocks := <[i := new]> (blocks (tracker_of (final round_trip_allocs [])));
                        current_block_count :=
                          current_block_count (tracker_of (final round_trip_allocs [])) + 1;
                        total_allocated_memory :=
                          total_allocated_memory (tracker_of (final round_trip_allocs [])) + 24 |};
                   static_timestamp :=
                     uint64_wrap (static_timestamp (globals (final round_trip_allocs [])) + 1) |}
                ((12288, 24) :: mheap (final round_trip_allocs []))
                (trace (final round_trip_allocs []) ++ [Ev_malloc 24 12288])).
Proof.
  assert (returns (run round_trip_allocs (boot [])) = true) as Hret
    by (vm_compute; reflexivity).
  split; [exact Hret|].
  apply (successful_allocate [] round_trip_allocs (final round_trip_allocs [])
           24 "main.c" 25 MEMORY_TYPE_PERSISTENT 12288);
    [reflexivity | apply run_final, Hret | done | vm_compute; reflexivity | done
    | vm_compute; reflexivity].
Defined.

(** C8 as the code has it.  [generate_memory_report] returns in every
    state and changes neither the globals nor the heap; it prints the
    header, the two aggregates and then one line for each slot whose
    pointer is not null and for no other, by ascending slot index.  After
    any run from program start the number of those lines is the number of
    allocations that returned a handle less the number of frees that found
    theirs, both counted since the table was last initialised; the
    addresses on the lines are the handles returned and not freed since,
    and each is a live block of the size on its line.  In a run that never
    initialises the table again these are the counts of the whole run. *)
Theorem report_complete :
  (forall w : world,
      generate_memory_report w
      = Returned tt
          (Machine (globals w) (mheap w)
             (trace w
              ++ [ Ev_printf stdout "\n--- MEMORY ALLOCATION REPORT ---\n" [];
                   Ev_printf stdout "Total Blocks: %zu\n"
                             [arg_zu (current_block_count (tracker_of w))];
                   Ev_printf stdout "Total Allocated: %zu bytes\n"
                             [arg_zu (total_allocated_memory (tracker_of w))] ]
              ++ ((fun e => block_line e.1 e.2)
                    <$> occupied_entries (blocks (tracker_of w))))))
  /\ (forall (bs : list MemoryBlock) (i : nat) (b : MemoryBlock),
         (i, b) ∈ occupied_entries bs <-> bs !! i = Some b /\ pointer b <> NULL)
  /\ (forall bs : list MemoryBlock, StronglySorted lt (occupied_entries bs).*1)
  /\ occupied_entries (blocks (tracker_of (boot []))) = []
  /\ (forall (h : heap) (ops : list op) (c : tally) (w : world),
         heap_wf h = true ->
         census ops no_calls (boot h) = Returned c w ->
         0 <= frees c <= allocations c
         /\ Z.of_nat (length (occupied_entries (blocks (tracker_of w))))
            = allocations c - frees c
         /\ (fun e : nat * MemoryBlock => pointer e.2)
              <$> occupied_entries (blocks (tracker_of w)) ≡ₚ handles c
         /\ (forall (i : nat) (b : MemoryBlock),
               (i, b) ∈ occupied_entries (blocks (tracker_of w)) ->
               (pointer b, size b) ∈ mheap w)
         /\ run ops (boot h) = Returned tt w)
  /\ (forall (ops : list op) (c : tally) (w : world),
         Forall (fun o => o <> Init) ops ->
         whole_run_census ops c w = census ops c w).
Proof.
  split; [|split; [|split; [|split; [|split]]]].
  - intros w. rewrite report_eq. unfold log, report_of. by rewrite app_assoc.
  - apply elem_of_occupied_entries.
  - apply occupied_entries_sorted.
  - apply (fmap_nil_inv snd). rewrite occupied_entries_blocks.
    pose proof tracked_zero_tracker as Ht. unfold tracked in Ht.
    by apply fmap_nil_inv in Ht.
  - intros h ops c w Hh Hcen.
    assert (census_inv no_calls (boot h)) as Hinv.
    { unfold census_inv, boot, tracker_of.
      cbn [globals g_memory_tracker no_calls allocations frees handles length].
      by rewrite tracked_zero_tracker. }
    destruct (census_sound ops _ _ _ _ (consistent_boot h Hh) Hinv Hcen)
      as (Hcons & Hle & Hlen & Hperm).
    split; [done|]. split; [|split; [|split]].
    + rewrite <- Hlen, <- Hperm, <- occupied_entries_tracked, length_fmap. done.
    + by rewrite occupied_entries_tracked.
    + intros i b [Hi Hb]%elem_of_occupied_entries. by apply (c_live w Hcons i b).
    + by apply (census_run ops no_calls (boot h) c w).
  - intros ops c w Hno. by apply whole_run_census_eq.
Qed.

Lemma report_complete_witness :
  returns (census one_freed no_calls (boot [])) = true
  /\ allocations (result_of no_calls (census one_freed no_calls (boot []))) = 2
  /\ frees (result_of no_calls (census one_freed no_calls (boot []))) = 1
  /\ handles (result_of no_calls (census one_freed no_calls (boot []))) = [8192]
  /\ Z.of_nat (length (occupied_entries
                         (blocks (tracker_of
                            (machine_of (boot []) (census one_freed no_calls (boot [])))))))
     = 2 - 1.
Proof.
  assert (returns (census one_freed no_calls (boot [])) = true) as Hret
    by (vm_compute; reflexivity).
  split; [exact Hret|].
  assert (allocations (result_of no_calls (census one_freed no_calls (boot []))) = 2)
    as Hn by (vm_compute; reflexivity).
  assert (frees (result_of no_calls (census one_freed no_calls (boot []))) = 1)
    as Hm by (vm_compute; reflexivity).
  split; [exact Hn|]. split; [exact Hm|]. split; [vm_compute; reflexivity|].
  destruct (proj1 (proj2 (proj2 (proj2 (proj2 report_complete)))) [] one_freed
              (result_of no_calls (census one_freed no_calls (boot [])))
              (machine_of (boot []) (census one_freed no_calls (boot [])))
              eq_refl (returned_eq _ _ _ Hret)) as (_ & Hlen & _).
  rewrite Hlen, Hn, Hm. reflexivity.
Defined.

(** C8 as stated fails after a re-initialisation of the table: in the run
    that allocates 20 bytes at 4096, calls [memory_manager_init] and then
    reports, one allocation has returned a handle and no free was made, the
    block at 4096 is still live, and the report prints no block line: it
    enumerates 0 entries, not 1 - 0. *)
Lemma report_forgets_after_init :
  exists c : tally,
    whole_run_census forgotten no_calls (boot []) = Returned c (final forgotten [])
    /\ run forgotten (boot []) = Returned tt (final forgotten [])
    /\ allocations c = 1 /\ frees c = 0 /\ handles c = [4096]
    /\ live 4096 (mheap (final forgotten [])) = true
    /\ occupied_entries (blocks (tracker_of (final forgotten []))) = []
    /\ trace (final forgotten [])
       = [ Ev_malloc 20 4096;
           Ev_printf stdout "\n--- MEMORY ALLOCATION REPORT ---\n" [];
           Ev_printf stdout "Total Blocks: %zu\n" [arg_zu 0];
           Ev_printf stdout "Total Allocated: %zu bytes\n" [arg_zu 0] ]
    /\ Z.of_nat (length (occupied_entries (blocks (tracker_of (final forgotten [])))))
       <> allocations c - frees c.
Proof.
  assert (returns (whole_run_census forgotten no_calls (boot [])) = true) as Hret
    by (vm_compute; reflexivity).
  pose proof (returned_eq no_calls (boot []) _ Hret) as Hcen.
  pose proof (whole_run_census_run _ _ _ _ _ Hcen) as Hrun.
  assert (final forgotten []
          = machine_of (boot []) (whole_run_census forgotten no_calls (boot []))) as Hfin.
  { unfold final. by rewrite Hrun. }
  assert (allocations (result_of no_calls (whole_run_census forgotten no_calls (boot [])))
          = 1) as Hn by (vm_compute; reflexivity).
  assert (frees (result_of no_calls (whole_run_census forgotten no_calls (boot [])))
          = 0) as Hm by (vm_compute; reflexivity).
  assert (occupied_entries (blocks (tracker_of (final forgotten []))) = []) as Hnone
    by (vm_compute; reflexivity).
  exists (result_of no_calls (whole_run_census forgotten no_calls (boot []))).
  split; [by rewrite Hfin|]. split; [by rewrite Hfin|].
  split; [exact Hn|]. split; [exact Hm|]. split; [vm_compute; reflexivity|].
  split; [vm_compute; reflexivity|]. split; [exact Hnone|].
  split; [vm_compute; reflexivity|].
  rewrite Hnone, Hn, Hm. done.
Qed.

(** C9. Whenever [safe_memory_allocate] returns [NULL], the globals (every
    slot, [current_block_count], [total_allocated_memory], the timestamp
    counter) and the heap are exactly as before the call, and the call was
    one of four: a zero size; a table at capacity; a failed [malloc]; or a
    [malloc] that succeeded and a scan that found no free slot, where the
    block just obtained is passed to [free] before the return. *)
Theorem failed_allocate_leaves_state (size : Z) (filename : string)
    (line_number : Z) (type : MemoryAllocationType) (answer : Z)
    (w w' : world) (handle : Z) :
  safe_memory_allocate size filename line_number type answer w = Returned handle w' ->
  handle = NULL ->
  globals w' = globals w
  /\ mheap w' = mheap w
  /\ ( (size = 0
        /\ trace w' = trace w ++ [Ev_printf stderr "WARNING: Zero-byte allocation\n" []])
    \/ (size <> 0 /\ MAX_TRACKED_BLOCKS <= current_block_count (tracker_of w)
        /\ trace w' = trace w ++ [Ev_printf stderr "ERROR: Memory tracker full\n" []])
    \/ (size <> 0 /\ current_block_count (tracker_of w) < MAX_TRACKED_BLOCKS
        /\ answer = NULL
        /\ trace w' = trace w ++
             [Ev_malloc size NULL;
              Ev_printf stderr "CRITICAL: Allocation failed at %s:%d\n"
                        [arg_s filename; arg_d line_number]])
    \/ (size <> 0 /\ current_block_count (tracker_of w) < MAX_TRACKED_BLOCKS
        /\ answer <> NULL
        /\ Forall (fun b => pointer b <> NULL) (blocks (tracker_of w))
        /\ trace w' = trace w ++ [Ev_malloc size answer; Ev_free answer]) ).
Proof.
  intros Hret Hnull.
  destruct (alloc_inv _ _ _ _ _ _ _ _ Hret)
    as [Hs|Hs Hc|Hs Hc Ha|Hs Hc Ha Hf Hfind|i b Hs Hc Ha Hf Hfind];
    (split; [done|]); (split; [done|]).
  - left. done.
  - right; left. done.
  - right; right; left. subst answer. done.
  - right; right; right. apply list_find_None in Hfind. done.
  - done.
Qed.

Lemma failed_allocate_leaves_state_witness :
  (* a zero size *)
  (safe_memory_allocate 0 "main.c" 25 MEMORY_TYPE_DYNAMIC 4096 (boot [])
   = Returned NULL (log (boot []) [Ev_printf stderr "WARNING: Zero-byte allocation\n" []])
   /\ globals (log (boot []) [Ev_printf stderr "WARNING: Zero-byte allocation\n" []])
      = globals (boot []))
  (* a failed malloc *)
  /\ (safe_memory_allocate 20 "main.c" 25 MEMORY_TYPE_DYNAMIC NULL (boot [])
      = Returned NULL
          (log (boot []) [Ev_malloc 20 NULL;
                          Ev_printf stderr "CRITICAL: Allocation failed at %s:%d\n"
                                    [arg_s "main.c"; arg_d 25]])
      /\ globals (log (boot []) [Ev_malloc 20 NULL;
                                 Ev_printf stderr "CRITICAL: Allocation failed at %s:%d\n"
                                           [arg_s "main.c"; arg_d 25]])
         = globals (boot []))
  (* no free slot after a successful malloc *)
  /\ (safe_memory_allocate 8 "fill.c" 7 MEMORY_TYPE_DYNAMIC 8192 miscounted
      = Returned NULL (log miscounted [Ev_malloc 8 8192; Ev_free 8192])
      /\ globals (log miscounted [Ev_malloc 8 8192; Ev_free 8192]) = globals miscounted
      /\ mheap (log miscounted [Ev_malloc 8 8192; Ev_free 8192]) = mheap miscounted).
Proof.
  assert (safe_memory_allocate 20 "main.c" 25 MEMORY_TYPE_DYNAMIC NULL (boot [])
          = Returned NULL
              (log (boot []) [Ev_malloc 20 NULL;
                              Ev_printf stderr "CRITICAL: Allocation failed at %s:%d\n"
                                        [arg_s "main.c"; arg_d 25]])) as Hoom
    by (apply alloc_oom; [done|reflexivity]).
  assert (safe_memory_allocate 8 "fill.c" 7 MEMORY_TYPE_DYNAMIC 8192 miscounted
          = Returned NULL (log miscounted [Ev_malloc 8 8192; Ev_free 8192])) as Hno.
  { apply alloc_no_slot; [done|reflexivity|done|reflexivity|vm_compute; reflexivity]. }
  split; [split; [apply alloc_zero|]|split; [split; [exact Hoom|]|split; [exact Hno|]]].
  - apply (failed_allocate_leaves_state 0 "main.c" 25 MEMORY_TYPE_DYNAMIC 4096
             (boot []) _ NULL (alloc_zero _ _ _ _ _) eq_refl).
  - apply (failed_allocate_leaves_state _ _ _ _ _ _ _ _ Hoom eq_refl).
  - destruct (failed_allocate_leaves_state _ _ _ _ _ _ _ _ Hno eq_refl) as (Hg & Hh & _).
    split; [exact Hg | exact Hh].
Defined.

(** C10. After any sequence of initialize / allocate / free / report calls
    from program start, every slot of the table -- so every slot whose
    pointer is not null -- has status [MEMORY_STATUS_ALLOCATED]: the
    [MEMORY_STATUS_FREED] that [safe_memory_free] writes is gone with the
    clearing of the slot before the call returns, and nothing writes
    [MEMORY_STATUS_CORRUPTED]. *)
Theorem status_always_allocated (h : heap) (ops : list op) (w : world)
    (i : nat) (b : MemoryBlock) :
  heap_wf h = true ->
  run ops (boot h) = Returned tt w ->
  blocks (tracker_of w) !! i = Some b ->
  status b = MEMORY_STATUS_ALLOCATED
  /\ status b <> MEMORY_STATUS_FREED
  /\ status b <> MEMORY_STATUS_CORRUPTED.
Proof.
  intros Hh Hrun Hi. pose proof (reachable_consistent h ops w Hh Hrun) as Hc.
  rewrite (c_status w Hc i b Hi). done.
Qed.

Lemma status_always_allocated_witness :
  returns (run round_trip (boot [])) = true
  /\ blocks (tracker_of (final round_trip [])) !! 0%nat = Some zero_block
  /\ status zero_block = MEMORY_STATUS_ALLOCATED
  /\ status zero_block <> MEMORY_STATUS_FREED
  /\ status zero_block <> MEMORY_STATUS_CORRUPTED.
Proof.
  assert (returns (run round_trip (boot [])) = true) as Hret
    by (vm_compute; reflexivity).
  assert (blocks (tracker_of (final round_trip [])) !! 0%nat = Some zero_block) as Hi
    by (vm_compute; reflexivity).
  split; [exact Hret|]. split; [exact Hi|].
  apply (status_always_allocated [] round_trip (final round_trip []) 0 zero_block);
    [reflexivity | apply run_final, Hret | exact Hi].
Defined.

End ManagerSpec.

(** ** More on the heap *)

Section HeapMore.
Implicit Types (h : heap) (p s : Z).

Lemma release_perm p h h' : release p h = Some h' -> exists s, h ≡ₚ (p, s) :: h'.
Proof.
  revert h'. induction h as [|[q t] r IH]; intros h'; cbn [release fst]; [done|].
  destruct (Z.eqb_spec q p) as [->|Hne].
  - intros [= <-]. by exists t.
  - destruct (release p r) as [r'|]; [|done]. cbn. intros [= <-].
    destruct (IH r' eq_refl) as [s Hs]. exists s. rewrite Hs. apply Permutation_swap.
Qed.

Lemma heap_wf_one_extent h p s t :
  heap_wf h = true -> (p, s) ∈ h -> (p, t) ∈ h -> s = t.
Proof.
  induction h as [|b r IH]; cbn [heap_wf]; intros Hw Hs Ht; [by apply elem_of_nil in Hs|].
  apply andb_true_iff in Hw as [Hf Hw].
  apply elem_of_cons in Hs as [Hs|Hs]; apply elem_of_cons in Ht as [Ht|Ht].
  - congruence.
  - subst b. exfalso. by apply (fits_fresh r p s p t Hf Hw Ht).
  - subst b. exfalso. by apply (fits_fresh r p t p s Hf Hw Hs).
  - eauto.
Qed.

Lemma heap_bytes_perm h1 h2 : h1 ≡ₚ h2 -> heap_bytes h1 = heap_bytes h2.
Proof. induction 1; cbn [heap_bytes]; lia. Qed.
End HeapMore.

(** ** Further properties of the fixed-table tracker *)

Module ManagerMore.
Import Manager ManagerFacts.

Section Reachable.
Implicit Types (w : world) (size answer memory line_number : Z) (filename : string).

(** The ways [safe_memory_free] returns from a consistent machine. *)
Lemma free_inv memory filename line_number w w' :
  consistent w ->
  safe_memory_free memory filename line_number w = Returned tt w' ->
  (memory = NULL
   /\ w' = log w [Ev_printf stderr "WARNING: Freeing NULL pointer at %s:%d\n"
                            [arg_s filename; arg_d line_number]])
  \/ (memory <> NULL /\ exists i b h',
        blocks (tracker_of w) !! i = Some b /\ pointer b = memory
        /\ release memory (mheap w) = Some h'
        /\ w' = Machine
                  {| g_memory_tracker :=
                       {| blocks := <[i := zero_block]> (blocks (tracker_of w));
                          current_block_count := current_block_count (tracker_of w) - 1;
                          total_allocated_memory :=
                            total_allocated_memory (tracker_of w) - Manager.size b |};
                     static_timestamp := static_timestamp (globals w) |}
                  h' (trace w ++ [Ev_free memory]))
  \/ (memory <> NULL
      /\ (forall i b, blocks (tracker_of w) !! i = Some b -> pointer b <> memory)
      /\ exists h',
        release memory (mheap w) = Some h'
        /\ w' = Machine (globals w) h'
                  (trace w ++ [Ev_printf stderr "WARNING: Untracked memory free at %s:%d\n"
                                         [arg_s filename; arg_d line_number];
                               Ev_free memory])).
Proof.
  intros Hc Hret.
  destruct (decide (memory = NULL)) as [->|Hm].
  { left. rewrite free_null in Hret. by injection Hret as <-. }
  right.
  destruct (list_find (fun b => pointer b = memory) (blocks (tracker_of w)))
    as [[i b]|] eqn:Hfind.
  - left. split; [done|].
    rewrite (free_tracked _ _ _ _ i b) in Hret by done.
    apply list_find_Some in Hfind as (Hi & Hb & _).
    destruct (consistent_free w i b memory Hc Hm Hi Hb) as (h' & Hrel & Hcnt & Htot & _).
    rewrite Hrel, Hcnt, Htot in Hret. injection Hret as <-.
    exists i, b, h'. done.
  - right. split; [done|].
    rewrite free_untracked in Hret by done. cbn zeta in Hret.
    destruct (release memory (mheap w)) as [h'|] eqn:Hrel; [|done].
    injection Hret as <-. split; [|by exists h'].
    apply list_find_None in Hfind. rewrite Forall_forall in Hfind.
    intros i b Hi. apply Hfind. by eapply list_elem_of_lookup_2.
Qed.

(** Induction over the calls of a run, for properties that may count them. *)
Lemma run_invariant (allowed : op -> Prop) (P : nat -> world -> Prop) :
  (forall n o w w', allowed o -> consistent w -> P n w ->
                    exec o w = Returned tt w' -> P (S n) w') ->
  forall ops n w w',
    Forall allowed ops -> consistent w -> P n w ->
    run ops w = Returned tt w' -> P (n + length ops)%nat w'.
Proof.
  intros Hstep ops. induction ops as [|o rest IH]; intros n w w' Hall Hc HP; cbn [run].
  - intros [= <-]. by rewrite Nat.add_0_r.
  - apply Forall_cons in Hall as [Ho Hall].
    unfold mbind, M_bind. destruct (exec o w) as [[] w1| | |] eqn:Hex; try done.
    intros Hrun. cbn [length]. rewrite <- Nat.add_succ_comm.
    apply (IH (S n) w1); [done|by eapply exec_consistent|by eapply Hstep|done].
Qed.

Lemma exec_alloc_inv size filename line_number type answer w w' :
  exec (Alloc size filename line_number type answer) w = Returned tt w' ->
  exists r, alloc_path size filename line_number type answer w r w'.
Proof.
  cbn [exec]. unfold mbind, M_bind, mret, M_ret.
  destruct (safe_memory_allocate size filename line_number type answer w)
    as [r w1| | |] eqn:Hret; try done.
  intros [= <-]. exists r. by apply alloc_inv.
Qed.
End Reachable.


(** X1. After any run from program start [current_block_count] lies
    between 0 and [MAX_TRACKED_BLOCKS], [total_allocated_memory] is a
    [size_t] value that never wrapped, and it is at most the number of bytes
    live in the heap. *)
Theorem counters_bounded (h : heap) (ops : list op) (w : world) :
  heap_wf h = true ->
  run ops (boot h) = Returned tt w ->
  0 <= current_block_count (tracker_of w) <= MAX_TRACKED_BLOCKS
  /\ 0 <= total_allocated_memory (tracker_of w) < 2 ^ SIZE_WIDTH
  /\ total_allocated_memory (tracker_of w) <= heap_bytes (mheap w).
Proof.
  intros Hh Hrun. pose proof (reachable_consistent h ops w Hh Hrun) as Hc.
  destruct (consistent_bounds w Hc) as [Hcnt Htot]. split; [done|]. split; [done|].
  rewrite (c_total w Hc).
  apply occupied_bytes_heap; [apply (c_heap w Hc)|apply (c_unique w Hc)|apply (c_live w Hc)].
Qed.

Lemma counters_bounded_witness :
  returns (run round_trip_allocs (boot [(65536, 100)])) = true
  /\ heap_bytes (mheap (final round_trip_allocs [(65536, 100)])) = 170
  /\ 0 <= current_block_count (tracker_of (final round_trip_allocs [(65536, 100)]))
     <= MAX_TRACKED_BLOCKS
  /\ 0 <= total_allocated_memory (tracker_of (final round_trip_allocs [(65536, 100)]))
     < 2 ^ SIZE_WIDTH
  /\ total_allocated_memory (tracker_of (final round_trip_allocs [(65536, 100)]))
     <= heap_bytes (mheap (final round_trip_allocs [(65536, 100)])).
Proof.
  assert (returns (run round_trip_allocs (boot [(65536, 100)])) = true) as Hret
    by (vm_compute; reflexivity).
  split; [exact Hret|]. split; [vm_compute; reflexivity|].
  apply (counters_bounded [(65536, 100)] round_trip_allocs);
    [reflexivity | apply run_final, Hret].
Defined.

(** X2. After any run from program start every occupied slot holds the
    address of a live heap block whose extent is the recorded size, the
    size is positive, and no other slot holds the same address. *)
Theorem handles_distinct_live (h : heap) (ops : list op) (w : world)
    (i : nat) (b : MemoryBlock) :
  heap_wf h = true ->
  run ops (boot h) = Returned tt w ->
  blocks (tracker_of w) !! i = Some b ->
  pointer b <> NULL ->
  (pointer b, Manager.size b) ∈ mheap w
  /\ 0 < Manager.size b
  /\ forall j c, blocks (tracker_of w) !! j = Some c -> pointer c = pointer b -> j = i.
Proof.
  intros Hh Hrun Hi Hb. pose proof (reachable_consistent h ops w Hh Hrun) as Hc.
  pose proof (c_live w Hc i b Hi Hb) as Hin. split; [done|]. split.
  - pose proof (disjoint_blocks_positive _ (heap_wf_disjoint _ (c_heap w Hc))) as Hpos.
    rewrite Forall_forall in Hpos. apply (Hpos _ Hin).
  - intros j c Hj Heq. symmetry. by apply (c_unique w Hc i j b c).
Qed.

Lemma handles_distinct_live_witness :
  returns (run round_trip_allocs (boot [])) = true
  /\ blocks (tracker_of (final round_trip_allocs [])) !! 1%nat
     = Some (populate zero_block 8192 50 "main.c" 36 MEMORY_TYPE_TEMPORARY 2)
  /\ (8192, 50) ∈ mheap (final round_trip_allocs [])
  /\ 0 < 50
  /\ forall j c, blocks (tracker_of (final round_trip_allocs [])) !! j = Some c ->
                 pointer c = 8192 -> j = 1%nat.
Proof.
  assert (returns (run round_trip_allocs (boot [])) = true) as Hret
    by (vm_compute; reflexivity).
  assert (blocks (tracker_of (final round_trip_allocs [])) !! 1%nat
          = Some (populate zero_block 8192 50 "main.c" 36 MEMORY_TYPE_TEMPORARY 2)) as Hi
    by (vm_compute; reflexivity).
  split; [exact Hret|]. split; [exact Hi|].
  apply (handles_distinct_live [] round_trip_allocs (final round_trip_allocs []) 1
           (populate zero_block 8192 50 "main.c" 36 MEMORY_TYPE_TEMPORARY 2));
    [reflexivity | apply run_final, Hret | exact Hi | done].
Defined.

(** X3. After any run from program start the table has
    [MAX_TRACKED_BLOCKS] slots and every slot whose pointer is null is the
    all-zero block: nothing of a freed record stays behind. *)
Theorem free_slots_zero (h : heap) (ops : list op) (w : world) :
  heap_wf h = true ->
  run ops (boot h) = Returned tt w ->
  Z.of_nat (length (blocks (tracker_of w))) = MAX_TRACKED_BLOCKS
  /\ forall i b, blocks (tracker_of w) !! i = Some b -> pointer b = NULL -> b = zero_block.
Proof.
  intros Hh Hrun. pose proof (reachable_consistent h ops w Hh Hrun) as Hc. split.
  - rewrite (c_length w Hc). done.
  - apply (c_clear w Hc).
Qed.

Lemma free_slots_zero_witness :
  returns (run one_freed (boot [])) = true
  /\ Z.of_nat (length (blocks (tracker_of (final one_freed [])))) = MAX_TRACKED_BLOCKS
  /\ forall i b, blocks (tracker_of (final one_freed [])) !! i = Some b ->
                 pointer b = NULL -> b = zero_block.
Proof.
  assert (returns (run one_freed (boot [])) = true) as Hret by (vm_compute; reflexivity).
  split; [exact Hret|].
  apply (free_slots_zero [] one_freed); [reflexivity | apply run_final, Hret].
Defined.

(** X4. In a state reached from program start [safe_memory_allocate]
    returns [NULL] for three reasons only: a zero size, a table at
    capacity, or a [malloc] that failed.  The branch that frees the block
    again because the scan found no slot is never taken. *)
Theorem allocate_fails_only (h : heap) (ops : list op) (w w' : world)
    (size : Z) (filename : string) (line_number : Z)
    (type : MemoryAllocationType) (answer : Z) :
  heap_wf h = true ->
  run ops (boot h) = Returned tt w ->
  safe_memory_allocate size filename line_number type answer w = Returned NULL w' ->
  (size = 0 \/ current_block_count (tracker_of w) = MAX_TRACKED_BLOCKS \/ answer = NULL)
  /\ Forall (fun e => e <> Ev_free answer) (drop (length (trace w)) (trace w')).
Proof.
  intros Hh Hrun Hret. pose proof (reachable_consistent h ops w Hh Hrun) as Hc.
  destruct (consistent_bounds w Hc) as [Hcnt _].
  pose proof (alloc_inv _ _ _ _ _ _ _ _ Hret) as Hp.
  remember NULL as r eqn:Hr in Hp.
  destruct Hp as [Hs|Hs Hge|Hs Hlt Ha|Hs Hlt Ha Hf Hfind|i b Hs Hlt Ha Hf Hfind].
  - split; [by left|]. unfold log. cbn [trace]. rewrite drop_app_length.
    by repeat constructor.
  - split; [right; left; lia|]. unfold log. cbn [trace]. rewrite drop_app_length.
    by repeat constructor.
  - split; [by right; right|]. unfold log. cbn [trace]. rewrite drop_app_length.
    by repeat constructor.
  - destruct (consistent_free_slot w Hc Hlt) as (i & b & Hfind'). congruence.
  - done.
Qed.

Lemma allocate_fails_only_witness :
  returns (run (fill 1000) (boot [])) = true
  /\ safe_memory_allocate 8 "fill.c" 1000 MEMORY_TYPE_DYNAMIC 16016 (final (fill 1000) [])
     = Returned NULL
         (log (final (fill 1000) []) [Ev_printf stderr "ERROR: Memory tracker full\n" []])
  /\ (8 = 0 \/ current_block_count (tracker_of (final (fill 1000) [])) = MAX_TRACKED_BLOCKS
      \/ 16016 = NULL).
Proof.
  assert (returns (run (fill 1000) (boot [])) = true) as Hret by (vm_compute; reflexivity).
  assert (safe_memory_allocate 8 "fill.c" 1000 MEMORY_TYPE_DYNAMIC 16016
            (final (fill 1000) [])
          = Returned NULL
              (log (final (fill 1000) [])
                   [Ev_printf stderr "ERROR: Memory tracker full\n" []])) as Hfull.
  { apply alloc_full; [done|]. vm_compute. discriminate. }
  split; [exact Hret|]. split; [exact Hfull|].
  apply (allocate_fails_only [] (fill 1000) (final (fill 1000) []) _ _ _ _ _ _
           eq_refl (run_final _ _ Hret) Hfull).
Defined.

(** X5. In a state reached from program start every call returns, provided
    the answer of [malloc] is one it can give and a handle passed to
    [safe_memory_free] is null or the address of a live block: the tracker
    adds no undefined behaviour of its own. *)
Theorem calls_return (h : heap) (ops : list op) (w : world) (o : op) :
  heap_wf h = true ->
  run ops (boot h) = Returned tt w ->
  defined_call o w ->
  exists w', exec o w = Returned tt w' /\ run (ops ++ [o]) (boot h) = Returned tt w'.
Proof.
  intros Hh Hrun Hd. pose proof (reachable_consistent h ops w Hh Hrun) as Hc.
  destruct (exec_returns o w Hc Hd) as [w' Hex]. exists w'. split; [done|].
  clear Hc Hd Hh. revert Hrun. generalize (boot h).
  induction ops as [|o' rest IH]; intros w0; cbn [run app].
  - intros [= ->]. unfold mbind, M_bind. by rewrite Hex.
  - unfold mbind, M_bind. destruct (exec o' w0) as [[] w1| | |]; try done. apply IH.
Qed.

Lemma calls_return_witness :
  returns (run round_trip_allocs (boot [])) = true
  /\ defined_call (Free 8192 "main.c" 55) (final round_trip_allocs [])
  /\ exists w',
      exec (Free 8192 "main.c" 55) (final round_trip_allocs []) = Returned tt w'
      /\ run (round_trip_allocs ++ [Free 8192 "main.c" 55]) (boot []) = Returned tt w'.
Proof.
  assert (returns (run round_trip_allocs (boot [])) = true) as Hret
    by (vm_compute; reflexivity).
  assert (defined_call (Free 8192 "main.c" 55) (final round_trip_allocs [])) as Hd
    by (right; vm_compute; reflexivity).
  split; [exact Hret|]. split; [exact Hd|].
  apply (calls_return [] round_trip_allocs); [reflexivity | apply run_final, Hret | exact Hd].
Defined.


(** X6. In a state reached from program start below capacity, a successful
    [safe_memory_allocate] followed by [safe_memory_free] of the handle
    it returned puts back the table, both counters and the heap exactly;
    what remains is the advanced timestamp counter and, on the trace, the
    [malloc] and the [free]. *)
Theorem allocate_free_round_trip (h : heap) (ops : list op) (w : world)
    (size : Z) (filename : string) (line_number : Z) (type : MemoryAllocationType)
    (answer : Z) (file' : string) (line' : Z) :
  heap_wf h = true ->
  run ops (boot h) = Returned tt w ->
  current_block_count (tracker_of w) < MAX_TRACKED_BLOCKS ->
  answer <> NULL ->
  fits (mheap w) answer size = true ->
  exists w1,
    safe_memory_allocate size filename line_number type answer w = Returned answer w1
    /\ safe_memory_free answer file' line' w1
       = Returned tt
           (Machine
              {| g_memory_tracker := tracker_of w;
                 static_timestamp := uint64_wrap (static_timestamp (globals w) + 1) |}
              (mheap w)
              (trace w ++ [Ev_malloc size answer; Ev_free answer])).
Proof.
  intros Hh Hrun Hlt Ha Hf.
  pose proof (reachable_consistent h ops w Hh Hrun) as Hc.
  destruct (consistent_free_slot w Hc Hlt) as (i & b & Hfind).
  pose proof Hfind as (Hi & Hb & _)%list_find_Some.
  pose proof (c_clear w Hc i b Hi Hb) as ->.
  assert (size <> 0) as Hs by (apply fits_spec in Hf; lia).
  exists (allocated w i zero_block size filename line_number type answer).
  split; [by apply alloc_ok|].
  set (new := populate zero_block answer size filename line_number type
                (uint64_wrap (static_timestamp (globals w) + 1))).
  destruct (consistent_alloc w i zero_block answer size filename line_number type
              (uint64_wrap (static_timestamp (globals w) + 1)) Hc Ha Hf Hi Hb
              (tracker_of (allocated w i zero_block size filename line_number type answer))
              (uint64_wrap (static_timestamp (globals w) + 1))
              (trace w ++ [Ev_malloc size answer])
              eq_refl eq_refl eq_refl) as (Hc1 & Hcnt & Htot).
  assert (blocks (tracker_of (allocated w i zero_block size filename line_number type
                                        answer)) !! i
          = Some new) as Hi1.
  { unfold allocated, tracker_of. cbn [globals g_memory_tracker blocks].
    apply list_lookup_insert_eq. by eapply lookup_lt_Some. }
  rewrite (free_tracked _ _ _ _ i new); [|done|by apply (consistent_find _ i new)].
  unfold allocated at 1. cbn [mheap release fst]. rewrite Z.eqb_refl.
  unfold tracker_of in *. rewrite Hcnt, Htot.
  unfold allocated. cbn [globals g_memory_tracker blocks static_timestamp trace
                         Manager.size new populate].
  rewrite list_insert_insert_eq, <- app_assoc.
  rewrite (list_insert_id _ i zero_block) by done.
  replace (current_block_count (g_memory_tracker (globals w)) + 1 - 1)
    with (current_block_count (g_memory_tracker (globals w))) by lia.
  replace (total_allocated_memory (g_memory_tracker (globals w)) + size - size)
    with (total_allocated_memory (g_memory_tracker (globals w))) by lia.
  destruct (consistent_bounds w Hc) as [Hcb Htb]. unfold tracker_of in *.
  rewrite !size_t_wrap_id by (unfold MAX_TRACKED_BLOCKS, SIZE_WIDTH in *; lia).
  by destruct (g_memory_tracker (globals w)).
Qed.

Lemma allocate_free_round_trip_witness :
  returns (run round_trip_allocs (boot [])) = true
  /\ exists w1,
      safe_memory_allocate 24 "main.c" 25 MEMORY_TYPE_PERSISTENT 12288
                           (final round_trip_allocs []) = Returned 12288 w1
      /\ safe_memory_free 12288 "main.c" 58 w1
         = Returned tt
             (Machine
                {| g_memory_tracker := tracker_of (final round_trip_allocs []);
                   static_timestamp :=
                     uint64_wrap (static_timestamp (globals (final round_trip_allocs [])) + 1) |}
                (mheap (final round_trip_allocs []))
                (trace (final round_trip_allocs [])
                 ++ [Ev_malloc 24 12288; Ev_free 12288])).
Proof.
  assert (returns (run round_trip_allocs (boot [])) = true) as Hret
    by (vm_compute; reflexivity).
  split; [exact Hret|].
  apply (allocate_free_round_trip [] round_trip_allocs (final round_trip_allocs []));
    [reflexivity | apply run_final, Hret | vm_compute; reflexivity | done
    | vm_compute; reflexivity].
Defined.


(** X7. Slots are reused first-fit.  In a state reached from program
    start, after [safe_memory_free] of the handle in slot [i] the next
    successful [safe_memory_allocate] records its block in the lowest free
    slot, which is slot [i] or one before it; it is slot [i] when every
    slot before [i] is occupied. *)
Theorem freed_slot_reused (h : heap) (ops : list op) (w : world)
    (i : nat) (b : MemoryBlock) (file' : string) (line' : Z)
    (size : Z) (filename : string) (line_number : Z) (type : MemoryAllocationType)
    (answer : Z) :
  heap_wf h = true ->
  run ops (boot h) = Returned tt w ->
  blocks (tracker_of w) !! i = Some b ->
  pointer b <> NULL ->
  answer <> NULL ->
  (forall w1, safe_memory_free (pointer b) file' line' w = Returned tt w1 ->
              fits (mheap w1) answer size = true) ->
  exists w1 w2 (j : nat) (new : MemoryBlock),
    safe_memory_free (pointer b) file' line' w = Returned tt w1
    /\ safe_memory_allocate size filename line_number type answer w1 = Returned answer w2
    /\ (j <= i)%nat
    /\ (forall k c, (k < j)%nat -> blocks (tracker_of w) !! k = Some c -> pointer c <> NULL)
    /\ ((forall k c, (k < i)%nat -> blocks (tracker_of w) !! k = Some c -> pointer c <> NULL)
        -> j = i)
    /\ pointer new = answer
    /\ blocks (tracker_of w2) = <[j := new]> (<[i := zero_block]> (blocks (tracker_of w))).
Proof.
  intros Hh Hrun Hi Hb Ha Hfits.
  pose proof (reachable_consistent h ops w Hh Hrun) as Hc.
  destruct (consistent_bounds w Hc) as [Hcb _].
  destruct (consistent_free w i b (pointer b) Hc Hb Hi eq_refl)
    as (h' & Hrel & Hcnt & Htot & Hc1).
  assert (safe_memory_free (pointer b) file' line' w
          = Returned tt
              (Machine
                 {| g_memory_tracker :=
                      {| blocks := <[i := zero_block]> (blocks (tracker_of w));
                         current_block_count := current_block_count (tracker_of w) - 1;
                         total_allocated_memory :=
                           total_allocated_memory (tracker_of w) - Manager.size b |};
                    static_timestamp := static_timestamp (globals w) |}
                 h' (trace w ++ [Ev_free (pointer b)]))) as Hfree.
  { rewrite (free_tracked _ _ _ _ i b); [|done|by apply consistent_find].
    by rewrite Hrel, Hcnt, Htot. }
  specialize (Hfits _ Hfree). specialize (Hc1 (static_timestamp (globals w))
                                             (trace w ++ [Ev_free (pointer b)])).
  set (w1 := Machine _ h' _) in *.
  assert (current_block_count (tracker_of w1) < MAX_TRACKED_BLOCKS) as Hlt
    by (unfold w1, tracker_of in Hcb |- *;
        cbn [globals g_memory_tracker current_block_count]; lia).
  destruct (consistent_free_slot w1 Hc1 Hlt) as (j & old & Hfind).
  pose proof Hfind as (Hj & Hold & Hlow)%list_find_Some.
  assert (size <> 0) as Hs by (apply fits_spec in Hfits; lia).
  assert (blocks (tracker_of w1) !! i = Some zero_block) as Hi1.
  { unfold w1, tracker_of. cbn [globals g_memory_tracker blocks].
    apply list_lookup_insert_eq. by eapply lookup_lt_Some. }
  assert (j <= i)%nat as Hji.
  { destruct (le_lt_dec j i) as [|Hgt]; [done|]. by destruct (Hlow i zero_block Hi1 Hgt). }
  assert (forall k c, (k < j)%nat -> blocks (tracker_of w) !! k = Some c -> pointer c <> NULL)
    as Hbefore.
  { intros k c Hk Hkc. apply (Hlow k c); [|done].
    unfold w1, tracker_of. cbn [globals g_memory_tracker blocks].
    rewrite list_lookup_insert_ne by lia. done. }
  exists w1, (allocated w1 j old size filename line_number type answer), j,
    (populate old answer size filename line_number type
       (uint64_wrap (static_timestamp (globals w1) + 1))).
  split; [done|]. split; [by apply alloc_ok|]. split; [done|]. split; [done|].
  split; [|done].
  intros Hall. destruct (decide (j = i)) as [|Hne]; [done|]. exfalso.
  assert (j < i)%nat as Hlt' by lia.
  assert (blocks (tracker_of w) !! j = Some old) as Hjw.
  { unfold w1, tracker_of in Hj. cbn [globals g_memory_tracker blocks] in Hj.
    by rewrite list_lookup_insert_ne in Hj by lia. }
  by apply (Hall j old Hlt' Hjw).
Qed.

Lemma freed_slot_reused_witness :
  returns (run round_trip_allocs (boot [])) = true
  /\ exists w1 w2 (j : nat) (new : MemoryBlock),
      safe_memory_free 4096 "main.c" 58 (final round_trip_allocs []) = Returned tt w1
      /\ safe_memory_allocate 24 "main.c" 25 MEMORY_TYPE_PERSISTENT 12288 w1
         = Returned 12288 w2
      /\ (j <= 0)%nat
      /\ (forall k c, (k < j)%nat ->
            blocks (tracker_of (final round_trip_allocs [])) !! k = Some c ->
            pointer c <> NULL)
      /\ ((forall k c, (k < 0)%nat ->
             blocks (tracker_of (final round_trip_allocs [])) !! k = Some c ->
             pointer c <> NULL) -> j = 0%nat)
      /\ pointer new = 12288
      /\ blocks (tracker_of w2)
         = <[j := new]> (<[0%nat := zero_block]>
                           (blocks (tracker_of (final round_trip_allocs [])))).
Proof.
  assert (returns (run round_trip_allocs (boot [])) = true) as Hret
    by (vm_compute; reflexivity).
  split; [exact Hret|].
  apply (freed_slot_reused [] round_trip_allocs (final round_trip_allocs []) 0
           (populate zero_block 4096 20 "main.c" 25 MEMORY_TYPE_DYNAMIC 1));
    [reflexivity | apply run_final, Hret | vm_compute; reflexivity | done | done |].
  intros w1 Hw1.
  assert (mheap w1 = [(8192, 50)]) as ->; [|reflexivity].
  assert (mheap (machine_of (boot [])
                   (safe_memory_free 4096 "main.c" 58 (final round_trip_allocs [])))
          = [(8192, 50)]) as Hh by (vm_compute; reflexivity).
  cbn [pointer populate] in Hw1. rewrite Hw1 in Hh. exact Hh.
Defined.

(** X8. Nothing leaks while the table is not re-initialised: after any run
    from program start on an empty heap that makes no call of
    [memory_manager_init], the live heap blocks are exactly the blocks the
    table records, so [total_allocated_memory] is the number of bytes live
    and [current_block_count] the number of live blocks. *)
Theorem tracked_is_live (ops : list op) (w : world) :
  Forall (fun o => o <> Init) ops ->
  run ops (boot []) = Returned tt w ->
  tracked (blocks (tracker_of w)) ≡ₚ mheap w
  /\ total_allocated_memory (tracker_of w) = heap_bytes (mheap w)
  /\ current_block_count (tracker_of w) = Z.of_nat (length (mheap w)).
Proof.
  intros Hno Hrun.
  pose proof (reachable_consistent [] ops w eq_refl Hrun) as Hc.
  assert (tracked (blocks (tracker_of w)) ≡ₚ mheap w) as Hperm.
  { apply (run_invariant (fun o => o <> Init)
             (fun _ w => tracked (blocks (tracker_of w)) ≡ₚ mheap w))
      with (ops := ops) (n := 0%nat) (w := boot []);
      [|exact Hno|by apply consistent_boot| |exact Hrun].
    2: { unfold boot, tracker_of. cbn [globals g_memory_tracker mheap].
         by rewrite tracked_zero_tracker. }
    clear. intros _ o w w' Ho Hc HP Hex.
    destruct o as [|size filename line_number type answer|memory filename line_number|].
    - done.
    - destruct (exec_alloc_inv _ _ _ _ _ _ _ Hex) as [r Hp].
      destruct Hp as [?|? ?|? ? ?|? ? ? ? ?|i b Hs Hlt Ha Hf (Hi & Hb & _)%list_find_Some];
        try done.
      unfold allocated, tracker_of in *. cbn [globals g_memory_tracker blocks mheap].
      rewrite tracked_occupy by done. cbn [populate pointer Manager.size]. by rewrite HP.
    - cbn [exec] in Hex.
      destruct (free_inv _ _ _ _ _ Hc Hex)
        as [[_ ->]|[(Hm & i & b & h' & Hi & Hb & Hrel & ->)|(Hm & Hno & h' & Hrel & ->)]].
      + done.
      + unfold tracker_of in *. cbn [globals g_memory_tracker blocks mheap].
        assert (pointer b <> NULL) as Hp by congruence.
        pose proof (tracked_clear _ _ _ Hi Hp) as Hcl.
        destruct (release_perm _ _ _ Hrel) as [s Hs].
        assert (s = Manager.size b) as ->.
        { apply (heap_wf_one_extent (mheap w) memory); [apply (c_heap w Hc)| |].
          - rewrite Hs. by left.
          - rewrite <- Hb. by apply (c_live w Hc i). }
        rewrite Hcl, Hs, Hb in HP. by apply Permutation.Permutation_cons_inv in HP.
      + exfalso. destruct (release_perm _ _ _ Hrel) as [s Hs].
        assert ((memory, s) ∈ tracked (blocks (tracker_of w))) as Hin
          by (rewrite HP, Hs; by left).
        apply elem_of_tracked in Hin as (i & b & Hi & _ & Hb & _). by apply (Hno i b).
    - cbn [exec] in Hex. rewrite report_eq in Hex. by injection Hex as <-. }
  split; [done|]. split.
  - rewrite (c_total w Hc), occupied_bytes_tracked. by apply heap_bytes_perm.
  - rewrite (c_count w Hc), <- Hperm. clear.
    induction (blocks (tracker_of w)) as [|b r IH]; [done|].
    cbn [occupied_slots]. unfold occupied.
    destruct (Z.eqb_spec (pointer b) NULL) as [Hb|Hb]; cbn [negb].
    + by rewrite tracked_cons_free.
    + rewrite tracked_cons_occupied by done. cbn [length]. lia.
Qed.

Lemma tracked_is_live_witness :
  returns (run (tail one_freed) (boot [])) = true
  /\ mheap (final (tail one_freed) []) = [(8192, 50)]
  /\ tracked (blocks (tracker_of (final (tail one_freed) [])))
     ≡ₚ mheap (final (tail one_freed) [])
  /\ total_allocated_memory (tracker_of (final (tail one_freed) []))
     = heap_bytes (mheap (final (tail one_freed) []))
  /\ current_block_count (tracker_of (final (tail one_freed) []))
     = Z.of_nat (length (mheap (final (tail one_freed) []))).
Proof.
  assert (returns (run (tail one_freed) (boot [])) = true) as Hret
    by (vm_compute; reflexivity).
  split; [exact Hret|]. split; [vm_compute; reflexivity|].
  apply (tracked_is_live (tail one_freed)); [|apply run_final, Hret].
  by repeat constructor.
Defined.


(** X9. [memory_manager_init] forgets without releasing.  In a state
    reached from program start, after a call of it the table is all zero
    and both counters are 0 while the heap is untouched; a handle that was
    tracked before is then freed as untracked memory: the warning is
    written, the block is released, and the table stays empty. *)
Theorem init_forgets_live_blocks (h : heap) (ops : list op) (w : world)
    (i : nat) (b : MemoryBlock) (filename : string) (line_number : Z) :
  heap_wf h = true ->
  run ops (boot h) = Returned tt w ->
  blocks (tracker_of w) !! i = Some b ->
  pointer b <> NULL ->
  exists w1 h',
    memory_manager_init w = Returned tt w1
    /\ tracker_of w1 = zero_tracker
    /\ mheap w1 = mheap w
    /\ trace w1 = trace w
    /\ release (pointer b) (mheap w) = Some h'
    /\ safe_memory_free (pointer b) filename line_number w1
       = Returned tt
           (Machine (globals w1) h'
              (trace w
               ++ [Ev_printf stderr "WARNING: Untracked memory free at %s:%d\n"
                             [arg_s filename; arg_d line_number];
                   Ev_free (pointer b)])).
Proof.
  intros Hh Hrun Hi Hb. pose proof (reachable_consistent h ops w Hh Hrun) as Hc.
  assert (is_Some (release (pointer b) (mheap w))) as [h' Hrel].
  { apply release_live. unfold live. apply existsb_exists.
    exists (pointer b, Manager.size b). split; [|cbn; lia].
    apply list_elem_of_In. by apply (c_live w Hc i). }
  eexists _, h'. split; [apply init_eq|]. split; [done|]. split; [done|].
  split; [done|]. split; [done|].
  rewrite free_untracked; [cbn zeta; cbn [mheap]; by rewrite Hrel|done|].
  apply list_find_None, Forall_forall. intros c [k Hk]%list_elem_of_lookup.
  unfold tracker_of in Hk. cbn [globals g_memory_tracker] in Hk.
  apply zero_tracker_lookup in Hk as ->. cbn [pointer zero_block]. congruence.
Qed.

Lemma init_forgets_live_blocks_witness :
  returns (run round_trip_allocs (boot [])) = true
  /\ exists w1 h',
      memory_manager_init (final round_trip_allocs []) = Returned tt w1
      /\ tracker_of w1 = zero_tracker
      /\ mheap w1 = mheap (final round_trip_allocs [])
      /\ trace w1 = trace (final round_trip_allocs [])
      /\ release 4096 (mheap (final round_trip_allocs [])) = Some h'
      /\ safe_memory_free 4096 "main.c" 58 w1
         = Returned tt
             (Machine (globals w1) h'
                (trace (final round_trip_allocs [])
                 ++ [Ev_printf stderr "WARNING: Untracked memory free at %s:%d\n"
                               [arg_s "main.c"; arg_d 58];
                     Ev_free 4096])).
Proof.
  assert (returns (run round_trip_allocs (boot [])) = true) as Hret
    by (vm_compute; reflexivity).
  split; [exact Hret|].
  apply (init_forgets_live_blocks [] round_trip_allocs (final round_trip_allocs []) 0
           (populate zero_block 4096 20 "main.c" 25 MEMORY_TYPE_DYNAMIC 1));
    [reflexivity | apply run_final, Hret | vm_compute; reflexivity | done].
Defined.



(** X11. File names never overrun their buffer.  After any run from
    program start the [filename] of every slot has exactly
    [MAX_FILENAME_LENGTH] bytes and its last byte is zero, whatever the
    length of the names passed in. *)
Theorem filenames_terminated (h : heap) (ops : list op) (w : world)
    (i : nat) (b : MemoryBlock) :
  heap_wf h = true ->
  run ops (boot h) = Returned tt w ->
  blocks (tracker_of w) !! i = Some b ->
  terminated b.
Proof.
  intros Hh Hrun. revert i b.
  assert (terminated zero_block) as Hzero.
  { unfold terminated, zero_block. cbn [Manager.filename].
    rewrite length_replicate. split; [done|]. apply lookup_replicate. split; [done|].
    unfold MAX_FILENAME_LENGTH. lia. }
  apply (run_invariant (fun _ => True)
           (fun _ w => forall i b, blocks (tracker_of w) !! i = Some b -> terminated b))
    with (ops := ops) (n := 0%nat) (w := boot h);
    [|by apply Forall_true|by apply consistent_boot| |exact Hrun].
  2: { intros i b ->%zero_tracker_lookup. done. }
  clear -Hzero. intros _ o w w' _ Hc HP Hex.
  destruct o as [|size filename line_number type answer|memory filename line_number|].
  - cbn [exec] in Hex. rewrite init_eq in Hex. injection Hex as <-.
    intros i b ->%zero_tracker_lookup. done.
  - destruct (exec_alloc_inv _ _ _ _ _ _ _ Hex) as [r Hp].
    destruct Hp as [?|? ?|? ? ?|? ? ? ? ?|i b Hs Hlt Ha Hf (Hi & Hb & _)%list_find_Some];
      try done.
    unfold allocated, tracker_of in *. cbn [globals g_memory_tracker blocks].
    intros j c Hj. apply list_lookup_insert_Some in Hj as [(<- & <- & _)|[? Hj]]; [|eauto].
    destruct (HP i b Hi) as [Hlen _].
    unfold terminated, populate. cbn [Manager.filename].
    replace (Z.to_nat (MAX_FILENAME_LENGTH - 1)) with 255%nat in * by done.
    replace (Z.to_nat MAX_FILENAME_LENGTH) with 256%nat in * by done.
    rewrite (strncpy_terminated _ _ 255) by done.
    rewrite length_app, length_strncpy_bytes. split; [done|].
    rewrite lookup_app_r by (rewrite length_strncpy_bytes; lia).
    by rewrite length_strncpy_bytes.
  - cbn [exec] in Hex.
    destruct (free_inv _ _ _ _ _ Hc Hex)
      as [[_ ->]|[(Hm & i & b & h' & Hi & Hb & Hrel & ->)|(Hm & Hno & h' & Hrel & ->)]];
      try done.
    unfold tracker_of in *. cbn [globals g_memory_tracker blocks].
    intros j c Hj. apply list_lookup_insert_Some in Hj as [(-> & <- & _)|[? Hj]]; eauto.
  - cbn [exec] in Hex. rewrite report_eq in Hex. by injection Hex as <-.
Qed.


Lemma filenames_terminated_witness :
  returns (run [Alloc 8 long_name 7 MEMORY_TYPE_STATIC 4096] (boot [])) = true
  /\ length (c_string (Manager.filename
                         (populate zero_block 4096 8 long_name 7 MEMORY_TYPE_STATIC 1)))
     = 255%nat
  /\ terminated (populate zero_block 4096 8 long_name 7 MEMORY_TYPE_STATIC 1).
Proof.
  assert (returns (run [Alloc 8 long_name 7 MEMORY_TYPE_STATIC 4096] (boot [])) = true)
    as Hret by (vm_compute; reflexivity).
  split; [exact Hret|]. split; [vm_compute; reflexivity|].
  apply (filenames_terminated [] [Alloc 8 long_name 7 MEMORY_TYPE_STATIC 4096]
           (final [Alloc 8 long_name 7 MEMORY_TYPE_STATIC 4096] []) 0);
    [reflexivity | apply run_final, Hret | vm_compute; reflexivity].
Defined.

Lemma entries_bytes_blocks (es : list (nat * MemoryBlock)) :
  entries_bytes es = heap_bytes ((fun b => (pointer b, Manager.size b)) <$> es.*2).
Proof.
  induction es as [|e r IH]; [done|].
  cbn [entries_bytes foldr fmap list_fmap heap_bytes snd]. fold (entries_bytes r).
  rewrite IH. done.
Qed.

(** X12. The accessors agree with the report.  After any run from program
    start [get_current_block_count] returns the number of block lines a
    report prints and [get_total_allocated_memory] the sum of the sizes on
    those lines; neither changes the machine. *)
Theorem accessors_agree_with_report (h : heap) (ops : list op) (w : world) :
  heap_wf h = true ->
  run ops (boot h) = Returned tt w ->
  get_current_block_count w
  = Returned (Z.of_nat (length (occupied_entries (blocks (tracker_of w))))) w
  /\ get_total_allocated_memory w
     = Returned (entries_bytes (occupied_entries (blocks (tracker_of w)))) w.
Proof.
  intros Hh Hrun. pose proof (reachable_consistent h ops w Hh Hrun) as Hc.
  destruct (accessors_eq w) as [-> ->]. split; f_equal.
  - rewrite (c_count w Hc).
    rewrite <- (length_fmap snd), occupied_entries_blocks. clear.
    induction (blocks (tracker_of w)) as [|b r IH]; [done|].
    cbn [occupied_slots]. rewrite filter_cons. unfold occupied.
    destruct (decide (pointer b <> NULL)) as [Hb|Hb].
    + apply Z.eqb_neq in Hb. rewrite Hb. cbn [negb length]. lia.
    + apply dec_stable, Z.eqb_eq in Hb. rewrite Hb. cbn [negb]. lia.
  - rewrite (c_total w Hc), occupied_bytes_tracked, entries_bytes_blocks.
    by rewrite occupied_entries_blocks.
Qed.

Lemma accessors_agree_with_report_witness :
  returns (run round_trip_allocs (boot [])) = true
  /\ (Z.of_nat (length (occupied_entries (blocks (tracker_of (final round_trip_allocs []))))),
      entries_bytes (occupied_entries (blocks (tracker_of (final round_trip_allocs [])))))
     = (2, 70)
  /\ get_current_block_count (final round_trip_allocs [])
     = Returned
         (Z.of_nat (length (occupied_entries
                              (blocks (tracker_of (final round_trip_allocs []))))))
         (final round_trip_allocs [])
  /\ get_total_allocated_memory (final round_trip_allocs [])
     = Returned
         (entries_bytes (occupied_entries (blocks (tracker_of (final round_trip_allocs [])))))
         (final round_trip_allocs []).
Proof.
  assert (returns (run round_trip_allocs (boot [])) = true) as Hret
    by (vm_compute; reflexivity).
  split; [exact Hret|]. split; [vm_compute; reflexivity|].
  apply (accessors_agree_with_report [] round_trip_allocs);
    [reflexivity | apply run_final, Hret].
Defined.

End ManagerMore.

(** ** The linked list of memory_management_tool.c *)

Module ToolMore.
Import Tool.

Section Chains.
Implicit Types (g : gmap Z MemoryBlock) (l : list (Z * MemoryBlock)) (a : Z).

Lemma chain_frame g g' a l :
  chain g a l -> (forall n, n ∈ l.*1 -> g' !! n = g !! n) -> chain g' a l.
Proof.
  induction 1 as [|a b l Ha Hb _ IH]; intros Hsame; [constructor|].
  constructor; [done| |].
  - rewrite Hsame; [done|]. rewrite fmap_cons. by left.
  - apply IH. intros n Hn. apply Hsame. rewrite fmap_cons. by right.
Qed.

Lemma chain_unique g a l l' : chain g a l -> chain g a l' -> l = l'.
Proof.
  intros Hl. revert l'. induction Hl as [|a b l Ha Hb _ IH]; intros l' Hl'.
  - by inversion Hl'.
  - inversion Hl' as [|a' b' l0 _ Hb' Hl0]; subst; [done|].
    rewrite Hb in Hb'. injection Hb' as <-. f_equal. by apply IH.
Qed.

Lemma chain_walk g a l (fuel : nat) :
  chain g a l -> (length l < fuel)%nat -> walk fuel g a = Some (l.*2, Miss).
Proof.
  intros Hl. revert fuel. induction Hl as [|a b l Ha Hb _ IH]; intros [|fuel] Hf;
    cbn [length] in Hf; try lia; cbn [walk].
  - done.
  - destruct (Z.eqb_spec a NULL) as [|_]; [done|]. rewrite Hb.
    rewrite IH by lia. done.
Qed.

Lemma walk_chain g (fuel : nat) : forall a bs,
  walk fuel g a = Some (bs, Miss) ->
  exists l, chain g a l /\ l.*2 = bs /\ (length bs < fuel)%nat.
Proof.
  induction fuel as [|fuel IH]; intros a bs; cbn [walk]; [done|].
  destruct (Z.eqb_spec a NULL) as [->|Ha].
  - intros [= <-]. exists []. split; [constructor|]. split; [done|]. cbn. lia.
  - destruct (g !! a) as [b|] eqn:Hb; [|done].
    destruct (walk fuel g (next b)) as [[l0 e]|] eqn:Hw; [|done].
    intros [= <- ->]. destruct (IH _ _ Hw) as (l & Hl & <- & Hlen).
    exists ((a, b) :: l). split; [by constructor|]. split; [done|]. cbn [length]. lia.
Qed.

Lemma last_address_cons previous n l :
  last_address previous (n :: l) = last_address n.1 l.
Proof.
  unfold last_address. destruct l as [|m l]; [done|]. rewrite last_cons_cons.
  assert (is_Some (last (m :: l))) as [k ->] by (by apply last_is_Some). done.
Qed.

Lemma chain_search_miss g a l (fuel : nat) memory previous :
  chain g a l -> Forall (fun n => pointer n.2 <> memory) l -> (length l < fuel)%nat ->
  search fuel g memory a previous = Some Miss.
Proof.
  intros Hl. revert fuel previous.
  induction Hl as [|a b l Ha Hb _ IH]; intros [|fuel] previous Hno Hf;
    cbn [length] in Hf; try lia; cbn [search].
  - done.
  - destruct (Z.eqb_spec a NULL) as [|_]; [done|]. rewrite Hb.
    apply Forall_cons in Hno as [Hp Hno]. cbn [snd] in Hp.
    destruct (Z.eqb_spec (pointer b) memory) as [|_]; [done|].
    apply IH; [done|lia].
Qed.

Lemma chain_search_hit g l1 : forall a c b l2 (fuel : nat) memory previous,
  chain g a (l1 ++ (c, b) :: l2) ->
  Forall (fun n => pointer n.2 <> memory) l1 -> pointer b = memory ->
  (length l1 < fuel)%nat ->
  search fuel g memory a previous = Some (Hit c (last_address previous l1) b).
Proof.
  induction l1 as [|[x bx] l1 IH]; intros a c b l2 [|fuel] memory previous Hl Hno Hp Hf;
    cbn [length] in Hf; try lia; cbn [search].
  - inversion Hl as [|a' b' l0 Ha Hb _]; subst.
    destruct (Z.eqb_spec c NULL) as [|_]; [done|]. rewrite Hb.
    by rewrite Z.eqb_refl.
  - inversion Hl as [|a' b' l0 Ha Hb Hrest]; subst.
    destruct (Z.eqb_spec x NULL) as [|_]; [done|]. rewrite Hb.
    apply Forall_cons in Hno as [Hpx Hno]. cbn [snd] in Hpx.
    destruct (Z.eqb_spec (pointer bx) (pointer b)) as [|_]; [done|].
    rewrite last_address_cons. apply (IH _ _ _ l2); [done|done|done|lia].
Qed.

Lemma chain_cons_inv g a x bx l :
  chain g a ((x, bx) :: l) ->
  a = x /\ x <> NULL /\ g !! x = Some bx /\ chain g (next bx) l.
Proof. by inversion 1. Qed.

(** Taking the block at [c] out of the list, at its head. *)
Lemma chain_unlink_head g c b l2 :
  chain g c ((c, b) :: l2) -> c ∉ l2.*1 -> chain (delete c g) (next b) l2.
Proof.
  intros (_ & _ & _ & Hrest)%chain_cons_inv Hc.
  apply (chain_frame g); [done|]. intros n Hn. apply lookup_delete_ne.
  intros Heq. apply Hc. by rewrite Heq.
Qed.

(** Taking the block at [c] out of the list, after the block at [p]. *)
Lemma chain_unlink_after g l0 : forall a p bp c b l2,
  chain g a (l0 ++ (p, bp) :: (c, b) :: l2) ->
  NoDup (l0 ++ (p, bp) :: (c, b) :: l2).*1 ->
  chain (delete c (alter (with_next (next b)) p g)) a
        (l0 ++ (p, with_next (next b) bp) :: l2).
Proof.
  induction l0 as [|[x bx] l0 IH]; intros a p bp c b l2 Hl Hnd.
  - cbn [app] in *. apply chain_cons_inv in Hl as (-> & Hp0 & Hb & Hrest).
    apply chain_cons_inv in Hrest as (_ & Hc0 & Hbc & Hl2).
    rewrite !fmap_cons in Hnd. cbn [fst] in Hnd.
    apply NoDup_cons in Hnd as [Hp Hnd]. apply NoDup_cons in Hnd as [Hc2 Hnd].
    apply not_elem_of_cons in Hp as [Hpc Hp].
    constructor; [done| |].
    + rewrite lookup_delete_ne by done. rewrite lookup_alter_eq, Hb. done.
    + cbn [with_next next]. apply (chain_frame g); [done|]. intros n Hn.
      rewrite lookup_delete_ne by (intros Heq; apply Hc2; by rewrite Heq).
      rewrite lookup_alter_ne by (intros Heq; apply Hp; by rewrite Heq). done.
  - cbn [app] in *. apply chain_cons_inv in Hl as (-> & Hx0 & Hb & Hrest).
    rewrite fmap_cons in Hnd. cbn [fst] in Hnd. apply NoDup_cons in Hnd as [Hx Hnd].
    assert (x <> p /\ x <> c) as [Hxp Hxc].
    { rewrite fmap_app, !fmap_cons in Hx. cbn [fst] in Hx.
      rewrite elem_of_app, !elem_of_cons in Hx. split; intros ->; tauto. }
    constructor; [done| |by apply IH].
    rewrite lookup_delete_ne by done. rewrite lookup_alter_ne by done. done.
Qed.
End Chains.


Ltac step_t :=
  unfold mbind, M_bind, mret, M_ret, unlink, free_block, undefined, printf, fprintf, emit,
    get_globals, set_globals, log in *;
  cbn [globals mheap trace g_memory_tracker tracking_blocks] in *.

Section ToolPaths.
Implicit Types (w : world) (l : list (Z * MemoryBlock)).

Lemma release_head p s (h : heap) : release p ((p, s) :: h) = Some h.
Proof. cbn [release fst]. by rewrite Z.eqb_refl. Qed.

Lemma tool_alloc_ok size filename line_number type answer answer_block fresh w :
  size <> 0 -> answer <> NULL -> fits (mheap w) answer size = true ->
  answer_block <> NULL ->
  fits ((answer, size) :: mheap w) answer_block sizeof_MemoryBlock = true ->
  safe_memory_allocate size filename line_number type answer answer_block fresh w
  = Returned answer (pushed w size filename line_number type answer answer_block fresh).
Proof.
  intros Hs Ha Hf Hb Hfb. unfold safe_memory_allocate, pushed.
  destruct (Z.eqb_spec size 0) as [|_]; [done|].
  unfold mbind, M_bind, malloc. cbn [mheap globals trace].
  destruct (Z.eqb_spec answer NULL) as [|_]; [done|]. rewrite Hf.
  destruct (Z.eqb_spec answer NULL) as [|_]; [done|]. cbn [mheap globals trace].
  destruct (Z.eqb_spec answer_block NULL) as [|_]; [done|]. rewrite Hfb.
  destruct (Z.eqb_spec answer_block NULL) as [|_]; [done|].
  step_t. by rewrite <- app_assoc.
Qed.

Lemma tool_alloc_no_block size filename line_number type answer fresh w :
  size <> 0 -> answer <> NULL -> fits (mheap w) answer size = true ->
  safe_memory_allocate size filename line_number type answer NULL fresh w
  = Exited EXIT_FAILURE
      (Machine (globals w) (mheap w)
         (trace w ++ [Ev_malloc size answer; Ev_malloc sizeof_MemoryBlock NULL;
                      Ev_free answer;
                      Ev_printf stderr "CRITICAL: Tracking block allocation failed\n" []])).
Proof.
  intros Hs Ha Hf. unfold safe_memory_allocate.
  destruct (Z.eqb_spec size 0) as [|_]; [done|].
  unfold mbind, M_bind, malloc. cbn [mheap globals trace].
  destruct (Z.eqb_spec answer NULL) as [|_]; [done|]. rewrite Hf.
  destruct (Z.eqb_spec answer NULL) as [|_]; [done|]. cbn [mheap globals trace].
  change (NULL =? NULL) with true. cbn iota. unfold free.
  cbn [mheap globals trace release fst].
  destruct (Z.eqb_spec answer NULL) as [|_]; [done|].
  change (NULL =? NULL) with true. cbn beta iota.
  step_t. rewrite release_head. unfold exit. cbn [trace globals mheap].
  rewrite <- !app_assoc. reflexivity.
Qed.

Lemma free_block_eq memory w (h' : heap) :
  memory <> NULL -> release memory (mheap w) = Some h' ->
  free_block memory w
  = Returned tt
      (Machine {| g_memory_tracker := g_memory_tracker (globals w);
                  tracking_blocks := delete memory (tracking_blocks (globals w)) |}
               h' (trace w ++ [Ev_free memory])).
Proof.
  intros Hm Hrel. unfold free_block, mbind, M_bind, free.
  destruct (Z.eqb_spec memory NULL) as [|_]; [done|]. rewrite Hrel.
  step_t. by cbv beta.
Qed.

Lemma free_block_wild memory w :
  memory <> NULL -> release memory (mheap w) = None ->
  free_block memory w
  = Undefined (Machine (globals w) (mheap w) (trace w ++ [Ev_free memory])).
Proof.
  intros Hm Hrel. unfold free_block, mbind, M_bind, free.
  destruct (Z.eqb_spec memory NULL) as [|_]; [done|]. rewrite Hrel.
  step_t. by cbv beta.
Qed.
(** The three calls that end a free which found its block. *)
Lemma unlink_free_eq previous nx c memory w (h1 h2 : heap) :
  c <> NULL -> memory <> NULL ->
  release c (mheap w) = Some h1 -> release memory h1 = Some h2 ->
  (unlink previous nx;; free_block c;; free_block memory) w
  = Returned tt
      (Machine
         {| g_memory_tracker :=
              if previous =? NULL then nx else g_memory_tracker (globals w);
            tracking_blocks :=
              delete memory
                (delete c (if previous =? NULL then tracking_blocks (globals w)
                           else alter (with_next nx) previous (tracking_blocks (globals w)))) |}
         h2 (trace w ++ [Ev_free c; Ev_free memory])).
Proof.
  intros Hc Hm H1 H2. unfold mbind, M_bind.
  assert (unlink previous nx w
          = Returned tt
              (Machine {| g_memory_tracker :=
                            if previous =? NULL then nx else g_memory_tracker (globals w);
                          tracking_blocks :=
                            if previous =? NULL then tracking_blocks (globals w)
                            else alter (with_next nx) previous
                                   (tracking_blocks (globals w)) |}
                       (mheap w) (trace w))) as ->.
  { unfold unlink. step_t. by destruct (previous =? NULL). }
  rewrite free_block_eq with (h' := h1); [|done|exact H1].
  rewrite free_block_eq with (h' := h2); [|done|exact H2].
  cbn [globals mheap trace g_memory_tracker tracking_blocks]. by rewrite <- app_assoc.
Qed.

End ToolPaths.

Section Footprint.
Implicit Types (w : world) (l : list (Z * MemoryBlock)) (h : heap).

Lemma heap_wf_NoDup h : heap_wf h = true -> NoDup h.*1.
Proof.
  induction h as [|[p s] r IH]; cbn [heap_wf fst snd]; [constructor|].
  rewrite andb_true_iff. intros [Hf Hw]. rewrite fmap_cons. constructor; [|auto].
  intros ([q t] & Heq & Hin)%list_elem_of_fmap. cbn in Heq. subst q.
  by apply (fits_fresh r p s p t Hf Hw Hin).
Qed.

Lemma footprint_addresses l :
  (footprint l).*1 = l.*1 ++ ((fun n => pointer n.2) <$> l).
Proof. unfold footprint. rewrite fmap_app, <- !list_fmap_compose. done. Qed.

Lemma footprint_cons x l :
  footprint (x :: l) ≡ₚ (x.1, sizeof_MemoryBlock) :: (pointer x.2, size x.2) :: footprint l.
Proof.
  unfold footprint. rewrite !fmap_cons. cbn [app]. f_equiv.
  by rewrite <- Permutation_middle.
Qed.

Lemma footprint_app l1 l2 : footprint (l1 ++ l2) ≡ₚ footprint l1 ++ footprint l2.
Proof.
  induction l1 as [|x l1 IH]; [done|]. cbn [app].
  rewrite !footprint_cons, IH. done.
Qed.

Lemma footprint_middle l1 x l2 :
  footprint (l1 ++ x :: l2)
  ≡ₚ (x.1, sizeof_MemoryBlock) :: (pointer x.2, size x.2) :: footprint (l1 ++ l2).
Proof.
  rewrite !footprint_app, footprint_cons.
  rewrite <- !Permutation_middle. done.
Qed.

Lemma relink_snoc l0 x n : relink (l0 ++ [x]) n = l0 ++ [(x.1, with_next n x.2)].
Proof.
  induction l0 as [|y l0 IH]; [done|]. cbn [app]. rewrite <- IH.
  cbn [relink]. destruct (l0 ++ [x]) eqn:Heq; [|done].
  by destruct l0.
Qed.

Lemma footprint_relink l n : footprint (relink l n) = footprint l.
Proof.
  destruct l as [|y l0] using rev_ind; [done|].
  rewrite relink_snoc. unfold footprint. by rewrite !fmap_app.
Qed.

Lemma relink_addresses l n : (relink l n).*1 = l.*1.
Proof.
  destruct l as [|y l0] using rev_ind; [done|].
  rewrite relink_snoc. by rewrite !fmap_app.
Qed.

Lemma length_relink l n : length (relink l n) = length l.
Proof. by rewrite <- (length_fmap fst), relink_addresses, length_fmap. Qed.

Lemma submseteq_release (k : heap) p h h' :
  k ⊆+ h -> release p h = Some h' -> p ∉ k.*1 -> k ⊆+ h'.
Proof.
  intros Hk [s Hs]%release_perm Hp. rewrite Hs in Hk.
  apply submseteq_cons_r in Hk as [Hk|(k' & Hk' & _)]; [done|].
  exfalso. apply Hp. rewrite Hk', fmap_cons. by left.
Qed.

Lemma elem_of_live p s h : (p, s) ∈ h -> exists h', release p h = Some h'.
Proof.
  intros Hin. apply release_live. unfold live. apply existsb_exists.
  exists (p, s). split; [by apply list_elem_of_In|]. apply Z.eqb_refl.
Qed.
End Footprint.

(** The state the operations keep. *)
Section Tidy.
Implicit Types (w : world) (l : list (Z * MemoryBlock)) (h : heap).

Lemma submseteq_NoDup {A} (k m : list A) : k ⊆+ m -> NoDup m -> NoDup k.
Proof.
  intros [r Hr]%submseteq_Permutation. rewrite Hr. by intros [? _]%NoDup_app.
Qed.

Lemma tidy_same w w' l :
  globals w' = globals w -> mheap w' = mheap w -> tidy w l -> tidy w' l.
Proof. intros Hg Hh [? ? ? ?]. split; rewrite ?Hg, ?Hh; done. Qed.

Lemma tidy_boot h : heap_wf h = true -> tidy (boot h) [].
Proof.
  intros Hw. split; cbn [boot globals mheap g_memory_tracker tracking_blocks].
  - done.
  - constructor.
  - intros a. rewrite lookup_empty. split; [by intros [? ?]|by intros ?%elem_of_nil].
  - apply submseteq_nil_l.
Qed.

Lemma tidy_NoDup w l : tidy w l -> NoDup (l.*1 ++ ((fun n => pointer n.2) <$> l)).
Proof.
  intros [Hw _ _ Hl]. rewrite <- footprint_addresses.
  apply (submseteq_NoDup _ (mheap w).*1); [by apply fmap_submseteq|by apply heap_wf_NoDup].
Qed.

(** The addresses of a tidy list are those of live blocks. *)
Lemma tidy_node_live w l a : tidy w l -> a ∈ l.*1 -> (a, sizeof_MemoryBlock) ∈ mheap w.
Proof.
  intros [_ _ _ Hl] ((x & b) & -> & Hin)%list_elem_of_fmap.
  apply (elem_of_submseteq (footprint l)); [|done]. unfold footprint.
  apply elem_of_app. left. apply list_elem_of_fmap. by exists (x, b).
Qed.

Lemma tidy_payload_live w l n : tidy w l -> n ∈ l -> (pointer n.2, size n.2) ∈ mheap w.
Proof.
  intros [_ _ _ Hl] Hin.
  apply (elem_of_submseteq (footprint l)); [|done]. unfold footprint.
  apply elem_of_app. right. apply list_elem_of_fmap. by exists n.
Qed.

(** An address [malloc] can answer with is neither that of a tracking block
    nor tracked. *)
Lemma tidy_fits_fresh w l p s :
  tidy w l -> fits (mheap w) p s = true ->
  (p ∉ l.*1) /\ Forall (fun n => pointer n.2 <> p) l.
Proof.
  intros Ht Hf. split.
  - intros Hin%(tidy_node_live w l p Ht).
    by apply (fits_fresh _ _ _ _ _ Hf (t_heap _ _ Ht) Hin).
  - apply Forall_forall. intros n Hn%(tidy_payload_live w l n Ht) Heq.
    by apply (fits_fresh _ _ _ _ _ Hf (t_heap _ _ Ht) Hn).
Qed.

Lemma tidy_pushed w l size filename line_number type answer answer_block fresh :
  tidy w l -> fits (mheap w) answer size = true -> answer_block <> NULL ->
  fits ((answer, size) :: mheap w) answer_block sizeof_MemoryBlock = true ->
  tidy (pushed w size filename line_number type answer answer_block fresh)
       ((answer_block,
         {| pointer := answer; size := size;
            filename := strncpy fresh filename (Z.to_nat (MAX_FILENAME_LENGTH - 1));
            line_number := line_number; type := type;
            next := g_memory_tracker (globals w) |}) :: l).
Proof.
  intros Ht Hf Hb Hfb.
  assert (heap_wf ((answer, size) :: mheap w) = true) as Hw1.
  { cbn [heap_wf fst snd]. by rewrite Hf, (t_heap _ _ Ht). }
  assert (answer_block ∉ l.*1) as Hnew.
  { intros Hin%(tidy_node_live w l _ Ht).
    apply (fits_fresh _ _ _ _ _ Hfb Hw1 (proj2 (elem_of_cons _ _ _) (or_intror Hin))). done. }
  unfold pushed. split; cbn [globals mheap g_memory_tracker tracking_blocks].
  - cbn [heap_wf fst snd]. by rewrite Hfb, Hf, (t_heap _ _ Ht).
  - constructor; [done|by rewrite lookup_insert_eq|]. cbn [next].
    apply (chain_frame _ _ _ _ (t_chain _ _ Ht)). intros n Hn.
    apply lookup_insert_ne. by intros ->.
  - intros a. rewrite lookup_insert_is_Some', fmap_cons, elem_of_cons. cbn [fst].
    rewrite (t_dom _ _ Ht a). split; intros [?|?]; auto.
  - rewrite footprint_cons. cbn [fst snd pointer Tool.size].
    apply submseteq_skip, submseteq_skip, (t_live _ _ Ht).
Qed.

(** A free of an address the list does not track. *)
Lemma tidy_free_untracked w l memory h' :
  tidy w l -> memory ∉ l.*1 -> Forall (fun n => pointer n.2 <> memory) l ->
  release memory (mheap w) = Some h' ->
  tidy (Machine {| g_memory_tracker := g_memory_tracker (globals w);
                   tracking_blocks := delete memory (tracking_blocks (globals w)) |}
                h' (trace w ++ [Ev_free memory])) l.
Proof.
  intros Ht Hno Hun Hrel.
  assert (tracking_blocks (globals w) !! memory = None) as Hnone.
  { apply eq_None_not_Some. by rewrite (t_dom _ _ Ht). }
  rewrite (delete_id _ _ Hnone).
  split; cbn [globals mheap g_memory_tracker tracking_blocks].
  - apply (release_wf _ _ _ Hrel), Ht.
  - apply Ht.
  - apply Ht.
  - apply (submseteq_release _ memory (mheap w)); [apply Ht|done|].
    rewrite footprint_addresses, elem_of_app. intros [?|Hin]; [done|].
    apply list_elem_of_fmap in Hin as (n & Heq & Hn).
    rewrite Forall_forall in Hun. by apply (Hun n Hn).
Qed.

Lemma chain_nonnull g a l : chain g a l -> Forall (fun n => n.1 <> NULL) l.
Proof. induction 1; constructor; done. Qed.

Lemma last_address_snoc previous l0 x : last_address previous (l0 ++ [x]) = x.1.
Proof. unfold last_address. by rewrite last_snoc. Qed.

(** A free of the address the block at [c] tracks, the first in the list
    to track it. *)
Lemma tidy_free_tracked w l1 c b l2 h1 h2 :
  tidy w (l1 ++ (c, b) :: l2) ->
  release c (mheap w) = Some h1 -> release (pointer b) h1 = Some h2 ->
  tidy (Machine
          {| g_memory_tracker :=
               if last_address NULL l1 =? NULL then next b
               else g_memory_tracker (globals w);
             tracking_blocks :=
               delete (pointer b)
                 (delete c (if last_address NULL l1 =? NULL
                            then tracking_blocks (globals w)
                            else alter (with_next (next b)) (last_address NULL l1)
                                   (tracking_blocks (globals w)))) |}
          h2 (trace w ++ [Ev_free c; Ev_free (pointer b)]))
       (relink l1 (next b) ++ l2).
Proof.
  intros Ht H1 H2.
  pose proof (tidy_NoDup _ _ Ht) as Hnd.
  rewrite <- footprint_addresses in Hnd.
  pose proof (footprint_middle l1 (c, b) l2) as Hmid. cbn [fst snd] in Hmid.
  rewrite Hmid, !fmap_cons in Hnd. cbn [fst] in Hnd.
  apply NoDup_cons in Hnd as [Hc Hnd]. apply NoDup_cons in Hnd as [Hm Hnd].
  apply not_elem_of_cons in Hc as [Hcm Hc].
  rewrite footprint_addresses in Hc, Hm.
  rewrite elem_of_app in Hc, Hm.
  assert (c ∉ (l1 ++ l2).*1) as Hc1 by tauto.
  assert (pointer b ∉ (l1 ++ l2).*1) as Hm1 by tauto.
  assert (NoDup (l1 ++ (c, b) :: l2).*1) as Hnodes.
  { pose proof (tidy_NoDup _ _ Ht) as Hall. by apply NoDup_app in Hall as [? _]. }
  assert (footprint (l1 ++ l2) ⊆+ h2) as Hlive.
  { apply (submseteq_release _ (pointer b) h1); [|done|rewrite footprint_addresses, elem_of_app; tauto].
    apply (submseteq_release _ c (mheap w)); [|done|rewrite footprint_addresses, elem_of_app; tauto].
    etrans; [|apply (t_live _ _ Ht)]. rewrite Hmid.
    apply submseteq_cons, submseteq_cons. done. }
  assert (forall a, a ∈ (relink l1 (next b) ++ l2).*1 <-> a ∈ (l1 ++ l2).*1) as Hsame.
  { intros a. by rewrite !fmap_app, relink_addresses. }
  assert (forall a, a ∈ (l1 ++ (c, b) :: l2).*1 <-> a = c \/ a ∈ (l1 ++ l2).*1) as Hsplit.
  { intros a. rewrite !fmap_app, fmap_cons, !elem_of_app, elem_of_cons. cbn [fst]. tauto. }
  split; cbn [globals mheap g_memory_tracker tracking_blocks].
  - apply (release_wf _ _ _ H2), (release_wf _ _ _ H1), Ht.
  - apply (chain_frame
             (delete c (if last_address NULL l1 =? NULL then tracking_blocks (globals w)
                        else alter (with_next (next b)) (last_address NULL l1)
                               (tracking_blocks (globals w))))).
    2:{ intros n Hn%Hsame. apply lookup_delete_ne. by intros <-. }
    pose proof (t_chain _ _ Ht) as Hch.
    destruct l1 as [|[p bp] l0 _] using rev_ind.
    + cbn [app relink] in *. change (last_address NULL [] =? NULL) with true. cbn iota.
      pose proof (chain_cons_inv _ _ _ _ _ Hch) as (Hhead & _).
      rewrite Hhead in Hch. by apply chain_unlink_head.
    + rewrite last_address_snoc, relink_snoc. cbn [fst snd].
      rewrite <- !app_assoc in *. cbn [app] in *.
      assert (p <> NULL) as Hp.
      { pose proof (chain_nonnull _ _ _ Hch) as Hnn. rewrite Forall_forall in Hnn.
        apply (Hnn (p, bp)). rewrite elem_of_app, elem_of_cons. auto. }
      destruct (Z.eqb_spec p NULL) as [|_]; [done|].
      by apply chain_unlink_after.
  - intros a. rewrite Hsame, lookup_delete_is_Some, lookup_delete_is_Some.
    assert (is_Some ((if last_address NULL l1 =? NULL then tracking_blocks (globals w)
                      else alter (with_next (next b)) (last_address NULL l1)
                             (tracking_blocks (globals w))) !! a)
            <-> is_Some (tracking_blocks (globals w) !! a)) as ->.
    { destruct (last_address NULL l1 =? NULL); [done|apply lookup_alter_is_Some]. }
    rewrite (t_dom _ _ Ht a), Hsplit. split.
    + intros (Hne1 & Hne2 & [->|Hin]); done.
    + intros Hin. split; [by intros <-|]. split; [by intros <-|]. by right.
  - rewrite footprint_app, footprint_relink, <- footprint_app. done.
Qed.
End Tidy.

Section Report.
Implicit Types (w : world) (l : list (Z * MemoryBlock)) (bs : list MemoryBlock).

Lemma tool_report_blocks_eq bs : forall t n w,
  Forall (fun b => Ascii.zero ∈ b.(Tool.filename) /\ 0 <= size b) bs ->
  0 <= t -> t + listed_bytes bs < 2 ^ SIZE_WIDTH ->
  n + Z.of_nat (length bs) <= INT_MAX ->
  report_blocks bs (t, n) w
  = Returned (t + listed_bytes bs, n + Z.of_nat (length bs)) (log w (block_record <$> bs)).
Proof.
  induction bs as [|b bs IH]; intros t n w Hall Ht Hsum Hn.
  - cbn [report_blocks listed_bytes foldr length fmap list_fmap]. unfold log.
    rewrite app_nil_r, !Z.add_0_r. by destruct w.
  - apply Forall_cons in Hall as [[Hz Hs] Hall].
    cbn [listed_bytes foldr length] in *. fold (listed_bytes bs) in *.
    assert (0 <= listed_bytes bs) as Hpos.
    { clear -Hall. induction Hall as [|x r [_ Hx] _ IHr]; cbn [listed_bytes foldr]; [done|].
      fold (listed_bytes r). lia. }
    cbn [report_blocks]. unfold mbind at 1, M_bind at 1.
    assert (report_block b (t, n) w
            = Returned (t + size b, n + 1) (log w [block_record b])) as ->.
    { unfold report_block. rewrite bool_decide_eq_true_2 by done.
      step_t. cbn [fst snd].
      destruct (Z.eqb_spec n INT_MAX) as [->|_]; [lia|].
      rewrite ManagerFacts.size_t_wrap_id by lia. done. }
    rewrite IH; [|done|lia|lia|lia].
    unfold log. cbn [globals mheap trace fmap list_fmap].
    rewrite <- app_assoc. cbn [app]. do 2 f_equal; lia.
Qed.

Lemma listed_bytes_footprint l :
  heap_bytes (footprint l) = sizeof_MemoryBlock * Z.of_nat (length l) + listed_bytes l.*2.
Proof.
  induction l as [|x l IH]; [done|].
  rewrite (heap_bytes_perm _ _ (footprint_cons x l)).
  cbn [heap_bytes fst snd length listed_bytes fmap list_fmap foldr].
  fold (listed_bytes l.*2). rewrite IH. lia.
Qed.

Lemma tidy_sizes w l :
  tidy w l ->
  Forall (fun n => 0 < n.1 /\ 0 < pointer n.2 /\ 0 < size n.2) l
  /\ sizeof_MemoryBlock * Z.of_nat (length l) + listed_bytes l.*2 <= heap_bytes (mheap w)
  /\ heap_bytes (mheap w) < 2 ^ SIZE_WIDTH.
Proof.
  intros Ht. pose proof (t_heap _ _ Ht) as Hw.
  pose proof (disjoint_blocks_positive _ (heap_wf_disjoint _ Hw)) as Hpos.
  pose proof (heap_wf_inside _ Hw) as Hin.
  rewrite Forall_forall in Hpos, Hin.
  split; [|split].
  - apply Forall_forall. intros n Hn.
    pose proof (tidy_payload_live _ _ _ Ht Hn) as Hp.
    assert (n.1 ∈ l.*1) as Ha by (apply list_elem_of_fmap; by exists n).
    pose proof (tidy_node_live _ _ _ Ht Ha) as Hq.
    pose proof (Hpos _ Hp) as H1. pose proof (Hin _ Hp) as [H2 _].
    pose proof (Hin _ Hq) as [H3 _]. cbn [fst snd] in *. lia.
  - rewrite <- listed_bytes_footprint. apply heap_bytes_submseteq; [apply Ht|].
    apply Forall_forall. intros c Hc. pose proof (Hpos c Hc). lia.
  - by apply heap_wf_bytes.
Qed.
End Report.

Section ToolSteps.
Implicit Types (w : world) (l : list (Z * MemoryBlock)).

(** The two ways [safe_memory_allocate] returns. *)
Lemma tool_alloc_returned size filename line_number type answer answer_block fresh w r w' :
  safe_memory_allocate size filename line_number type answer answer_block fresh w
  = Returned r w' ->
  (size = 0 /\ r = NULL
   /\ w' = log w [Ev_printf stderr "Warning: Attempting to allocate zero bytes\n" []])
  \/ (size <> 0 /\ answer <> NULL /\ fits (mheap w) answer size = true
      /\ answer_block <> NULL
      /\ fits ((answer, size) :: mheap w) answer_block sizeof_MemoryBlock = true
      /\ r = answer
      /\ w' = pushed w size filename line_number type answer answer_block fresh).
Proof.
  intros Hret.
  destruct (Z.eq_dec size 0) as [->|Hs].
  { rewrite ToolFacts.tool_alloc_zero in Hret. injection Hret as <- <-. by left. }
  destruct (Z.eq_dec answer NULL) as [->|Ha].
  { by rewrite ToolFacts.tool_alloc_oom in Hret. }
  destruct (fits (mheap w) answer size) eqn:Hf.
  2:{ exfalso. revert Hret. unfold safe_memory_allocate.
      destruct (Z.eqb_spec size 0) as [|_]; [done|].
      unfold mbind, M_bind, malloc.
      destruct (Z.eqb_spec answer NULL) as [|_]; [done|]. by rewrite Hf. }
  destruct (Z.eq_dec answer_block NULL) as [->|Hb].
  { by rewrite tool_alloc_no_block in Hret. }
  destruct (fits ((answer, size) :: mheap w) answer_block sizeof_MemoryBlock) eqn:Hfb.
  2:{ exfalso. revert Hret. unfold safe_memory_allocate.
      destruct (Z.eqb_spec size 0) as [|_]; [done|].
      unfold mbind, M_bind, malloc. cbn [mheap globals trace].
      destruct (Z.eqb_spec answer NULL) as [|_]; [done|]. rewrite Hf.
      destruct (Z.eqb_spec answer NULL) as [|_]; [done|]. cbn [mheap globals trace].
      destruct (Z.eqb_spec answer_block NULL) as [|_]; [done|]. by rewrite Hfb. }
  rewrite tool_alloc_ok in Hret by done. injection Hret as <- <-. right. done.
Qed.

(** The first block of a list that tracks [memory], if one does. *)
Lemma first_tracking memory l :
  Forall (fun n => pointer n.2 <> memory) l
  \/ exists l1 c b l2,
       l = l1 ++ (c, b) :: l2
       /\ Forall (fun n => pointer n.2 <> memory) l1 /\ pointer b = memory.
Proof.
  induction l as [|[c b] l IH]; [by left|].
  destruct (Z.eq_dec (pointer b) memory) as [Heq|Hne].
  { right. by exists [], c, b, l. }
  destruct IH as [Hall|(l1 & c' & b' & l2 & -> & Hall & Heq)].
  - left. by constructor.
  - right. exists ((c, b) :: l1), c', b', l2. split; [done|]. split; [|done].
    by constructor.
Qed.

(** In a tidy list no two blocks track one address. *)
Lemma tidy_first w l1 c b l2 :
  tidy w (l1 ++ (c, b) :: l2) -> Forall (fun n => pointer n.2 <> pointer b) l1.
Proof.
  intros Hnd%tidy_NoDup. apply NoDup_app in Hnd as (_ & _ & Hnd).
  rewrite fmap_app, fmap_cons in Hnd. cbn [snd] in Hnd.
  apply NoDup_app in Hnd as (_ & Hnd & _).
  apply Forall_forall. intros n Hn Heq. apply (Hnd (pointer n.2)).
  - apply list_elem_of_fmap. by exists n.
  - rewrite Heq. by left.
Qed.

Lemma tool_free_hit (fuel : nat) w l1 c b l2 filename line_number :
  tidy w (l1 ++ (c, b) :: l2) -> (length l1 < fuel)%nat ->
  exists h1 h2,
    release c (mheap w) = Some h1 /\ release (pointer b) h1 = Some h2
    /\ safe_memory_free fuel (pointer b) filename line_number w
       = Some (Returned tt
           (Machine
              {| g_memory_tracker :=
                   if last_address NULL l1 =? NULL then next b
                   else g_memory_tracker (globals w);
                 tracking_blocks :=
                   delete (pointer b)
                     (delete c (if last_address NULL l1 =? NULL
                                then tracking_blocks (globals w)
                                else alter (with_next (next b)) (last_address NULL l1)
                                       (tracking_blocks (globals w)))) |}
              h2 (trace w ++ [Ev_free c; Ev_free (pointer b)]))).
Proof.
  intros Ht Hfuel.
  assert ((c, b) ∈ l1 ++ (c, b) :: l2) as Hin by (rewrite elem_of_app, elem_of_cons; auto).
  pose proof (tidy_sizes _ _ Ht) as (Hsz & _ & _). rewrite Forall_forall in Hsz.
  destruct (Hsz _ Hin) as (Hc & Hp & _). cbn [fst snd] in Hc, Hp.
  pose proof (tidy_payload_live _ _ _ Ht Hin) as Hpl. cbn [snd] in Hpl.
  assert (c ∈ (l1 ++ (c, b) :: l2).*1) as Hcin.
  { apply list_elem_of_fmap. by exists (c, b). }
  pose proof (tidy_node_live _ _ _ Ht Hcin) as Hcl.
  assert (pointer b <> c) as Hne.
  { pose proof (tidy_NoDup _ _ Ht) as Hnd. apply NoDup_app in Hnd as (_ & Hnd & _).
    intros Heq. apply (Hnd c Hcin).
    apply list_elem_of_fmap. exists (c, b). by split. }
  destruct (elem_of_live _ _ _ Hcl) as [h1 H1].
  assert ((pointer b, size b) ∈ h1) as Hpl1 by (by apply (release_keeps c (mheap w))).
  destruct (elem_of_live _ _ _ Hpl1) as [h2 H2].
  exists h1, h2. split; [done|]. split; [done|].
  unfold safe_memory_free.
  destruct (Z.eqb_spec (pointer b) NULL) as [Heq|_]; [unfold NULL in Heq; lia|].
  rewrite (chain_search_hit _ l1 _ c b l2 fuel (pointer b) NULL (t_chain _ _ Ht)
             (tidy_first _ _ _ _ _ Ht) eq_refl Hfuel).
  rewrite (unlink_free_eq _ _ _ _ _ h1 h2); [done| |unfold NULL; lia|done|done].
  unfold NULL; lia.
Qed.

Lemma tool_free_miss (fuel : nat) w l memory filename line_number :
  tidy w l -> memory <> NULL -> Forall (fun n => pointer n.2 <> memory) l ->
  (length l < fuel)%nat ->
  safe_memory_free fuel memory filename line_number w = Some (free_block memory w).
Proof.
  intros Ht Hm Hall Hfuel. unfold safe_memory_free.
  destruct (Z.eqb_spec memory NULL) as [|_]; [done|].
  by rewrite (chain_search_miss _ _ l fuel memory NULL (t_chain _ _ Ht) Hall Hfuel).
Qed.

(** What [generate_memory_report] prints in a tidy state. *)
Lemma tool_report_eq (fuel : nat) w l :
  tidy w l -> Forall (fun n => Ascii.zero ∈ n.2.(Tool.filename)) l ->
  Z.of_nat (length l) <= INT_MAX -> (length l < fuel)%nat ->
  generate_memory_report fuel w
  = Some (Returned tt
      (log w (Ev_printf stdout "\n--- MEMORY ALLOCATION REPORT ---\n" []
              :: (block_record <$> l.*2)
              ++ [Ev_printf stdout
                    "Summary:\n  Total Blocks: %d\n  Total Memory Allocated: %zu bytes\n"
                    [arg_d (Z.of_nat (length l)); arg_zu (listed_bytes l.*2)]]))).
Proof.
  intros Ht Hz Hn Hfuel. unfold generate_memory_report.
  rewrite (chain_walk _ _ l fuel (t_chain _ _ Ht) Hfuel).
  pose proof (tidy_sizes _ _ Ht) as (Hsz & Hsum & Hlt).
  f_equal. unfold mbind at 1, M_bind at 1. step_t.
  unfold mbind, M_bind.
  rewrite tool_report_blocks_eq.
  - unfold log. step_t. rewrite length_fmap, !Z.add_0_l.
    by rewrite <- !app_assoc.
  - apply Forall_fmap. rewrite Forall_forall in Hz, Hsz |- *. intros n Hn'.
    cbn. split; [by apply Hz|]. destruct (Hsz n Hn') as (_ & _ & ?). lia.
  - done.
  - unfold sizeof_MemoryBlock in Hsum. lia.
  - rewrite length_fmap. lia.
Qed.
End ToolSteps.

Section ToolRuns.
Variable Q : MemoryBlock -> Prop.
Variable allowed : op -> Prop.
Hypothesis Q_with_next : forall n b, Q b -> Q (with_next n b).
Hypothesis Q_new : forall size filename line_number type answer answer_block fresh nx,
  allowed (Alloc size filename line_number type answer answer_block fresh) ->
  Q {| pointer := answer; size := size;
       filename := strncpy fresh filename (Z.to_nat (MAX_FILENAME_LENGTH - 1));
       line_number := line_number; type := type; next := nx |}.
Implicit Types (w : world) (l : list (Z * MemoryBlock)).

Lemma report_blocks_same bs : forall acc w acc' w',
  report_blocks bs acc w = Returned acc' w' ->
  globals w' = globals w /\ mheap w' = mheap w.
Proof.
  induction bs as [|b bs IH]; intros acc w acc' w'; cbn [report_blocks].
  - by intros [= _ <-].
  - unfold mbind at 1, M_bind at 1. unfold report_block.
    destruct (bool_decide (Ascii.zero ∈ Tool.filename b)); [|done].
    step_t. destruct (acc.2 =? INT_MAX); [done|].
    intros Hret. by destruct (IH _ _ _ _ Hret) as [-> ->].
Qed.

Lemma relink_Forall l n : Forall (fun x => Q x.2) l -> Forall (fun x => Q x.2) (relink l n).
Proof.
  destruct l as [|y l0 _] using rev_ind; [done|]. rewrite relink_snoc.
  rewrite !Forall_app, !Forall_singleton. cbn [snd]. intros [? ?]. auto.
Qed.

(** One call that returns, from a tidy state. *)
Lemma exec_tidy (fuel : nat) o w l :
  tidy w l -> Forall (fun x => Q x.2) l -> (length l < fuel)%nat ->
  allowed o -> proper_call o w ->
  exists out, exec fuel o w = Some out
    /\ forall w', out = Returned tt w' ->
       exists l', tidy w' l' /\ Forall (fun x => Q x.2) l'
                  /\ (length l' <= S (length l))%nat.
Proof.
  intros Ht HQ Hfuel Hok Hproper.
  destruct o as [size filename line_number type answer answer_block fresh
                |memory filename line_number|]; cbn [exec proper_call] in *.
  - eexists. split; [done|]. intros w'. unfold mbind, M_bind.
    destruct (safe_memory_allocate _ _ _ _ _ _ _ w) as [r s| | |] eqn:Ha; try done.
    intros [= <-].
    apply tool_alloc_returned in Ha
      as [(_ & _ & ->)|(_ & _ & Hf & Hb & Hfb & _ & ->)].
    + exists l. split; [by apply (tidy_same w)|]. split; [done|lia].
    + eexists. split; [by apply tidy_pushed|]. split; [|cbn [length]; lia].
      constructor; [|done]. cbn [snd]. eapply Q_new, Hok.
  - destruct (Z.eq_dec memory NULL) as [->|Hm].
    { eexists. split; [done|]. intros w' [= <-].
      exists l. split; [by apply (tidy_same w)|]. split; [done|lia]. }
    destruct (first_tracking memory l) as [Hall|(l1 & c & b & l2 & -> & Hall & <-)].
    + rewrite (tool_free_miss fuel w l) by done.
      eexists. split; [done|]. intros w'.
      destruct (release memory (mheap w)) as [h'|] eqn:Hrel.
      * rewrite (free_block_eq _ _ h') by done. intros [= <-].
        exists l. split; [|split; [done|lia]].
        apply tidy_free_untracked; try done.
        rewrite <- (t_dom _ _ Ht). rewrite Hproper. by intros [? ?].
      * by rewrite free_block_wild.
    + rewrite length_app in Hfuel. cbn [length] in Hfuel.
      destruct (tool_free_hit fuel w l1 c b l2 filename line_number Ht)
        as (h1 & h2 & H1 & H2 & ->); [lia|].
      eexists. split; [done|]. intros w' [= <-].
      exists (relink l1 (next b) ++ l2). split; [by apply (tidy_free_tracked w l1 c b l2 h1 h2)|].
      apply Forall_app in HQ as [HQ1 HQ2]. apply Forall_cons in HQ2 as [_ HQ2].
      split; [apply Forall_app; split; [by apply relink_Forall|done]|].
      rewrite !length_app, length_relink. cbn [length]. lia.
  - unfold generate_memory_report.
    rewrite (chain_walk _ _ l fuel (t_chain _ _ Ht) Hfuel).
    eexists. split; [done|]. intros w'. unfold mbind at 1, M_bind at 1. step_t.
    unfold mbind, M_bind.
    destruct (report_blocks _ _ _) as [acc s| | |] eqn:Hrep; try done.
    intros [= <-]. apply report_blocks_same in Hrep as [Hg Hh].
    cbn [globals mheap] in Hg, Hh.
    exists l. split; [by apply (tidy_same w)|]. split; [done|lia].
Qed.

(** A sequence of calls, from a tidy state. *)
Lemma run_tidy (fuel : nat) ops : forall w l,
  tidy w l -> Forall (fun x => Q x.2) l -> (length l + length ops < fuel)%nat ->
  Forall allowed ops -> proper fuel ops w ->
  exists out, run fuel ops w = Some out
    /\ forall w', out = Returned tt w' ->
       exists l', tidy w' l' /\ Forall (fun x => Q x.2) l'
                  /\ (length l' <= length l + length ops)%nat.
Proof.
  induction ops as [|o ops IH]; intros w l Ht HQ Hfuel Hok Hproper.
  - eexists. split; [done|]. intros w' [= <-]. exists l. split; [done|]. split; [done|lia].
  - cbn [length] in Hfuel. apply Forall_cons in Hok as [Ho Hok].
    cbn [proper] in Hproper. destruct Hproper as [Hcall Hrest].
    destruct (exec_tidy fuel o w l Ht HQ) as (out & Hex & Hout); [lia|done|done|].
    cbn [run]. rewrite Hex in Hrest |- *.
    destruct out as [[] w1| | |]; try (eexists; split; [done|]; by intros).
    destruct (Hout w1 eq_refl) as (l1 & Ht1 & HQ1 & Hlen1).
    destruct (IH w1 l1 Ht1 HQ1) as (out' & Hrun & Hout'); [lia|done|done|].
    exists out'. split; [done|]. intros w' Hw'.
    destruct (Hout' w' Hw') as (l' & ? & ? & ?). exists l'. split; [done|]. split; [done|cbn [length]; lia].
Qed.
End ToolRuns.

Section Reached.
Implicit Types (w : world) (l : list (Z * MemoryBlock)) (h : heap).

Lemma strncpy_bytes_short src : forall n : nat,
  (String.length src < n)%nat -> Ascii.zero ∈ strncpy_bytes src n.
Proof.
  induction src as [|c rest IH]; intros [|n] Hlen; cbn [String.length] in Hlen; try lia;
    cbn [strncpy_bytes].
  - cbn [replicate]. by left.
  - destruct (Ascii.eqb c Ascii.zero); [cbn [replicate]; by left|].
    right. apply IH. lia.
Qed.

Lemma strncpy_bytes_long src : forall n : nat,
  Ascii.zero ∉ list_ascii_of_string src -> (n <= String.length src)%nat ->
  Ascii.zero ∉ strncpy_bytes src n.
Proof.
  induction src as [|c rest IH]; intros [|n] Hno Hlen; cbn [String.length] in Hlen;
    try lia; cbn [strncpy_bytes]; try apply not_elem_of_nil.
  cbn [list_ascii_of_string] in Hno. apply not_elem_of_cons in Hno as [Hc Hno].
  destruct (Ascii.eqb_spec c Ascii.zero) as [->|_]; [done|].
  apply not_elem_of_cons. split; [done|]. apply IH; [done|lia].
Qed.

Lemma release_absent p h : p ∉ h.*1 -> release p h = None.
Proof.
  induction h as [|[q t] r IH]; [done|]. rewrite fmap_cons. cbn [fst release].
  intros [Hq Hr]%not_elem_of_cons. destruct (Z.eqb_spec q p) as [|_]; [done|].
  by rewrite IH.
Qed.

(** The state a run of proper calls reaches from program start. *)
Lemma reached_some (fuel : nat) h ops w :
  heap_wf h = true -> (length ops < fuel)%nat -> proper fuel ops (boot h) ->
  run fuel ops (boot h) = Some (Returned tt w) ->
  exists l, tidy w l /\ (length l <= length ops)%nat.
Proof.
  intros Hh Hf Hp Hrun.
  destruct (run_tidy (fun _ => True) (fun _ => True) (fun _ _ _ => I)
              (fun _ _ _ _ _ _ _ _ _ => I) fuel ops (boot h) [] (tidy_boot h Hh))
    as (out & Hout & Hinv); [done|cbn [length]; lia|by apply Forall_true|done|].
  rewrite Hrun in Hout. injection Hout as <-.
  destruct (Hinv w eq_refl) as (l & Ht & _ & Hlen). by exists l.
Qed.

Lemma reached_tidy (fuel : nat) h ops w l :
  heap_wf h = true -> (length ops < fuel)%nat -> proper fuel ops (boot h) ->
  run fuel ops (boot h) = Some (Returned tt w) ->
  chain (tracking_blocks (globals w)) (g_memory_tracker (globals w)) l ->
  tidy w l /\ (length l <= length ops)%nat.
Proof.
  intros Hh Hf Hp Hrun Hch.
  destruct (reached_some fuel h ops w Hh Hf Hp Hrun) as (l' & Ht & Hlen).
  by rewrite (chain_unique _ _ _ _ Hch (t_chain _ _ Ht)).
Qed.

Lemma reached_named (fuel : nat) h ops w :
  heap_wf h = true -> (length ops < fuel)%nat -> proper fuel ops (boot h) ->
  Forall short_named ops ->
  run fuel ops (boot h) = Some (Returned tt w) ->
  exists l, tidy w l /\ Forall (fun n => Ascii.zero ∈ n.2.(Tool.filename)) l
            /\ (length l <= length ops)%nat.
Proof.
  intros Hh Hf Hp Hnamed Hrun.
  destruct (run_tidy (fun b => Ascii.zero ∈ b.(Tool.filename)) short_named) with
    (fuel := fuel) (ops := ops) (w := boot h) (l := @nil (Z * MemoryBlock))
    as (out & Hout & Hinv); try done.
  - intros size filename line_number type answer answer_block fresh nx Hshort.
    cbn [Tool.filename short_named] in *. unfold strncpy.
    apply elem_of_app. left. by apply strncpy_bytes_short.
  - by apply tidy_boot.
  - rewrite Hrun in Hout. injection Hout as <-.
    destruct (Hinv w eq_refl) as (l & Ht & Hz & Hlen). by exists l.
Qed.

Lemma main_allocs_run :
  run 8 main_allocs (boot []) = Some (Returned tt main_state).
Proof. reflexivity. Qed.

Lemma main_state_chain :
  chain (tracking_blocks (globals main_state)) (g_memory_tracker (globals main_state))
        [(16384, second_block); (8192, first_block)].
Proof.
  constructor; [done|vm_compute; reflexivity|].
  constructor; [done|vm_compute; reflexivity|]. constructor.
Qed.
End Reached.

Section ToolMain.
Implicit Types (w : world) (h : heap).

Lemma poke_ok p s off len (w : world) :
  (p, s) ∈ mheap w -> 0 <= off -> off + len <= s -> poke p off len w = Returned tt w.
Proof.
  intros Hin Hoff Hlen. unfold poke.
  assert (existsb (fun b => (b.1 =? p) && (0 <=? off) && (off + len <=? b.2)) (mheap w)
          = true) as ->; [|done].
  apply existsb_exists. exists (p, s). split; [by apply list_elem_of_In|].
  cbn [fst snd]. rewrite Z.eqb_refl. cbn [andb].
  apply andb_true_iff. split; [by apply Z.leb_le|by apply Z.leb_le].
Qed.

Lemma fill_array_ok p s (w : world) :
  (p, s) ∈ mheap w -> 5 * sizeof_int <= s -> fill_array p w = Returned tt w.
Proof.
  intros Hin Hs. unfold fill_array. change (seqZ 0 5) with [0; 1; 2; 3; 4].
  cbn [foldr]. unfold mbind, M_bind, sizeof_int in *.
  rewrite !(poke_ok p s) by (done || lia). done.
Qed.

Lemma release_skip p q t (h : heap) : q <> p -> release p ((q, t) :: h) = cons (q, t) <$> release p h.
Proof. intros Hne. cbn [release fst]. by destruct (Z.eqb_spec q p). Qed.

Lemma main_returns_eq (fuel : nat) (h : heap) (file : string) (line_array line_buffer : Z)
    (answer_array block_array : Z) (fresh_array : list ascii)
    (answer_buffer block_buffer : Z) (fresh_buffer : list ascii) :
  heap_wf h = true -> (2 < fuel)%nat ->
  (String.length file < Z.to_nat (MAX_FILENAME_LENGTH - 1))%nat ->
  answer_array <> NULL -> fits h answer_array (5 * sizeof_int) = true ->
  block_array <> NULL ->
  fits ((answer_array, 5 * sizeof_int) :: h) block_array sizeof_MemoryBlock = true ->
  answer_buffer <> NULL ->
  fits ((block_array, sizeof_MemoryBlock) :: (answer_array, 5 * sizeof_int) :: h)
       answer_buffer 50 = true ->
  block_buffer <> NULL ->
  fits ((answer_buffer, 50) :: (block_array, sizeof_MemoryBlock)
        :: (answer_array, 5 * sizeof_int) :: h) block_buffer sizeof_MemoryBlock = true ->
  main fuel file line_array line_buffer answer_array block_array fresh_array
       answer_buffer block_buffer fresh_buffer (boot h)
  = Some (Returned EXIT_SUCCESS
      (Machine {| g_memory_tracker := NULL; tracking_blocks := ∅ |} h
         ([Ev_malloc (5 * sizeof_int) answer_array;
           Ev_malloc sizeof_MemoryBlock block_array;
           Ev_malloc 50 answer_buffer;
           Ev_malloc sizeof_MemoryBlock block_buffer;
           Ev_printf stdout "\n--- MEMORY ALLOCATION REPORT ---\n" [];
           block_record
             {| pointer := answer_buffer; size := 50;
                filename := strncpy fresh_buffer file (Z.to_nat (MAX_FILENAME_LENGTH - 1));
                line_number := line_buffer; type := MEMORY_TYPE_TEMPORARY;
                next := block_array |};
           block_record
             {| pointer := answer_array; size := 5 * sizeof_int;
                filename := strncpy fresh_array file (Z.to_nat (MAX_FILENAME_LENGTH - 1));
                line_number := line_array; type := MEMORY_TYPE_DYNAMIC;
                next := NULL |};
           Ev_printf stdout
             "Summary:\n  Total Blocks: %d\n  Total Memory Allocated: %zu bytes\n"
             [arg_d 2; arg_zu 70];
           Ev_free block_array; Ev_free answer_array;
           Ev_free block_buffer; Ev_free answer_buffer;
           Ev_printf stdout "\n--- MEMORY ALLOCATION REPORT ---\n" [];
           Ev_printf stdout
             "Summary:\n  Total Blocks: %d\n  Total Memory Allocated: %zu bytes\n"
             [arg_d 0; arg_zu 0]]))).
Proof.
  intros Hh Hfuel Hfile Ha1 Hfa1 Hb1 Hfb1 Ha2 Hfa2 Hb2 Hfb2.
  set (blk1 := {| pointer := answer_array; size := 5 * sizeof_int;
                  filename := strncpy fresh_array file (Z.to_nat (MAX_FILENAME_LENGTH - 1));
                  line_number := line_array; type := MEMORY_TYPE_DYNAMIC;
                  next := NULL |}).
  set (blk2 := {| pointer := answer_buffer; size := 50;
                  filename := strncpy fresh_buffer file (Z.to_nat (MAX_FILENAME_LENGTH - 1));
                  line_number := line_buffer; type := MEMORY_TYPE_TEMPORARY;
                  next := block_array |}).
  set (w1 := pushed (boot h) (5 * sizeof_int) file line_array MEMORY_TYPE_DYNAMIC
                    answer_array block_array fresh_array).
  set (w2 := pushed w1 50 file line_buffer MEMORY_TYPE_TEMPORARY
                    answer_buffer block_buffer fresh_buffer).
  assert (tidy w1 [(block_array, blk1)]) as Ht1.
  { apply (tidy_pushed (boot h) []); try done. by apply tidy_boot. }
  assert (tidy w2 [(block_buffer, blk2); (block_array, blk1)]) as Ht2.
  { by apply (tidy_pushed w1 [(block_array, blk1)]). }
  assert (forall f, Ascii.zero ∈ strncpy f file (Z.to_nat (MAX_FILENAME_LENGTH - 1))) as Hz.
  { intros f. unfold strncpy. apply elem_of_app. left. by apply strncpy_bytes_short. }
  unfold main, then_ at 1, total at 1.
  rewrite tool_alloc_ok by (done || (unfold sizeof_int; lia)). fold w1.
  unfold then_ at 1, total at 1.
  rewrite tool_alloc_ok by done. fold w2.
  unfold then_ at 1, total at 1.
  rewrite (fill_array_ok answer_array (5 * sizeof_int))
    by (lia || (unfold w2, w1, pushed; cbn [mheap]; rewrite !elem_of_cons; auto)).
  unfold then_ at 1, total at 1. unfold strcpy.
  rewrite (poke_ok answer_buffer 50)
    by ((unfold w2, w1, pushed; cbn [mheap]; rewrite !elem_of_cons; auto) || (vm_compute; discriminate)).
  unfold then_ at 1.
  rewrite (tool_report_eq fuel w2 [(block_buffer, blk2); (block_array, blk1)]);
    [|done|repeat constructor; apply Hz|vm_compute; discriminate|cbn [length]; lia].
  set (w3 := log w2 _).
  assert (tidy w3 [(block_buffer, blk2); (block_array, blk1)]) as Ht3
    by (by apply (tidy_same w2)).
  pose proof (tidy_NoDup _ _ Ht2) as Hnd. cbn [fmap list_fmap fst snd app] in Hnd.
  cbn [pointer blk1 blk2] in Hnd.
  apply NoDup_cons in Hnd as [Hd1 Hnd]. apply NoDup_cons in Hnd as [Hd2 Hnd].
  apply NoDup_cons in Hnd as [Hd3 _].
  apply not_elem_of_cons in Hd1 as [Hb2b1 Hd1].
  apply not_elem_of_cons in Hd1 as [Hb2a2 Hd1].
  apply not_elem_of_cons in Hd1 as [Hb2a1 _].
  apply not_elem_of_cons in Hd2 as [Hb1a2 Hd2].
  apply not_elem_of_cons in Hd2 as [Hb1a1 _].
  apply not_elem_of_cons in Hd3 as [Ha2a1 _].
  unfold then_ at 1.
  destruct (tool_free_hit fuel w3 [(block_buffer, blk2)] block_array blk1 [] file 225 Ht3)
    as (h1 & h2 & H1 & H2 & Hfree); [cbn [length]; lia|].
  pose proof (tidy_free_tracked w3 [(block_buffer, blk2)] block_array blk1 [] h1 h2
                Ht3 H1 H2) as Ht4.
  cbn [pointer blk1] in Hfree. rewrite Hfree. cbv beta iota.
  match goal with |- then_ _ _ ?w = _ => set (w4 := w) end.
  assert (tidy w4 [(block_buffer, with_next NULL blk2)]) as Ht4' by exact Ht4.
  unfold then_ at 1.
  destruct (tool_free_hit fuel w4 [] block_buffer (with_next NULL blk2) [] file 226 Ht4')
    as (h3 & h4 & H3 & H4 & Hfree'); [cbn [length]; lia|].
  pose proof (tidy_free_tracked w4 [] block_buffer (with_next NULL blk2) [] h3 h4
                Ht4' H3 H4) as Ht5.
  cbn [pointer with_next blk2] in Hfree'. rewrite Hfree'. cbv beta iota.
  match goal with |- then_ _ _ ?w = _ => set (w5 := w) end.
  assert (tidy w5 []) as Ht5' by exact Ht5.
  unfold then_ at 1.
  rewrite (tool_report_eq fuel w5 []); [|done|done|vm_compute; discriminate|cbn [length]; lia].
  unfold total, mret, M_ret. do 2 f_equal.
  assert (h4 = h) as ->.
  { unfold w3, log, w2, w1, pushed in H1. cbn [mheap boot] in H1.
    rewrite !release_skip, release_head in H1 by done. cbn [fmap option_fmap option_map] in H1.
    injection H1 as <-.
    rewrite !release_skip, release_head in H2 by done. cbn [fmap option_fmap option_map] in H2.
    injection H2 as <-.
    unfold w4 in H3. cbn [mheap] in H3. rewrite release_head in H3. injection H3 as <-.
    rewrite release_head in H4. by injection H4 as <-. }
  assert (tracking_blocks (globals w5) = ∅) as Hempty.
  { apply map_empty. intros a. apply eq_None_not_Some.
    rewrite (t_dom _ _ Ht5' a). by intros ?%elem_of_nil. }
  unfold log. f_equal.
  revert Hempty. unfold w5. cbn [globals tracking_blocks]. intros ->. done.
Qed.

(** How [safe_memory_allocate] ends for a size other than 0. *)
Lemma tool_alloc_outcome size filename line_number type answer answer_block fresh w :
  size <> 0 ->
  safe_memory_allocate size filename line_number type answer answer_block fresh w
  = Infeasible
  \/ ((answer = NULL \/ answer_block = NULL)
      /\ exists w', safe_memory_allocate size filename line_number type
                                         answer answer_block fresh w
                    = Exited EXIT_FAILURE w')
  \/ (answer <> NULL /\ fits (mheap w) answer size = true
      /\ answer_block <> NULL
      /\ fits ((answer, size) :: mheap w) answer_block sizeof_MemoryBlock = true
      /\ safe_memory_allocate size filename line_number type answer answer_block fresh w
         = Returned answer (pushed w size filename line_number type
                                   answer answer_block fresh)).
Proof.
  intros Hs.
  destruct (Z.eq_dec answer NULL) as [->|Ha].
  { right. left. split; [by left|]. eexists. by apply ToolFacts.tool_alloc_oom. }
  destruct (fits (mheap w) answer size) eqn:Hf.
  2:{ left. unfold safe_memory_allocate.
      destruct (Z.eqb_spec size 0) as [|_]; [done|].
      unfold mbind, M_bind, malloc.
      destruct (Z.eqb_spec answer NULL) as [|_]; [done|]. by rewrite Hf. }
  destruct (Z.eq_dec answer_block NULL) as [->|Hb].
  { right. left. split; [by right|]. eexists. by apply tool_alloc_no_block. }
  destruct (fits ((answer, size) :: mheap w) answer_block sizeof_MemoryBlock) eqn:Hfb.
  2:{ left. unfold safe_memory_allocate.
      destruct (Z.eqb_spec size 0) as [|_]; [done|].
      unfold mbind, M_bind, malloc. cbn [mheap globals trace].
      destruct (Z.eqb_spec answer NULL) as [|_]; [done|]. rewrite Hf.
      destruct (Z.eqb_spec answer NULL) as [|_]; [done|]. cbn [mheap globals trace].
      destruct (Z.eqb_spec answer_block NULL) as [|_]; [done|]. by rewrite Hfb. }
  right. right. repeat (split; [done|]). by apply tool_alloc_ok.
Qed.
End ToolMain.

(** X13. The linked-list tracker keeps its list well formed.  After any
    sequence of calls from program start in which [safe_memory_free] is
    never passed the address of a tracking block, the list from
    [g_memory_tracker] ends at [NULL] after at most one block per call, so
    that the loops over it end; the tracking blocks and the addresses they
    track are pairwise distinct live heap blocks, a tracking block taking
    [sizeof(MemoryBlock)] bytes and a tracked address the size recorded for
    it; and the program holds no tracking block outside the list. *)
Theorem tracking_list_kept (fuel : nat) (h : heap) (ops : list op) :
  heap_wf h = true -> (length ops < fuel)%nat -> proper fuel ops (boot h) ->
  exists out,
    run fuel ops (boot h) = Some out
    /\ forall w, out = Returned tt w ->
       exists l,
         chain (tracking_blocks (globals w)) (g_memory_tracker (globals w)) l
         /\ (length l <= length ops)%nat
         /\ NoDup (l.*1 ++ ((fun n => pointer n.2) <$> l))
         /\ footprint l ⊆+ mheap w
         /\ (forall a, is_Some (tracking_blocks (globals w) !! a) <-> a ∈ l.*1)
         /\ heap_wf (mheap w) = true.
Proof.
  intros Hh Hf Hp.
  destruct (run_tidy (fun _ => True) (fun _ => True) (fun _ _ _ => I)
              (fun _ _ _ _ _ _ _ _ _ => I) fuel ops (boot h) [] (tidy_boot h Hh))
    as (out & Hout & Hinv); [done|cbn [length]; lia|by apply Forall_true|done|].
  exists out. split; [done|]. intros w Hw.
  destruct (Hinv w Hw) as (l & Ht & _ & Hlen). exists l.
  split; [apply Ht|]. split; [done|]. split; [by apply (tidy_NoDup w)|].
  split; [apply Ht|]. split; apply Ht.
Qed.

Lemma tracking_list_kept_witness :
  exists out,
    run 8 (main_allocs ++ [Report; Free 4096 "memory_management_tool.c" 225; Report])
        (boot []) = Some out
    /\ forall w, out = Returned tt w ->
       exists l,
         chain (tracking_blocks (globals w)) (g_memory_tracker (globals w)) l
         /\ (length l <= length (main_allocs
                                 ++ [Report; Free 4096 "memory_management_tool.c" 225;
                                     Report]))%nat
         /\ NoDup (l.*1 ++ ((fun n => pointer n.2) <$> l))
         /\ footprint l ⊆+ mheap w
         /\ (forall a, is_Some (tracking_blocks (globals w) !! a) <-> a ∈ l.*1)
         /\ heap_wf (mheap w) = true.
Proof.
  apply (tracking_list_kept 8 []
           (main_allocs ++ [Report; Free 4096 "memory_management_tool.c" 225; Report]));
    [reflexivity|cbn [length app main_allocs]; lia|].
  vm_compute. tauto.
Defined.

(** X14. Freeing a tracked address takes exactly its tracking block out of
    the list.  In a state reached from program start, when the block at
    [c] of the list tracks the address passed, [safe_memory_free] returns
    without a diagnostic after two calls of [free], of the tracking block
    and then of the address; the heap loses those two blocks and no other,
    and the list is the one before without the block at [c], the block
    before it linked to the one after it. *)
Theorem tracked_free_unlinks (fuel : nat) (h : heap) (ops : list op) (w : world)
    (l1 : list (Z * MemoryBlock)) (c : Z) (b : MemoryBlock)
    (l2 : list (Z * MemoryBlock)) (filename : string) (line_number : Z) :
  heap_wf h = true -> (length ops < fuel)%nat -> proper fuel ops (boot h) ->
  run fuel ops (boot h) = Some (Returned tt w) ->
  chain (tracking_blocks (globals w)) (g_memory_tracker (globals w))
        (l1 ++ (c, b) :: l2) ->
  exists w',
    safe_memory_free fuel (pointer b) filename line_number w = Some (Returned tt w')
    /\ chain (tracking_blocks (globals w')) (g_memory_tracker (globals w'))
             (relink l1 (next b) ++ l2)
    /\ mheap w ≡ₚ (c, sizeof_MemoryBlock) :: (pointer b, size b) :: mheap w'
    /\ trace w' = trace w ++ [Ev_free c; Ev_free (pointer b)].
Proof.
  intros Hh Hf Hp Hrun Hch.
  destruct (reached_tidy fuel h ops w _ Hh Hf Hp Hrun Hch) as [Ht Hlen].
  rewrite length_app in Hlen. cbn [length] in Hlen.
  destruct (tool_free_hit fuel w l1 c b l2 filename line_number Ht)
    as (h1 & h2 & H1 & H2 & Hfree); [lia|].
  eexists. split; [exact Hfree|].
  pose proof (tidy_free_tracked w l1 c b l2 h1 h2 Ht H1 H2) as Ht'.
  split; [apply (t_chain _ _ Ht')|]. split; [|done].
  cbn [mheap].
  destruct (release_perm _ _ _ H1) as [s1 Hs1].
  destruct (release_perm _ _ _ H2) as [s2 Hs2].
  assert ((c, b) ∈ l1 ++ (c, b) :: l2) as Hin by (rewrite elem_of_app, elem_of_cons; auto).
  assert (c ∈ (l1 ++ (c, b) :: l2).*1) as Hcin.
  { apply list_elem_of_fmap. by exists (c, b). }
  pose proof (tidy_node_live _ _ _ Ht Hcin) as Hcl.
  pose proof (tidy_payload_live _ _ _ Ht Hin) as Hpl. cbn [snd] in Hpl.
  assert (s1 = sizeof_MemoryBlock) as ->.
  { apply (heap_wf_one_extent (mheap w) c); [apply Ht| |done].
    rewrite Hs1. by left. }
  assert (s2 = size b) as ->.
  { apply (heap_wf_one_extent (mheap w) (pointer b)); [apply Ht| |done].
    rewrite Hs1, Hs2. right. by left. }
  by rewrite Hs1, Hs2.
Qed.

Lemma tracked_free_unlinks_witness :
  exists w',
    safe_memory_free 8 4096 "memory_management_tool.c" 225 main_state
    = Some (Returned tt w')
    /\ chain (tracking_blocks (globals w')) (g_memory_tracker (globals w'))
             [(16384, with_next NULL second_block)]
    /\ mheap main_state ≡ₚ (8192, sizeof_MemoryBlock) :: (4096, 20) :: mheap w'
    /\ trace w' = trace main_state ++ [Ev_free 8192; Ev_free 4096].
Proof.
  apply (tracked_free_unlinks 8 [] main_allocs main_state
           [(16384, second_block)] 8192 first_block []
           "memory_management_tool.c" 225);
    [reflexivity|cbn [length main_allocs]; lia|vm_compute; tauto
    |apply main_allocs_run|apply main_state_chain].
Defined.

(** X15. Freeing an address the list does not track goes unnoticed.  In a
    state reached from program start, for an address other than [NULL] that
    no block of the list tracks, [safe_memory_free] writes no diagnostic and
    passes the address to [free]: when it is not the address of a live
    block (never allocated, or freed before) the behaviour is undefined;
    when it is a live block other than a tracking block, the block is
    released and the list stays as it is. *)
Theorem untracked_free_unnoticed (fuel : nat) (h : heap) (ops : list op) (w : world)
    (l : list (Z * MemoryBlock)) (memory : Z) (filename : string) (line_number : Z) :
  heap_wf h = true -> (length ops < fuel)%nat -> proper fuel ops (boot h) ->
  run fuel ops (boot h) = Some (Returned tt w) ->
  chain (tracking_blocks (globals w)) (g_memory_tracker (globals w)) l ->
  memory <> NULL -> Forall (fun n => pointer n.2 <> memory) l ->
  (release memory (mheap w) = None ->
   safe_memory_free fuel memory filename line_number w
   = Some (Undefined (log w [Ev_free memory])))
  /\ (forall h', release memory (mheap w) = Some h' -> memory ∉ l.*1 ->
      safe_memory_free fuel memory filename line_number w
      = Some (Returned tt (Machine (globals w) h' (trace w ++ [Ev_free memory])))).
Proof.
  intros Hh Hf Hp Hrun Hch Hm Hall.
  destruct (reached_tidy fuel h ops w _ Hh Hf Hp Hrun Hch) as [Ht Hlen].
  rewrite (tool_free_miss fuel w l) by (done || lia). split.
  - intros Hrel. by rewrite free_block_wild.
  - intros h' Hrel Hno. rewrite (free_block_eq _ _ h') by done.
    assert (tracking_blocks (globals w) !! memory = None) as Hnone.
    { apply eq_None_not_Some. by rewrite (t_dom _ _ Ht). }
    rewrite (delete_id _ _ Hnone). by destruct (globals w).
Qed.

Lemma untracked_free_unnoticed_witness :
  (release 20480 (mheap main_state) = None ->
   safe_memory_free 8 20480 "memory_management_tool.c" 225 main_state
   = Some (Undefined (log main_state [Ev_free 20480])))
  /\ (forall h', release 20480 (mheap main_state) = Some h' ->
      20480 ∉ [(16384, second_block); (8192, first_block)].*1 ->
      safe_memory_free 8 20480 "memory_management_tool.c" 225 main_state
      = Some (Returned tt (Machine (globals main_state) h'
                             (trace main_state ++ [Ev_free 20480])))).
Proof.
  apply (untracked_free_unnoticed 8 [] main_allocs main_state
           [(16384, second_block); (8192, first_block)] 20480
           "memory_management_tool.c" 225);
    [reflexivity|cbn [length main_allocs]; lia|vm_compute; tauto
    |apply main_allocs_run|apply main_state_chain|done|].
  repeat constructor; cbn; lia.
Defined.

(** X16. A double free is not caught.  In a state reached from program
    start, freeing a tracked address returns, and freeing the same address
    again finds no tracking block for it, writes no diagnostic and passes
    the address, no longer live, to [free]: the behaviour is undefined. *)
Theorem second_free_undefined (fuel : nat) (h : heap) (ops : list op) (w : world)
    (l1 : list (Z * MemoryBlock)) (c : Z) (b : MemoryBlock)
    (l2 : list (Z * MemoryBlock)) (filename file' : string) (line_number line' : Z) :
  heap_wf h = true -> (length ops < fuel)%nat -> proper fuel ops (boot h) ->
  run fuel ops (boot h) = Some (Returned tt w) ->
  chain (tracking_blocks (globals w)) (g_memory_tracker (globals w))
        (l1 ++ (c, b) :: l2) ->
  exists w',
    safe_memory_free fuel (pointer b) filename line_number w = Some (Returned tt w')
    /\ safe_memory_free fuel (pointer b) file' line' w'
       = Some (Undefined (log w' [Ev_free (pointer b)])).
Proof.
  intros Hh Hf Hp Hrun Hch.
  destruct (reached_tidy fuel h ops w _ Hh Hf Hp Hrun Hch) as [Ht Hlen].
  rewrite length_app in Hlen. cbn [length] in Hlen.
  destruct (tool_free_hit fuel w l1 c b l2 filename line_number Ht)
    as (h1 & h2 & H1 & H2 & Hfree); [lia|].
  eexists. split; [exact Hfree|].
  pose proof (tidy_free_tracked w l1 c b l2 h1 h2 Ht H1 H2) as Ht'.
  assert (release (pointer b) h2 = None) as Hgone.
  { apply release_absent.
    destruct (release_perm _ _ _ H1) as [s1 Hs1].
    destruct (release_perm _ _ _ H2) as [s2 Hs2].
    pose proof (heap_wf_NoDup _ (t_heap _ _ Ht)) as Hnd.
    rewrite Hs1, Hs2, !fmap_cons in Hnd. cbn [fst] in Hnd.
    apply NoDup_cons in Hnd as [_ Hnd]. by apply NoDup_cons in Hnd as [? _]. }
  assert (pointer b <> NULL) as Hb.
  { assert ((c, b) ∈ l1 ++ (c, b) :: l2) as Hin
      by (rewrite elem_of_app, elem_of_cons; auto).
    pose proof (tidy_sizes _ _ Ht) as (Hsz & _ & _). rewrite Forall_forall in Hsz.
    destruct (Hsz _ Hin) as (_ & ? & _). cbn [snd] in *. unfold NULL. lia. }
  rewrite (tool_free_miss fuel _ (relink l1 (next b) ++ l2)).
  - by rewrite free_block_wild.
  - done.
  - done.
  - apply Forall_forall. intros n Hn Heq.
    pose proof (tidy_payload_live _ _ _ Ht' Hn) as Hlive. cbn [mheap] in Hlive.
    destruct (elem_of_live _ _ _ Hlive) as [h3 H3]. rewrite Heq, Hgone in H3. done.
  - rewrite length_app, length_relink. lia.
Qed.

Lemma second_free_undefined_witness :
  exists w',
    safe_memory_free 8 4096 "memory_management_tool.c" 225 main_state
    = Some (Returned tt w')
    /\ safe_memory_free 8 4096 "memory_management_tool.c" 226 w'
       = Some (Undefined (log w' [Ev_free 4096])).
Proof.
  apply (second_free_undefined 8 [] main_allocs main_state
           [(16384, second_block)] 8192 first_block []
           "memory_management_tool.c" "memory_management_tool.c" 225 226);
    [reflexivity|cbn [length main_allocs]; lia|vm_compute; tauto
    |apply main_allocs_run|apply main_state_chain].
Defined.

(** X17. The report of the linked-list tracker.  After a sequence of fewer
    than 2^31 calls from program start, none of them a free of the address
    of a tracking block and each allocation made with a file name of fewer
    than 255 characters, [generate_memory_report] returns with the list and
    the heap unchanged: it prints the header, one record for each block of
    the list in the order of the list (address, size, file name, line and
    type as a number), and the summary with the number of blocks and the
    sum of their sizes, which has not wrapped. *)
Theorem report_lists_blocks (fuel : nat) (h : heap) (ops : list op) (w : world)
    (l : list (Z * MemoryBlock)) :
  heap_wf h = true -> (length ops < fuel)%nat -> proper fuel ops (boot h) ->
  Forall short_named ops -> Z.of_nat (length ops) <= INT_MAX ->
  run fuel ops (boot h) = Some (Returned tt w) ->
  chain (tracking_blocks (globals w)) (g_memory_tracker (globals w)) l ->
  generate_memory_report fuel w
  = Some (Returned tt
      (Machine (globals w) (mheap w)
         (trace w
          ++ Ev_printf stdout "\n--- MEMORY ALLOCATION REPORT ---\n" []
             :: (block_record <$> l.*2)
             ++ [Ev_printf stdout
                   "Summary:\n  Total Blocks: %d\n  Total Memory Allocated: %zu bytes\n"
                   [arg_d (Z.of_nat (length l)); arg_zu (listed_bytes l.*2)]])))
  /\ listed_bytes l.*2 < 2 ^ SIZE_WIDTH.
Proof.
  intros Hh Hf Hp Hnamed Hmax Hrun Hch.
  destruct (reached_named fuel h ops w Hh Hf Hp Hnamed Hrun) as (l' & Ht & Hz & Hlen).
  rewrite (chain_unique _ _ _ _ Hch (t_chain _ _ Ht)). split.
  - rewrite (tool_report_eq fuel w l') by (done || lia). done.
  - pose proof (tidy_sizes _ _ Ht) as (_ & Hsum & Hlt).
    unfold sizeof_MemoryBlock in Hsum. lia.
Qed.

Lemma report_lists_blocks_witness :
  generate_memory_report 8 main_state
  = Some (Returned tt
      (Machine (globals main_state) (mheap main_state)
         (trace main_state
          ++ Ev_printf stdout "\n--- MEMORY ALLOCATION REPORT ---\n" []
             :: (block_record <$> [second_block; first_block])
             ++ [Ev_printf stdout
                   "Summary:\n  Total Blocks: %d\n  Total Memory Allocated: %zu bytes\n"
                   [arg_d 2; arg_zu 70]])))
  /\ 70 < 2 ^ SIZE_WIDTH.
Proof.
  apply (report_lists_blocks 8 [] main_allocs main_state
           [(16384, second_block); (8192, first_block)]);
    [reflexivity|cbn [length main_allocs]; lia|vm_compute; tauto
    |repeat constructor; cbn; lia|vm_compute; discriminate
    |apply main_allocs_run|apply main_state_chain].
Defined.

(** X18. Allocate then free is a round trip.  In a state reached from
    program start, a successful [safe_memory_allocate] followed by
    [safe_memory_free] of the address it returned puts back
    [g_memory_tracker], the tracking blocks and the heap exactly; on the
    trace it leaves the two [malloc] calls and the two [free] calls, the
    tracking block freed first. *)
Theorem tool_round_trip (fuel : nat) (h : heap) (ops : list op) (w : world)
    (size : Z) (filename : string) (line_number : Z) (type : MemoryAllocationType)
    (answer answer_block : Z) (fresh : list ascii) (file' : string) (line' : Z) :
  heap_wf h = true -> (length ops < fuel)%nat -> proper fuel ops (boot h) ->
  run fuel ops (boot h) = Some (Returned tt w) ->
  answer <> NULL -> fits (mheap w) answer size = true ->
  answer_block <> NULL ->
  fits ((answer, size) :: mheap w) answer_block sizeof_MemoryBlock = true ->
  exists w1,
    safe_memory_allocate size filename line_number type answer answer_block fresh w
    = Returned answer w1
    /\ safe_memory_free fuel answer file' line' w1
       = Some (Returned tt
           (Machine (globals w) (mheap w)
              (trace w ++ [Ev_malloc size answer;
                           Ev_malloc sizeof_MemoryBlock answer_block;
                           Ev_free answer_block; Ev_free answer]))).
Proof.
  intros Hh Hf Hp Hrun Ha Hfa Hb Hfb.
  destruct (reached_some fuel h ops w Hh Hf Hp Hrun) as (l & Ht & Hlen).
  assert (size <> 0) as Hs by (apply fits_spec in Hfa; lia).
  eexists. split; [by apply tool_alloc_ok|].
  pose proof (tidy_pushed w l size filename line_number type answer answer_block fresh
                Ht Hfa Hb Hfb) as Ht1.
  set (new := {| pointer := answer; size := size;
                 filename := strncpy fresh filename (Z.to_nat (MAX_FILENAME_LENGTH - 1));
                 line_number := line_number; type := type;
                 next := g_memory_tracker (globals w) |}) in *.
  destruct (tool_free_hit fuel _ [] answer_block new l file' line' Ht1)
    as (h1 & h2 & H1 & H2 & Hfree); [cbn [length]; lia|].
  cbn [pointer new] in Hfree, H2. fold new in Hfree. rewrite Hfree.
  unfold pushed in H1. cbn [mheap] in H1. rewrite release_head in H1.
  injection H1 as <-. rewrite release_head in H2. injection H2 as <-.
  change (last_address NULL [] =? NULL) with true. cbn iota.
  unfold pushed. cbn [globals trace tracking_blocks g_memory_tracker next new].
  destruct (tidy_fits_fresh w l answer size Ht Hfa) as [Hna _].
  assert (answer_block ∉ l.*1) as Hnb.
  { intros Hin%(tidy_node_live w l _ Ht).
    assert (heap_wf ((answer, size) :: mheap w) = true) as Hw1.
    { cbn [heap_wf fst snd]. by rewrite Hfa, (t_heap _ _ Ht). }
    apply (fits_fresh _ _ _ _ _ Hfb Hw1 (proj2 (elem_of_cons _ _ _) (or_intror Hin))).
    done. }
  rewrite delete_insert_id by (apply eq_None_not_Some; by rewrite (t_dom _ _ Ht)).
  rewrite delete_id by (apply eq_None_not_Some; by rewrite (t_dom _ _ Ht)).
  rewrite <- app_assoc. cbn [app]. by destruct (globals w).
Qed.

Lemma tool_round_trip_witness :
  exists w1,
    safe_memory_allocate 24 "memory_management_tool.c" 300 MEMORY_TYPE_STATIC
                         20480 24576 (replicate 256 "x"%char) main_state
    = Returned 20480 w1
    /\ safe_memory_free 8 20480 "memory_management_tool.c" 301 w1
       = Some (Returned tt
           (Machine (globals main_state) (mheap main_state)
              (trace main_state ++ [Ev_malloc 24 20480;
                                    Ev_malloc sizeof_MemoryBlock 24576;
                                    Ev_free 24576; Ev_free 20480]))).
Proof.
  apply (tool_round_trip 8 [] main_allocs main_state 24 "memory_management_tool.c" 300
           MEMORY_TYPE_STATIC 20480 24576 (replicate 256 "x"%char)
           "memory_management_tool.c" 301);
    [reflexivity|cbn [length main_allocs]; lia|vm_compute; tauto
    |apply main_allocs_run|done|reflexivity|done|reflexivity].
Defined.

(** X19. When [malloc] fails for the tracking block, [safe_memory_allocate]
    of the linked-list tracker frees the memory it has just obtained, writes
    its diagnostic to standard error and ends the process with
    [EXIT_FAILURE]: the heap and the list are as before the call. *)
Theorem tracking_block_failure (w : world) (size : Z) (filename : string)
    (line_number : Z) (type : MemoryAllocationType) (answer : Z) (fresh : list ascii) :
  size <> 0 -> answer <> NULL -> fits (mheap w) answer size = true ->
  safe_memory_allocate size filename line_number type answer NULL fresh w
  = Exited EXIT_FAILURE
      (Machine (globals w) (mheap w)
         (trace w ++ [Ev_malloc size answer; Ev_malloc sizeof_MemoryBlock NULL;
                      Ev_free answer;
                      Ev_printf stderr "CRITICAL: Tracking block allocation failed\n" []])).
Proof. apply tool_alloc_no_block. Qed.

Lemma tracking_block_failure_witness :
  safe_memory_allocate 24 "memory_management_tool.c" 300 MEMORY_TYPE_STATIC 20480 NULL
                       (replicate 256 "x"%char) main_state
  = Exited EXIT_FAILURE
      (Machine (globals main_state) (mheap main_state)
         (trace main_state
          ++ [Ev_malloc 24 20480; Ev_malloc sizeof_MemoryBlock NULL; Ev_free 20480;
              Ev_printf stderr "CRITICAL: Tracking block allocation failed\n" []])).
Proof.
  apply (tracking_block_failure main_state 24 "memory_management_tool.c" 300
           MEMORY_TYPE_STATIC 20480 (replicate 256 "x"%char)); [done|done|reflexivity].
Defined.

(** X20. The linked-list tracker does not terminate the file name it
    stores.  [strncpy] writes [MAX_FILENAME_LENGTH - 1] bytes and the last
    byte of the buffer keeps what [malloc] left there; so when an
    allocation is made with a file name of 255 or more characters into a
    tracking block whose bytes from offset 255 on are not zero, the
    allocation succeeds and the next [generate_memory_report] prints its
    header and then reads the stored name past the end of its buffer: the
    behaviour is undefined. *)
Theorem long_name_report_undefined (fuel : nat) (h : heap) (ops : list op) (w : world)
    (size : Z) (filename : string) (line_number : Z) (type : MemoryAllocationType)
    (answer answer_block : Z) (fresh : list ascii) :
  heap_wf h = true -> (S (length ops) < fuel)%nat -> proper fuel ops (boot h) ->
  run fuel ops (boot h) = Some (Returned tt w) ->
  answer <> NULL -> fits (mheap w) answer size = true ->
  answer_block <> NULL ->
  fits ((answer, size) :: mheap w) answer_block sizeof_MemoryBlock = true ->
  (Z.to_nat (MAX_FILENAME_LENGTH - 1) <= String.length filename)%nat ->
  Ascii.zero ∉ list_ascii_of_string filename ->
  Ascii.zero ∉ drop (Z.to_nat (MAX_FILENAME_LENGTH - 1)) fresh ->
  exists w1,
    safe_memory_allocate size filename line_number type answer answer_block fresh w
    = Returned answer w1
    /\ generate_memory_report fuel w1
       = Some (Undefined
                 (log w1 [Ev_printf stdout "\n--- MEMORY ALLOCATION REPORT ---\n" []])).
Proof.
  intros Hh Hf Hp Hrun Ha Hfa Hb Hfb Hlong Hname Hfresh.
  destruct (reached_some fuel h ops w Hh) as (l & Ht & Hlen); [lia|done|done|].
  assert (size <> 0) as Hs by (apply fits_spec in Hfa; lia).
  eexists. split; [by apply tool_alloc_ok|].
  pose proof (tidy_pushed w l size filename line_number type answer answer_block fresh
                Ht Hfa Hb Hfb) as Ht1.
  unfold generate_memory_report.
  rewrite (chain_walk _ _ _ fuel (t_chain _ _ Ht1)) by (cbn [length]; lia).
  rewrite fmap_cons. cbn [snd report_blocks].
  f_equal. unfold mbind at 1, M_bind at 1. step_t.
  unfold report_block. cbn [Tool.filename].
  rewrite bool_decide_eq_false_2; [done|].
  unfold strncpy. rewrite elem_of_app. intros [Hin|Hin]; [|done].
  by apply (strncpy_bytes_long filename _ Hname Hlong).
Qed.

Lemma long_name_report_undefined_witness :
  exists w1,
    safe_memory_allocate 24 long_name 300 MEMORY_TYPE_STATIC 20480 24576
                         (replicate 256 "x"%char) main_state
    = Returned 20480 w1
    /\ generate_memory_report 8 w1
       = Some (Undefined
                 (log w1 [Ev_printf stdout "\n--- MEMORY ALLOCATION REPORT ---\n" []])).
Proof.
  apply (long_name_report_undefined 8 [] main_allocs main_state 24 long_name 300
           MEMORY_TYPE_STATIC 20480 24576 (replicate 256 "x"%char));
    [reflexivity|cbn [length main_allocs]; lia|vm_compute; tauto
    |apply main_allocs_run|done|reflexivity|done|reflexivity
    |vm_compute; lia| |].
  - unfold long_name. rewrite list_ascii_of_string_of_list_ascii.
    by intros [? _]%elem_of_replicate.
  - rewrite drop_replicate. by intros [? _]%elem_of_replicate.
Defined.

(** X21. The demonstration of memory_management_tool.c runs clean.  From
    program start on any well-formed heap, when the four [malloc] calls
    succeed and [__FILE__] has fewer than 255 characters, [main] returns
    [EXIT_SUCCESS]: its writes to the array and the buffer stay inside the
    blocks it was given, the first report lists the buffer and then the
    array with a total of 70 bytes in 2 blocks, each [DEALLOCATE] frees the
    tracking block and then the memory, the second report lists nothing,
    and at the end the list is empty and the heap is the one at start. *)
Theorem main_runs_clean (fuel : nat) (h : heap) (file : string)
    (line_array line_buffer : Z)
    (answer_array block_array : Z) (fresh_array : list ascii)
    (answer_buffer block_buffer : Z) (fresh_buffer : list ascii) :
  heap_wf h = true -> (2 < fuel)%nat ->
  (String.length file < Z.to_nat (MAX_FILENAME_LENGTH - 1))%nat ->
  answer_array <> NULL -> fits h answer_array (5 * sizeof_int) = true ->
  block_array <> NULL ->
  fits ((answer_array, 5 * sizeof_int) :: h) block_array sizeof_MemoryBlock = true ->
  answer_buffer <> NULL ->
  fits ((block_array, sizeof_MemoryBlock) :: (answer_array, 5 * sizeof_int) :: h)
       answer_buffer 50 = true ->
  block_buffer <> NULL ->
  fits ((answer_buffer, 50) :: (block_array, sizeof_MemoryBlock)
        :: (answer_array, 5 * sizeof_int) :: h) block_buffer sizeof_MemoryBlock = true ->
  main fuel file line_array line_buffer answer_array block_array fresh_array
       answer_buffer block_buffer fresh_buffer (boot h)
  = Some (Returned EXIT_SUCCESS
      (Machine {| g_memory_tracker := NULL; tracking_blocks := ∅ |} h
         ([Ev_malloc (5 * sizeof_int) answer_array;
           Ev_malloc sizeof_MemoryBlock block_array;
           Ev_malloc 50 answer_buffer;
           Ev_malloc sizeof_MemoryBlock block_buffer;
           Ev_printf stdout "\n--- MEMORY ALLOCATION REPORT ---\n" [];
           block_record
             {| pointer := answer_buffer; size := 50;
                filename := strncpy fresh_buffer file (Z.to_nat (MAX_FILENAME_LENGTH - 1));
                line_number := line_buffer; type := MEMORY_TYPE_TEMPORARY;
                next := block_array |};
           block_record
             {| pointer := answer_array; size := 5 * sizeof_int;
                filename := strncpy fresh_array file (Z.to_nat (MAX_FILENAME_LENGTH - 1));
                line_number := line_array; type := MEMORY_TYPE_DYNAMIC;
                next := NULL |};
           Ev_printf stdout
             "Summary:\n  Total Blocks: %d\n  Total Memory Allocated: %zu bytes\n"
             [arg_d 2; arg_zu 70];
           Ev_free block_array; Ev_free answer_array;
           Ev_free block_buffer; Ev_free answer_buffer;
           Ev_printf stdout "\n--- MEMORY ALLOCATION REPORT ---\n" [];
           Ev_printf stdout
             "Summary:\n  Total Blocks: %d\n  Total Memory Allocated: %zu bytes\n"
             [arg_d 0; arg_zu 0]]))).
Proof. apply main_returns_eq. Qed.

Lemma main_runs_clean_witness :
  main 3 "memory_management_tool.c" 205 210 4096 8192 (replicate 256 "x"%char)
       12288 16384 (replicate 256 "x"%char) (boot [])
  = Some (Returned EXIT_SUCCESS
      (Machine {| g_memory_tracker := NULL; tracking_blocks := ∅ |} []
         ([Ev_malloc (5 * sizeof_int) 4096;
           Ev_malloc sizeof_MemoryBlock 8192;
           Ev_malloc 50 12288;
           Ev_malloc sizeof_MemoryBlock 16384;
           Ev_printf stdout "\n--- MEMORY ALLOCATION REPORT ---\n" [];
           block_record second_block;
           block_record first_block;
           Ev_printf stdout
             "Summary:\n  Total Blocks: %d\n  Total Memory Allocated: %zu bytes\n"
             [arg_d 2; arg_zu 70];
           Ev_free 8192; Ev_free 4096; Ev_free 16384; Ev_free 12288;
           Ev_printf stdout "\n--- MEMORY ALLOCATION REPORT ---\n" [];
           Ev_printf stdout
             "Summary:\n  Total Blocks: %d\n  Total Memory Allocated: %zu bytes\n"
             [arg_d 0; arg_zu 0]]))).
Proof.
  apply (main_runs_clean 3 [] "memory_management_tool.c" 205 210
           4096 8192 (replicate 256 "x"%char) 12288 16384 (replicate 256 "x"%char));
    [reflexivity|lia|vm_compute; lia|done|reflexivity|done|reflexivity
    |done|reflexivity|done|reflexivity].
Defined.

(** X22. The demonstration of memory_management_tool.c has no undefined
    behaviour and leaks nothing.  From program start on any well-formed
    heap, with [__FILE__] of fewer than 255 characters and whatever the
    allocator answers, [main] ends in one of two ways: it returns
    [EXIT_SUCCESS] with the list empty and the heap as at start, or, when
    one of the four [malloc] calls fails, it ends the process with
    [EXIT_FAILURE]. *)
Theorem main_never_undefined (fuel : nat) (h : heap) (file : string)
    (line_array line_buffer : Z)
    (answer_array block_array : Z) (fresh_array : list ascii)
    (answer_buffer block_buffer : Z) (fresh_buffer : list ascii) :
  heap_wf h = true -> (2 < fuel)%nat ->
  (String.length file < Z.to_nat (MAX_FILENAME_LENGTH - 1))%nat ->
  exists out,
    main fuel file line_array line_buffer answer_array block_array fresh_array
         answer_buffer block_buffer fresh_buffer (boot h) = Some out
    /\ match out with
       | Returned code w =>
           code = EXIT_SUCCESS /\ mheap w = h /\ globals w = globals (boot h)
       | Exited code _ =>
           code = EXIT_FAILURE
           /\ (answer_array = NULL \/ block_array = NULL
               \/ answer_buffer = NULL \/ block_buffer = NULL)
       | Undefined _ => False
       | Infeasible => True
       end.
Proof.
  intros Hh Hfuel Hfile.
  assert (5 * sizeof_int <> 0) as Hs1 by done.
  destruct (tool_alloc_outcome (5 * sizeof_int) file line_array MEMORY_TYPE_DYNAMIC
              answer_array block_array fresh_array (boot h) Hs1)
    as [Ha|[[Hnull [w' Ha]]|(Ha1 & Hfa1 & Hb1 & Hfb1 & Ha)]].
  { exists Infeasible. split; [|done]. unfold main, then_ at 1, total at 1. by rewrite Ha. }
  { exists (Exited EXIT_FAILURE w'). split; [|split; [done|tauto]].
    unfold main, then_ at 1, total at 1. by rewrite Ha. }
  assert (50 <> 0) as Hs2 by done.
  destruct (tool_alloc_outcome 50 file line_buffer MEMORY_TYPE_TEMPORARY
              answer_buffer block_buffer fresh_buffer
              (pushed (boot h) (5 * sizeof_int) file line_array MEMORY_TYPE_DYNAMIC
                      answer_array block_array fresh_array) Hs2)
    as [Hb|[[Hnull [w' Hb]]|(Ha2 & Hfa2 & Hb2 & Hfb2 & Hb)]].
  { exists Infeasible. split; [|done]. unfold main, then_ at 1, total at 1. rewrite Ha.
    unfold then_ at 1, total at 1. by rewrite Hb. }
  { exists (Exited EXIT_FAILURE w'). split; [|split; [done|tauto]].
    unfold main, then_ at 1, total at 1. rewrite Ha.
    unfold then_ at 1, total at 1. by rewrite Hb. }
  eexists. split; [by apply main_returns_eq|]. done.
Qed.

Lemma main_never_undefined_witness :
  exists out,
    main 3 "memory_management_tool.c" 205 210 4096 8192 (replicate 256 "x"%char)
         12288 NULL (replicate 256 "x"%char) (boot []) = Some out
    /\ match out with
       | Returned code w =>
           code = EXIT_SUCCESS /\ mheap w = [] /\ globals w = globals (boot [])
       | Exited code _ =>
           code = EXIT_FAILURE
           /\ (4096 = NULL \/ 8192 = NULL \/ 12288 = NULL \/ NULL = NULL)
       | Undefined _ => False
       | Infeasible => True
       end.
Proof.
  apply (main_never_undefined 3 [] "memory_management_tool.c" 205 210
           4096 8192 (replicate 256 "x"%char) 12288 NULL (replicate 256 "x"%char));
    [reflexivity|lia|vm_compute; lia].
Defined.

Section Improper.
Implicit Types (w : world) (l : list (Z * MemoryBlock)).

(** A walk down a list one of whose tracking blocks is gone. *)
Lemma chain_walk_wild g l1 : forall a c b l2 (fuel : nat),
  chain g a (l1 ++ (c, b) :: l2) -> c ∉ l1.*1 -> (length l1 < fuel)%nat ->
  walk fuel (delete c g) a = Some (l1.*2, Wild c).
Proof.
  induction l1 as [|[x bx] l1 IH]; intros a c b l2 [|fuel] Hl Hc Hf;
    cbn [length] in Hf; try lia; cbn [walk].
  - apply chain_cons_inv in Hl as (-> & Hc0 & _ & _).
    destruct (Z.eqb_spec c NULL) as [|_]; [done|]. by rewrite lookup_delete_eq.
  - cbn [app] in Hl. apply chain_cons_inv in Hl as (-> & Hx0 & Hb & Hrest).
    rewrite fmap_cons in Hc. cbn [fst] in Hc. apply not_elem_of_cons in Hc as [Hcx Hc].
    destruct (Z.eqb_spec x NULL) as [|_]; [done|].
    rewrite lookup_delete_ne by done. rewrite Hb.
    rewrite (IH _ c b l2) by (done || lia). done.
Qed.

Lemma report_blocks_ends bs : forall acc w,
  (exists acc' w', report_blocks bs acc w = Returned acc' w')
  \/ (exists w', report_blocks bs acc w = Undefined w').
Proof.
  induction bs as [|b bs IH]; intros acc w; cbn [report_blocks].
  - left. by eexists _, _.
  - unfold mbind at 1, M_bind at 1. unfold report_block.
    destruct (bool_decide (Ascii.zero ∈ Tool.filename b)); [|right; by eexists].
    step_t. destruct (acc.2 =? INT_MAX); [right; by eexists|]. apply IH.
Qed.
End Improper.

(** X23. Freeing the address of a tracking block breaks the list.  In a
    state reached from program start, [safe_memory_free] of the address
    of a tracking block of the list finds no block tracking that address,
    frees it without a diagnostic and returns, leaving the list to run
    through freed memory: the next [generate_memory_report] reads the
    freed tracking block, and its behaviour is undefined. *)
Theorem freed_tracking_block_breaks_report (fuel : nat) (h : heap) (ops : list op)
    (w : world) (l1 : list (Z * MemoryBlock)) (c : Z) (b : MemoryBlock)
    (l2 : list (Z * MemoryBlock)) (filename : string) (line_number : Z) :
  heap_wf h = true -> (length ops < fuel)%nat -> proper fuel ops (boot h) ->
  run fuel ops (boot h) = Some (Returned tt w) ->
  chain (tracking_blocks (globals w)) (g_memory_tracker (globals w))
        (l1 ++ (c, b) :: l2) ->
  exists w',
    safe_memory_free fuel c filename line_number w = Some (Returned tt w')
    /\ trace w' = trace w ++ [Ev_free c]
    /\ exists s, generate_memory_report fuel w' = Some (Undefined s).
Proof.
  intros Hh Hf Hp Hrun Hch.
  destruct (reached_tidy fuel h ops w _ Hh Hf Hp Hrun Hch) as [Ht Hlen].
  assert ((c, b) ∈ l1 ++ (c, b) :: l2) as Hin by (rewrite elem_of_app, elem_of_cons; auto).
  assert (c ∈ (l1 ++ (c, b) :: l2).*1) as Hcin.
  { apply list_elem_of_fmap. by exists (c, b). }
  pose proof (tidy_sizes _ _ Ht) as (Hsz & _ & _). rewrite Forall_forall in Hsz.
  destruct (Hsz _ Hin) as (Hc & _ & _). cbn [fst] in Hc.
  pose proof (tidy_NoDup _ _ Ht) as Hnd.
  pose proof Hnd as (Hnodes & Hsep & _)%NoDup_app.
  destruct (elem_of_live _ _ _ (tidy_node_live _ _ _ Ht Hcin)) as [h1 H1].
  rewrite (tool_free_miss fuel w (l1 ++ (c, b) :: l2)); [|done|unfold NULL; lia| |lia].
  2:{ apply Forall_forall. intros n Hn Heq. apply (Hsep c Hcin).
      apply list_elem_of_fmap. by exists n. }
  rewrite (free_block_eq _ _ h1) by (done || (unfold NULL; lia)).
  eexists. split; [done|]. split; [done|].
  unfold generate_memory_report. cbn [globals tracking_blocks g_memory_tracker].
  rewrite (chain_walk_wild _ l1 _ c b l2 fuel Hch).
  - unfold mbind at 1, M_bind at 1. step_t. unfold mbind, M_bind.
    destruct (report_blocks_ends l1.*2 (0, 0)
                (Machine {| g_memory_tracker := g_memory_tracker (globals w);
                            tracking_blocks := delete c (tracking_blocks (globals w)) |}
                         h1 ((trace w ++ [Ev_free c])
                             ++ [Ev_printf stdout "\n--- MEMORY ALLOCATION REPORT ---\n" []])))
      as [(acc' & w' & ->)|(w' & ->)]; by eexists.
  - rewrite fmap_app, fmap_cons in Hnodes. cbn [fst] in Hnodes.
    apply NoDup_app in Hnodes as (_ & Hdis & _). intros Hc1.
    apply (Hdis c Hc1). by left.
  - rewrite length_app in Hlen. cbn [length] in Hlen. lia.
Qed.

Lemma freed_tracking_block_breaks_report_witness :
  exists w',
    safe_memory_free 8 8192 "memory_management_tool.c" 225 main_state
    = Some (Returned tt w')
    /\ trace w' = trace main_state ++ [Ev_free 8192]
    /\ exists s, generate_memory_report 8 w' = Some (Undefined s).
Proof.
  apply (freed_tracking_block_breaks_report 8 [] main_allocs main_state
           [(16384, second_block)] 8192 first_block []
           "memory_management_tool.c" 225);
    [reflexivity|cbn [length main_allocs]; lia|vm_compute; tauto
    |apply main_allocs_run|apply main_state_chain].
Defined.

End ToolMore.

(** ** The client of the fixed-table tracker *)

Module DemoMore.
Import Manager ManagerFacts Demo.

Section Calls.
Implicit Types (w : Manager.world) (s : Demo.world).

Lemma tracker_world_fresh w : tracker_world (fresh_program w) = w.
Proof. by destruct w. Qed.

(** Freeing the block a successful allocation recorded puts the table
    back, whatever was printed and stamped in between. *)
Lemma free_allocated w (t : Manager.world) i size filename line_number type answer
    file' line' :
  consistent w -> answer <> NULL -> fits (mheap w) answer size = true ->
  blocks (tracker_of w) !! i = Some zero_block ->
  tracker_of t
  = tracker_of (allocated w i zero_block size filename line_number type answer) ->
  mheap t = (answer, size) :: mheap w ->
  safe_memory_free answer file' line' t
  = Returned tt
      (Machine {| g_memory_tracker := tracker_of w;
                  static_timestamp := static_timestamp (globals t) |}
               (mheap w) (trace t ++ [Ev_free answer])).
Proof.
  intros Hc Ha Hf Hi Ht Hh.
  set (new := populate zero_block answer size filename line_number type
                (uint64_wrap (static_timestamp (globals w) + 1))).
  destruct (consistent_alloc w i zero_block answer size filename line_number type
              (uint64_wrap (static_timestamp (globals w) + 1)) Hc Ha Hf Hi eq_refl
              (tracker_of (allocated w i zero_block size filename line_number type answer))
              (static_timestamp (globals t)) (trace t)
              eq_refl eq_refl eq_refl) as (Hc1 & Hcnt & Htot).
  assert (blocks (tracker_of t) !! i = Some new) as Hi1.
  { rewrite Ht. unfold allocated, tracker_of. cbn [globals g_memory_tracker blocks].
    apply list_lookup_insert_eq. by eapply lookup_lt_Some. }
  assert (list_find (fun b => pointer b = answer) (blocks (tracker_of t)) = Some (i, new))
    as Hfind.
  { rewrite Ht. rewrite Ht in Hi1.
    apply (consistent_find _ i new _ Hc1); [done| |done]. exact Hi1. }
  rewrite (free_tracked _ _ _ _ i new) by done.
  rewrite Hh. cbn [release fst]. rewrite Z.eqb_refl.
  rewrite Ht. unfold tracker_of in *. rewrite Hcnt, Htot.
  unfold allocated. cbn [globals g_memory_tracker blocks Manager.size new populate].
  rewrite list_insert_insert_eq.
  rewrite (list_insert_id _ i zero_block) by done.
  replace (current_block_count (g_memory_tracker (globals w)) + 1 - 1)
    with (current_block_count (g_memory_tracker (globals w))) by lia.
  replace (total_allocated_memory (g_memory_tracker (globals w)) + size - size)
    with (total_allocated_memory (g_memory_tracker (globals w))) by lia.
  destruct (consistent_bounds w Hc) as [Hcb Htb]. unfold tracker_of in *.
  rewrite !size_t_wrap_id by (unfold MAX_TRACKED_BLOCKS, SIZE_WIDTH in *; lia).
  by destruct (g_memory_tracker (globals w)).
Qed.

Lemma alloc_slot w size filename line_number type answer :
  consistent w -> current_block_count (tracker_of w) < MAX_TRACKED_BLOCKS ->
  answer <> NULL -> fits (mheap w) answer size = true ->
  exists i,
    blocks (tracker_of w) !! i = Some zero_block
    /\ safe_memory_allocate size filename line_number type answer w
       = Returned answer (allocated w i zero_block size filename line_number type answer)
    /\ consistent (allocated w i zero_block size filename line_number type answer)
    /\ current_block_count
         (tracker_of (allocated w i zero_block size filename line_number type answer))
       = current_block_count (tracker_of w) + 1.
Proof.
  intros Hc Hlt Ha Hf.
  destruct (consistent_free_slot w Hc Hlt) as (i & b & Hfind).
  pose proof Hfind as (Hi & Hb & _)%list_find_Some.
  pose proof (c_clear w Hc i b Hi Hb) as ->.
  assert (size <> 0) as Hs by (apply fits_spec in Hf; lia).
  exists i. split; [done|]. split; [by apply alloc_ok|].
  destruct (consistent_alloc w i zero_block answer size filename line_number type
              (uint64_wrap (static_timestamp (globals w) + 1)) Hc Ha Hf Hi eq_refl
              (tracker_of (allocated w i zero_block size filename line_number type answer))
              (uint64_wrap (static_timestamp (globals w) + 1))
              (trace w ++ [Ev_malloc size answer])
              eq_refl eq_refl eq_refl) as (Hc1 & Hcnt & _).
  split; [exact Hc1|exact Hcnt].
Qed.

(** The second [ALLOCATE] of [create_example_struct] returning [NULL]. *)
Lemma alloc_null w size filename line_number type answer :
  size <> 0 ->
  MAX_TRACKED_BLOCKS <= current_block_count (tracker_of w) \/ answer = NULL ->
  exists es,
    safe_memory_allocate size filename line_number type answer w
    = Returned NULL (log w es)
    /\ es = (if MAX_TRACKED_BLOCKS <=? current_block_count (tracker_of w)
             then [Ev_printf stderr "ERROR: Memory tracker full\n" []]
             else [Ev_malloc size NULL;
                   Ev_printf stderr "CRITICAL: Allocation failed at %s:%d\n"
                             [arg_s filename; arg_d line_number]]).
Proof.
  intros Hs Hwhy.
  destruct (Z.leb_spec MAX_TRACKED_BLOCKS (current_block_count (tracker_of w))) as [Hfull|Hlt].
  - eexists. split; [by apply alloc_full|done].
  - destruct Hwhy as [?| ->]; [lia|]. eexists. split; [by apply alloc_oom|done].
Qed.
End Calls.

Section Structs.
Implicit Types (w : Manager.world) (s : Demo.world).

Lemma create_fails file line_struct line_name n answer_struct answer_name w :
  MAX_TRACKED_BLOCKS <= current_block_count (tracker_of w) \/ answer_struct = NULL ->
  create_example_struct file line_struct line_name n answer_struct answer_name
                        (fresh_program w)
  = Returned NULL
      (fresh_program
         (log w ((if MAX_TRACKED_BLOCKS <=? current_block_count (tracker_of w)
                  then [Ev_printf stderr "ERROR: Memory tracker full\n" []]
                  else [Ev_malloc sizeof_ExampleStruct NULL;
                        Ev_printf stderr "CRITICAL: Allocation failed at %s:%d\n"
                                  [arg_s file; arg_d line_struct]])
                 ++ [Ev_printf stderr "Failed to create structure\n" []]))).
Proof.
  intros Hwhy.
  destruct (alloc_null w sizeof_ExampleStruct file line_struct MEMORY_TYPE_DYNAMIC
              answer_struct) as (es & Heq & Hes); [done|done|].
  unfold create_example_struct. unfold mbind at 1, M_bind at 1. unfold call at 1.
  rewrite tracker_world_fresh, Heq. rewrite <- Hes.
  change (NULL =? NULL) with true. cbv beta iota.
  unfold mbind, M_bind, fprintf, emit, mret, M_ret, with_tracker, fresh_program, log.
  cbn [globals mheap trace manager structs strings]. by rewrite <- app_assoc.
Qed.

(** [create_example_struct] once its first [ALLOCATE] has succeeded. *)
Lemma create_second file line_struct line_name n answer_struct answer_name w :
  consistent w -> current_block_count (tracker_of w) < MAX_TRACKED_BLOCKS ->
  answer_struct <> NULL -> fits (mheap w) answer_struct sizeof_ExampleStruct = true ->
  exists i,
    blocks (tracker_of w) !! i = Some zero_block
    /\ consistent (allocated w i zero_block sizeof_ExampleStruct file line_struct
                             MEMORY_TYPE_DYNAMIC answer_struct)
    /\ current_block_count
         (tracker_of (allocated w i zero_block sizeof_ExampleStruct file line_struct
                                MEMORY_TYPE_DYNAMIC answer_struct))
       = current_block_count (tracker_of w) + 1
    /\ create_example_struct file line_struct line_name n answer_struct answer_name
                             (fresh_program w)
       = match safe_memory_allocate 50 file line_name MEMORY_TYPE_TEMPORARY answer_name
                 (allocated w i zero_block sizeof_ExampleStruct file line_struct
                            MEMORY_TYPE_DYNAMIC answer_struct) with
         | Returned name t =>
             let written :=
               {| manager := globals t;
                  structs :=
                    <[answer_struct :=
                        {| id := n; name := name;
                           value := PrimFloat.mul (Double.double_of_int n)
                                                  Double.double_3_14 |}]> ∅;
                  strings := ∅ |} in
             if name =? NULL then Undefined (Machine written (mheap t) (trace t))
             else Returned answer_struct
                    (Machine {| manager := globals t; structs := structs written;
                                strings :=
                                  <[name := snprintf_d 50 "Example Structure " n]> ∅ |}
                             (mheap t) (trace t))
         | Exited c t => Exited c (with_tracker (fresh_program w) t)
         | Undefined t => Undefined (with_tracker (fresh_program w) t)
         | Infeasible => Infeasible
         end.
Proof.
  intros Hc Hlt Ha Hf.
  destruct (alloc_slot w sizeof_ExampleStruct file line_struct MEMORY_TYPE_DYNAMIC
              answer_struct Hc Hlt Ha Hf) as (i & Hi & Heq & Hc1 & Hcnt).
  exists i. split; [done|]. split; [done|]. split; [done|].
  unfold create_example_struct. unfold mbind at 1, M_bind at 1. unfold call at 1.
  rewrite tracker_world_fresh, Heq.
  destruct (Z.eqb_spec answer_struct NULL) as [|_]; [done|].
  unfold mbind at 1, M_bind at 1. unfold call at 1.
  unfold with_tracker at 1. unfold tracker_world at 1.
  cbn [globals mheap trace manager].
  set (w1 := allocated w i zero_block sizeof_ExampleStruct file line_struct
                       MEMORY_TYPE_DYNAMIC answer_struct).
  assert (Machine (globals w1) (mheap w1) (trace w1) = w1) as -> by (by destruct w1).
  destruct (safe_memory_allocate 50 file line_name MEMORY_TYPE_TEMPORARY answer_name w1)
    as [name t|c t|t|]; try done.
  unfold mbind, M_bind, set_struct, set_string, get_globals, set_globals, undefined,
    mret, M_ret, with_tracker, fresh_program.
  cbn [globals mheap trace manager structs strings].
  by destruct (name =? NULL).
Qed.
End Structs.

(** X24. [create_example_struct] does not check its second allocation.  In
    a state of the tracker reached from program start in which the first
    [ALLOCATE] succeeds, when the second returns [NULL], because the first
    took the last free slot of the table or because [malloc] fails, the
    structure is written with a null [name] and [snprintf] is called on
    it: the behaviour is undefined, with the structure still allocated and
    tracked. *)
Theorem create_unchecked_name (h : heap) (ops : list op) (w : Manager.world)
    (file : string) (line_struct line_name n answer_struct answer_name : Z) :
  heap_wf h = true -> run ops (boot h) = Returned tt w ->
  current_block_count (tracker_of w) < MAX_TRACKED_BLOCKS ->
  answer_struct <> NULL -> fits (mheap w) answer_struct sizeof_ExampleStruct = true ->
  MAX_TRACKED_BLOCKS <= current_block_count (tracker_of w) + 1 \/ answer_name = NULL ->
  exists s,
    create_example_struct file line_struct line_name n answer_struct answer_name
                          (fresh_program w) = Undefined s
    /\ mheap s = (answer_struct, sizeof_ExampleStruct) :: mheap w
    /\ current_block_count (g_memory_tracker (manager (globals s)))
       = current_block_count (tracker_of w) + 1
    /\ structs (globals s) !! answer_struct
       = Some {| id := n; name := NULL;
                 value := PrimFloat.mul (Double.double_of_int n) Double.double_3_14 |}.
Proof.
  intros Hh Hrun Hlt Ha Hf Hwhy.
  pose proof (reachable_consistent h ops w Hh Hrun) as Hc.
  destruct (create_second file line_struct line_name n answer_struct answer_name w
              Hc Hlt Ha Hf) as (i & Hi & Hc1 & Hcnt & ->).
  set (w1 := allocated w i zero_block sizeof_ExampleStruct file line_struct
                       MEMORY_TYPE_DYNAMIC answer_struct) in *.
  destruct (alloc_null w1 50 file line_name MEMORY_TYPE_TEMPORARY answer_name)
    as (es & -> & _); [done|rewrite Hcnt; tauto|].
  change (NULL =? NULL) with true. cbv beta iota zeta.
  eexists. split; [done|]. cbn [mheap globals manager structs log].
  split; [done|]. split; [exact Hcnt|]. by rewrite lookup_insert_eq.
Qed.

Lemma create_unchecked_name_witness :
  exists s,
    create_example_struct "main.c" 25 36 1 16000 16032 (fresh_program (final (fill 999) []))
    = Undefined s
    /\ mheap s = (16000, sizeof_ExampleStruct) :: mheap (final (fill 999) [])
    /\ current_block_count (g_memory_tracker (manager (globals s)))
       = current_block_count (tracker_of (final (fill 999) [])) + 1
    /\ structs (globals s) !! 16000
       = Some {| id := 1; name := NULL;
                 value := PrimFloat.mul (Double.double_of_int 1) Double.double_3_14 |}.
Proof.
  apply (create_unchecked_name [] (fill 999) (final (fill 999) []) "main.c" 25 36 1
           16000 16032);
    [reflexivity|apply run_final; vm_compute; reflexivity|vm_compute; reflexivity
    |done|vm_compute; reflexivity|].
  left. vm_compute. discriminate.
Defined.

(** A structure created and freed. *)
Lemma create_then_free (h : heap) (ops : list op) (w : Manager.world)
    (file : string) (line_struct line_name n answer_struct answer_name : Z) :
  heap_wf h = true -> run ops (boot h) = Returned tt w ->
  current_block_count (tracker_of w) + 2 <= MAX_TRACKED_BLOCKS ->
  answer_struct <> NULL -> fits (mheap w) answer_struct sizeof_ExampleStruct = true ->
  answer_name <> NULL ->
  fits ((answer_struct, sizeof_ExampleStruct) :: mheap w) answer_name 50 = true ->
  exists s,
    create_example_struct file line_struct line_name n answer_struct answer_name
                          (fresh_program w) = Returned answer_struct s
    /\ structs (globals s) !! answer_struct
       = Some {| id := n; name := answer_name;
                 value := PrimFloat.mul (Double.double_of_int n) Double.double_3_14 |}
    /\ strings (globals s) !! answer_name = Some (snprintf_d 50 "Example Structure " n)
    /\ free_example_struct file answer_struct s
       = Returned tt
           (fresh_program
              (Machine
                 {| g_memory_tracker := tracker_of w;
                    static_timestamp :=
                      uint64_wrap (uint64_wrap (static_timestamp (globals w) + 1) + 1) |}
                 (mheap w)
                 (trace w ++ [Ev_malloc sizeof_ExampleStruct answer_struct;
                              Ev_malloc 50 answer_name;
                              Ev_free answer_name; Ev_free answer_struct]))).
Proof.
  intros Hh Hrun Hlt Ha Hf Han Hfn.
  pose proof (reachable_consistent h ops w Hh Hrun) as Hc.
  destruct (create_second file line_struct line_name n answer_struct answer_name w
              Hc) as (i & Hi & Hc1 & Hcnt & ->); [lia|done|done|].
  set (w1 := allocated w i zero_block sizeof_ExampleStruct file line_struct
                       MEMORY_TYPE_DYNAMIC answer_struct) in *.
  assert (mheap w1 = (answer_struct, sizeof_ExampleStruct) :: mheap w) as Hh1 by done.
  destruct (alloc_slot w1 50 file line_name MEMORY_TYPE_TEMPORARY answer_name Hc1)
    as (j & Hj & -> & Hc2 & Hcnt2); [lia|done|by rewrite Hh1|].
  set (w2 := allocated w1 j zero_block 50 file line_name MEMORY_TYPE_TEMPORARY
                       answer_name) in *.
  destruct (Z.eqb_spec answer_name NULL) as [|_]; [done|]. cbv zeta.
  cbn [structs].
  eexists. split; [done|]. cbn [globals structs strings].
  split; [by rewrite lookup_insert_eq|]. split; [by rewrite lookup_insert_eq|].
  assert (answer_name <> answer_struct) as Hne.
  { intros Heq. apply (fits_fresh _ _ _ answer_struct sizeof_ExampleStruct Hfn);
      [|by left|done].
    cbn [heap_wf fst snd]. by rewrite Hf, (c_heap w Hc). }
  unfold free_example_struct.
  destruct (Z.eqb_spec answer_struct NULL) as [|_]; [done|].
  unfold mbind at 1, M_bind at 1, get_globals at 1. cbn [globals structs].
  rewrite lookup_insert_eq. cbn [name].
  unfold DEALLOCATE.
  destruct (Z.eqb_spec answer_name NULL) as [|_]; [done|].
  destruct (Z.eqb_spec answer_struct NULL) as [|_]; [done|].
  unfold mbind at 1, M_bind at 1. unfold mbind at 1, M_bind at 1. unfold call at 1.
  unfold tracker_world at 1. cbn [globals mheap trace manager].
  rewrite (free_allocated w1 _ j 50 file line_name MEMORY_TYPE_TEMPORARY answer_name);
    [|done|done|by rewrite Hh1|done|done|done].
  unfold forget at 1, mbind at 1, M_bind at 1, get_globals at 1, set_globals at 1,
    with_tracker at 1.
  cbn [globals mheap trace manager structs strings].
  unfold mbind at 1, M_bind at 1. unfold call at 1.
  unfold tracker_world at 1. cbn [globals mheap trace manager].
  rewrite (free_allocated w _ i sizeof_ExampleStruct file line_struct MEMORY_TYPE_DYNAMIC
             answer_struct); [|done|done|done|done|done|done].
  unfold forget, mbind, M_bind, get_globals, set_globals, with_tracker, fresh_program.
  cbn [globals mheap trace manager structs strings static_timestamp].
  rewrite (delete_insert_ne _ answer_name answer_struct) by done.
  rewrite delete_empty, delete_insert_id by apply lookup_empty.
  rewrite delete_insert_id by apply lookup_empty. rewrite delete_empty.
  unfold w2, w1, allocated. cbn [globals trace static_timestamp].
  by rewrite <- !app_assoc.
Qed.

(** X25. Creating a structure and freeing it is a round trip.  In a state
    of the tracker reached from program start with two free slots, when
    both [malloc] calls succeed [create_example_struct] returns the address
    of the structure, which holds [id], the address of the name and the
    value, and the name holds the text [snprintf] wrote; then
    [free_example_struct] frees the name and after it the structure, and
    leaves the table, both counters and the heap as before the creation
    and nothing written by the program; the timestamp counter has advanced
    by two. *)
Theorem create_free_round_trip (h : heap) (ops : list op) (w : Manager.world)
    (file : string) (line_struct line_name n answer_struct answer_name : Z) :
  heap_wf h = true -> run ops (boot h) = Returned tt w ->
  current_block_count (tracker_of w) + 2 <= MAX_TRACKED_BLOCKS ->
  answer_struct <> NULL -> fits (mheap w) answer_struct sizeof_ExampleStruct = true ->
  answer_name <> NULL ->
  fits ((answer_struct, sizeof_ExampleStruct) :: mheap w) answer_name 50 = true ->
  exists s,
    create_example_struct file line_struct line_name n answer_struct answer_name
                          (fresh_program w) = Returned answer_struct s
    /\ structs (globals s) !! answer_struct
       = Some {| id := n; name := answer_name;
                 value := PrimFloat.mul (Double.double_of_int n) Double.double_3_14 |}
    /\ strings (globals s) !! answer_name = Some (snprintf_d 50 "Example Structure " n)
    /\ free_example_struct file answer_struct s
       = Returned tt
           (fresh_program
              (Machine
                 {| g_memory_tracker := tracker_of w;
                    static_timestamp :=
                      uint64_wrap (uint64_wrap (static_timestamp (globals w) + 1) + 1) |}
                 (mheap w)
                 (trace w ++ [Ev_malloc sizeof_ExampleStruct answer_struct;
                              Ev_malloc 50 answer_name;
                              Ev_free answer_name; Ev_free answer_struct]))).
Proof. apply create_then_free. Qed.

Lemma create_free_round_trip_witness :
  exists s,
    create_example_struct "main.c" 25 36 1 12288 16384
                          (fresh_program (final round_trip_allocs [])) = Returned 12288 s
    /\ structs (globals s) !! 12288
       = Some {| id := 1; name := 16384;
                 value := PrimFloat.mul (Double.double_of_int 1) Double.double_3_14 |}
    /\ strings (globals s) !! 16384 = Some (snprintf_d 50 "Example Structure " 1)
    /\ free_example_struct "main.c" 12288 s
       = Returned tt
           (fresh_program
              (Machine
                 {| g_memory_tracker := tracker_of (final round_trip_allocs []);
                    static_timestamp :=
                      uint64_wrap
                        (uint64_wrap
                           (static_timestamp (globals (final round_trip_allocs [])) + 1)
                         + 1) |}
                 (mheap (final round_trip_allocs []))
                 (trace (final round_trip_allocs [])
                  ++ [Ev_malloc sizeof_ExampleStruct 12288; Ev_malloc 50 16384;
                      Ev_free 16384; Ev_free 12288]))).
Proof.
  apply (create_free_round_trip [] round_trip_allocs (final round_trip_allocs [])
           "main.c" 25 36 1 12288 16384);
    [reflexivity|apply run_final; vm_compute; reflexivity|vm_compute; discriminate
    |done|vm_compute; reflexivity|done|vm_compute; reflexivity].
Defined.

(** X26. A structure is not freed twice.  After [create_example_struct] and
    [free_example_struct] as in X25, a second [free_example_struct] of the
    same address reads [example->name] from the freed structure: the
    behaviour is undefined, before any call of the tracker. *)
Theorem second_struct_free_undefined (h : heap) (ops : list op) (w : Manager.world)
    (file : string) (line_struct line_name n answer_struct answer_name : Z) :
  heap_wf h = true -> run ops (boot h) = Returned tt w ->
  current_block_count (tracker_of w) + 2 <= MAX_TRACKED_BLOCKS ->
  answer_struct <> NULL -> fits (mheap w) answer_struct sizeof_ExampleStruct = true ->
  answer_name <> NULL ->
  fits ((answer_struct, sizeof_ExampleStruct) :: mheap w) answer_name 50 = true ->
  exists s s',
    create_example_struct file line_struct line_name n answer_struct answer_name
                          (fresh_program w) = Returned answer_struct s
    /\ free_example_struct file answer_struct s = Returned tt s'
    /\ free_example_struct file answer_struct s' = Undefined s'.
Proof.
  intros Hh Hrun Hlt Ha Hf Han Hfn.
  destruct (create_then_free h ops w file line_struct line_name n answer_struct
              answer_name Hh Hrun Hlt Ha Hf Han Hfn) as (s & Hcreate & _ & _ & Hfree).
  eexists _, _. split; [exact Hcreate|]. split; [exact Hfree|].
  unfold free_example_struct.
  destruct (Z.eqb_spec answer_struct NULL) as [|_]; [done|].
  unfold mbind, M_bind, get_globals, fresh_program. cbn [globals structs].
  by rewrite lookup_empty.
Qed.

Lemma second_struct_free_undefined_witness :
  exists s s',
    create_example_struct "main.c" 25 36 1 12288 16384
                          (fresh_program (final round_trip_allocs [])) = Returned 12288 s
    /\ free_example_struct "main.c" 12288 s = Returned tt s'
    /\ free_example_struct "main.c" 12288 s' = Undefined s'.
Proof.
  apply (second_struct_free_undefined [] round_trip_allocs (final round_trip_allocs [])
           "main.c" 25 36 1 12288 16384);
    [reflexivity|apply run_final; vm_compute; reflexivity|vm_compute; discriminate
    |done|vm_compute; reflexivity|done|vm_compute; reflexivity].
Defined.
(** X27. [create_example_struct] fails clean.  When its first [ALLOCATE]
    returns [NULL], because the table is full or because [malloc] fails,
    it returns [NULL] after the tracker's diagnostic and its own
    ["Failed to create structure"]; it allocates nothing more, writes no
    structure, and leaves the table and the heap as they were. *)
Theorem create_fails_clean (w : Manager.world)
    (file : string) (line_struct line_name n answer_struct answer_name : Z) :
  MAX_TRACKED_BLOCKS <= current_block_count (tracker_of w) \/ answer_struct = NULL ->
  create_example_struct file line_struct line_name n answer_struct answer_name
                        (fresh_program w)
  = Returned NULL
      (fresh_program
         (log w ((if MAX_TRACKED_BLOCKS <=? current_block_count (tracker_of w)
                  then [Ev_printf stderr "ERROR: Memory tracker full\n" []]
                  else [Ev_malloc sizeof_ExampleStruct NULL;
                        Ev_printf stderr "CRITICAL: Allocation failed at %s:%d\n"
                                  [arg_s file; arg_d line_struct]])
                 ++ [Ev_printf stderr "Failed to create structure\n" []]))).
Proof. apply create_fails. Qed.

Lemma create_fails_clean_witness :
  create_example_struct "main.c" 25 36 1 NULL 8192 (fresh_program (boot []))
  = Returned NULL
      (fresh_program
         (log (boot [])
              ((if MAX_TRACKED_BLOCKS <=? current_block_count (tracker_of (boot []))
                then [Ev_printf stderr "ERROR: Memory tracker full\n" []]
                else [Ev_malloc sizeof_ExampleStruct NULL;
                      Ev_printf stderr "CRITICAL: Allocation failed at %s:%d\n"
                                [arg_s "main.c"; arg_d 25]])
               ++ [Ev_printf stderr "Failed to create structure\n" []]))).
Proof.
  apply (create_fails_clean (boot []) "main.c" 25 36 1 NULL 8192). by right.
Defined.
End DemoMore.
